(** * youtube_converter: the decision layer of [app.py]

    A shallow embedding of the pure and state-passing parts of [app.py]:
    the two sanitizers, the quality extractor, the progress hook and the
    download orchestrator, followed by the properties the specification
    states about them.

    Conventions of the embedding.
    - A Python [str] is the list of its code points ([list N]); [lit]
      turns an ASCII literal of the source into such a list.
    - A Python object coming from the extraction library is a [pyval];
      a [dict] with string keys is a [gmap].
    - An operation that can raise returns a [result]; only exceptions
      deriving from [Exception] are modelled.
    - An [int] is a [Z]; the conversion of an [int] of the metadata to
      text raises [ValueError] beyond 4300 decimal digits, as the
      interpreter does.
    - The calls into Streamlit and yt-dlp are recorded, in program order,
      in a trace of [effect]s. *)

From Stdlib Require Import ZArith NArith String Ascii List SpecFloat Lia.
From stdpp Require Import gmap strings list fin_maps pretty sorting.

Set Warnings "-register-all".
Open Scope Z_scope.

(** ** Strings *)

Abbreviation str := (list N).

Definition lit (s : string) : str :=
  (λ a, N_of_ascii a) <$> String.list_ascii_of_string s.
#[global] Arguments lit : simpl never.

(** [needle in hay] for two strings: the substring test. *)
Fixpoint starts_with (p s : str) : bool :=
  match p, s with
  | [], _ => true
  | a :: p', b :: s' => (a =? b)%N && starts_with p' s'
  | _ :: _, [] => false
  end.

Fixpoint py_in (needle hay : str) : bool :=
  starts_with needle hay ||
  match hay with
  | [] => false
  | _ :: t => py_in needle t
  end.

(** [s[:-1]]: everything but the last character; empty on the empty string. *)
Definition slice_to_last (s : str) : str := take (length s - 1)%nat s.

(** The decimal text of an integer: [str(n)] for an [int] of at most
    4300 decimal digits.  The counters of the progress tracker, which
    start at 1 and grow by one for each event, are formatted with it; the
    heights supplied by the library, on which there is no bound, go
    through [format_value] below, which raises beyond the interpreter's
    limit on the number of digits. *)
Definition str_of_int (z : Z) : str := lit (pretty z).

(** ** Python values *)

Inductive pyval :=
| PyNone
| PyBool (b : bool)
| PyInt (z : Z)
| PyFloat (x : spec_float)
| PyStr (s : str)
| PyList (l : list pyval)
| PyDict (d : gmap str pyval).

Abbreviation pydict := (gmap str pyval).

Definition type_name (v : pyval) : string :=
  match v with
  | PyNone => "NoneType"
  | PyBool _ => "bool"
  | PyInt _ => "int"
  | PyFloat _ => "float"
  | PyStr _ => "str"
  | PyList _ => "list"
  | PyDict _ => "dict"
  end.

(** Truth value of an object, as [not x] and [if x] compute it. *)
Definition truthy (v : pyval) : bool :=
  match v with
  | PyNone => false
  | PyBool b => b
  | PyInt z => negb (z =? 0)
  | PyFloat x => match x with S754_zero _ => false | _ => true end
  | PyStr s => negb (bool_decide (s = []))
  | PyList l => match l with [] => false | _ => true end
  | PyDict d => negb (bool_decide (dom d = ∅))
  end.

(** [v == 'literal'] and [v != 'literal']: an object that is not a [str]
    is never equal to one. *)
Definition eq_str (v : pyval) (s : str) : bool :=
  match v with
  | PyStr t => bool_decide (t = s)
  | _ => false
  end.

Definition ne_str (v : pyval) (s : str) : bool := negb (eq_str v s).

(** The instances of [int]: [bool] is a subclass of [int]. *)
Inductive int_instance :=
| AnInt (z : Z)
| ABool (b : bool).

Definition as_int_instance (v : pyval) : option int_instance :=
  match v with
  | PyInt z => Some (AnInt z)
  | PyBool b => Some (ABool b)
  | _ => None
  end.

(** [isinstance(v, int)] *)
Definition isinstance_int (v : pyval) : bool :=
  match as_int_instance v with Some _ => true | None => false end.

(** [isinstance(v, str)] *)
Definition isinstance_str (v : pyval) : bool :=
  match v with PyStr _ => true | _ => false end.

(** The number an [int] instance compares and hashes as: [True == 1]. *)
Definition int_value (i : int_instance) : Z :=
  match i with
  | AnInt z => z
  | ABool b => Z.b2z b
  end.

(** The text of [f"{i}"] for an [int] instance within the digit limit. *)
Definition format_int_instance (i : int_instance) : str :=
  match i with
  | AnInt z => str_of_int z
  | ABool true => lit "True"
  | ABool false => lit "False"
  end.

(** ** Exceptions *)

Inductive exn_class :=
  AttributeError | TypeError | KeyError | IndexError | ValueError | OtherError.

(** An exception: its class and [str(e)]. *)
Record exn := Exn { exn_cls : exn_class; exn_msg : str }.

Inductive result (A : Type) :=
| Ok (a : A)
| Raise (e : exn).
Arguments Ok {A} a.
Arguments Raise {A} e.

#[global] Instance result_ret : MRet result := λ A a, Ok a.
#[global] Instance result_bind : MBind result := λ A B k m,
  match m with
  | Ok a => k a
  | Raise e => Raise e
  end.

(** Turning an [int] into a [str] raises [ValueError] when the number has
    more decimal digits than [sys.int_max_str_digits], 4300 unless it was
    changed: that is, when its absolute value reaches [10 ^ 4300]. *)
Definition int_max_str_digits : Z := 4300.

Definition int_str_limit : Z := 10 ^ int_max_str_digits.

Definition int_str_error : exn :=
  Exn ValueError
    (lit "Exceeds the limit (4300 digits) for integer string conversion; use sys.set_int_max_str_digits() to increase the limit").

(** [f"{i}"] for an instance of [int] coming from the metadata. *)
Definition format_value (i : int_instance) : result str :=
  match i with
  | AnInt z => if int_str_limit <=? Z.abs z then Raise int_str_error else Ok (str_of_int z)
  | ABool b => Ok (format_int_instance (ABool b))
  end.

(** A list comprehension whose element expression can raise. *)
Fixpoint comprehension {A B : Type} (f : A → result B) (l : list A) : result (list B) :=
  match l with
  | [] => Ok []
  | x :: l' => y ← f x; ys ← comprehension f l'; Ok (y :: ys)
  end.

Definition quoted (s : string) : str := lit "'" ++ lit s ++ lit "'".

Definition no_attribute (v : pyval) (attr : string) : exn :=
  Exn AttributeError (quoted (type_name v) ++ lit " object has no attribute " ++ quoted attr).

(** [v.get(key)] and [v.get(key, default)]: only a [dict] has a [get]. *)
Definition py_get (v : pyval) (key : str) (dflt : pyval) : result pyval :=
  match v with
  | PyDict d => Ok (default dflt (d !! key))
  | _ => Raise (no_attribute v "get")
  end.

(** [d[key]] on a [dict] with string keys. *)
Definition dict_item (d : pydict) (key : string) : result pyval :=
  match d !! lit key with
  | Some v => Ok v
  | None => Raise (Exn KeyError (quoted key))
  end.

(** [v[0]] *)
Definition py_item0 (v : pyval) : result pyval :=
  match v with
  | PyList (x :: _) => Ok x
  | PyList [] => Raise (Exn IndexError (lit "list index out of range"))
  | PyStr (c :: _) => Ok (PyStr [c])
  | PyStr [] => Raise (Exn IndexError (lit "string index out of range"))
  | PyDict _ => Raise (Exn KeyError (lit "0"))
  | _ => Raise (Exn TypeError (quoted (type_name v) ++ lit " object is not subscriptable"))
  end.

(** The objects a [for] loop over [v] visits.  A [dict] yields its keys
    (their order is not modelled: the program never depends on it). *)
Definition py_iter (v : pyval) : result (list pyval) :=
  match v with
  | PyList l => Ok l
  | PyStr s => Ok ((λ c, PyStr [c]) <$> s)
  | PyDict d => Ok ((λ kv, PyStr kv.1) <$> map_to_list d)
  | _ => Raise (Exn TypeError (quoted (type_name v) ++ lit " object is not iterable"))
  end.

(** A loop whose body can raise: the first exception ends it. *)
Fixpoint for_each {A S : Type} (body : S → A → result S) (s : S) (l : list A) : result S :=
  match l with
  | [] => Ok s
  | x :: l' => s' ← body s x; for_each body s' l'
  end.

(** ** Regular expressions

    The fragment of [re] the program uses: literals, character classes
    given as ranges, concatenation, ordered alternation and the greedy
    star of a class.  [re_match r s k] is the backtracking matcher:
    it tries the ways [r] can match a prefix of [s] in priority order and
    returns the first for which the continuation [k] accepts the rest. *)

Inductive regex :=
| Chr (c : N)
| Cls (ranges : list (N * N))
| Cat (r1 r2 : regex)
| Alt (r1 r2 : regex)
| StarCls (ranges : list (N * N)).

Definition in_class (ranges : list (N * N)) (c : N) : bool :=
  existsb (λ r, (r.1 <=? c)%N && (c <=? r.2)%N) ranges.

Fixpoint star_match (ranges : list (N * N)) (k : str → option str) (s : str) : option str :=
  match s with
  | c :: s' =>
      if in_class ranges c then
        match star_match ranges k s' with
        | Some rest => Some rest
        | None => k s
        end
      else k s
  | [] => k []
  end.

Fixpoint re_match (r : regex) (s : str) (k : str → option str) : option str :=
  match r with
  | Chr c =>
      match s with
      | a :: s' => if (a =? c)%N then k s' else None
      | [] => None
      end
  | Cls ranges =>
      match s with
      | a :: s' => if in_class ranges a then k s' else None
      | [] => None
      end
  | Cat r1 r2 => re_match r1 s (λ s', re_match r2 s' k)
  | Alt r1 r2 =>
      match re_match r1 s k with
      | Some rest => Some rest
      | None => re_match r2 s k
      end
  | StarCls ranges => star_match ranges k s
  end.

(** The text left after the match of [r] at the start of [s], if any. *)
Definition match_at (r : regex) (s : str) : option str := re_match r s Some.

(** [re.sub(r, repl, s)] for a pattern that never matches the empty
    string (both patterns of the program consume a character): scan left
    to right; at a match emit [repl] and resume after it, otherwise copy
    one character.  [skip] counts the characters of the current match
    still to be passed over. *)
Fixpoint re_sub_from (r : regex) (repl : str) (skip : nat) (s : str) : str :=
  match s with
  | [] => []
  | c :: s' =>
      match skip with
      | S n => re_sub_from r repl n s'
      | O =>
          match match_at r s with
          | Some rest =>
              if (length rest <? length s)%nat
              then repl ++ re_sub_from r repl (length s' - length rest) s'
              else c :: re_sub_from r repl 0 s'
          | None => c :: re_sub_from r repl 0 s'
          end
      end
  end.

Definition re_sub (r : regex) (repl : str) (s : str) : str := re_sub_from r repl 0 s.

Definition ch (a : ascii) : N := N_of_ascii a.
Definition one (a : ascii) : N * N := (ch a, ch a).
Definition range (a b : ascii) : N * N := (ch a, ch b).

(** ** Helper functions of [app.py] *)

(** The character class of line 11: less-than, greater-than, colon,
    double quote (code 34), slash, backslash, bar, question mark, star. *)
Definition filename_pattern : regex :=
  Cls [one "<"; one ">"; one ":"; (34%N, 34%N); one "/"; one "\"; one "|"; one "?"; one "*"].

Definition sanitize_filename (filename : str) : str :=
  re_sub filename_pattern (lit "_") filename.

(** The pattern [\x1B(?:[@-Z\\-_]|\[[0-?]*[ -/]*[@-~])]. *)
Definition ansi_escape : regex :=
  Cat (Chr 27%N)
      (Alt (Cls [range "@" "Z"; range "\" "_"])
           (Cat (Chr (ch "["))
                (Cat (StarCls [range "0" "?"])
                     (Cat (StarCls [range " " "/"])
                          (Cls [range "@" "~"]))))).

Definition sanitize_for_display (text : pyval) : str :=
  match text with
  | PyStr s => re_sub ansi_escape [] s
  | _ => []
  end.

(** ** The quality extractor *)

(** A [set] whose members are [int] instances.  Members are identified
    by the number they compare and hash as, and [add] keeps the object
    already present, as Python's [set.add] does. *)
Abbreviation int_set := (gmap Z int_instance).

Definition set_add (i : int_instance) (s : int_set) : int_set :=
  match s !! int_value i with
  | Some _ => s
  | None => <[int_value i := i]> s
  end.

(** [list(s)]; the order of the members is the map's, which the program
    does not depend on since it sorts the list. *)
Definition set_to_list (s : int_set) : list int_instance := (map_to_list s).*2.

(** [not s] *)
Definition set_is_empty (s : int_set) : bool := bool_decide (size s = 0%nat).

(** [sorted(l, reverse=True)] on [int] instances: [before a b] says that
    [a] may stand before [b] in the result. *)
Definition before (a b : int_instance) : Prop := int_value b ≤ int_value a.

#[global] Instance before_dec : RelDecision before :=
  λ a b, Z_le_dec (int_value b) (int_value a).

Definition sorted_reverse (l : list int_instance) : list int_instance :=
  merge_sort before l.

(** The condition of line 39, evaluated left to right. *)
Definition accepts (f : pyval) : result bool :=
  vcodec ← py_get f (lit "vcodec") PyNone;
  if ne_str vcodec (lit "none") then
    ext ← py_get f (lit "ext") PyNone;
    if eq_str ext (lit "mp4") then
      height ← py_get f (lit "height") PyNone;
      Ok (isinstance_int height)
    else Ok false
  else Ok false.

(** The body of the loop of lines 38-40. *)
Definition collect_quality (qualities : int_set) (f : pyval) : result int_set :=
  ok ← accepts f;
  if (ok : bool) then
    height ← py_get f (lit "height") PyNone;
    match as_int_instance height with
    | Some i => Ok (set_add i qualities)
    | None => Ok qualities
    end
  else Ok qualities.

(** The label of a height, and [f"{q}p"] of line 46, which produces it
    or raises. *)
Definition quality_label (q : int_instance) : str := format_int_instance q ++ lit "p".

Definition format_quality (q : int_instance) : result str :=
  text ← format_value q; Ok (text ++ lit "p").

Definition fallback_qualities : list str := [lit "720p"; lit "360p"].

Definition extract_available_qualities (info_dict : pydict) : result (list str) :=
  formats ← py_iter (default (PyList []) (info_dict !! lit "formats"));
  qualities ← for_each collect_quality ∅ formats;
  if set_is_empty qualities then Ok fallback_qualities
  else
    let sorted_qualities := sorted_reverse (set_to_list qualities) in
    comprehension format_quality sorted_qualities.

(** ** Effects *)

(** The options passed to [yt_dlp.YoutubeDL]; the [progress_hooks] entry
    is the closure over [progress_hook], which [handle_download] below
    runs on the events of the call. *)
Record YdlOptions := MkYdlOptions {
  outtmpl : str;
  quiet : bool;
  no_warnings : bool;
  format : str;
  postprocessors : list pydict
}.

Inductive effect :=
| StStatus (label : str) (expanded : bool)
| StatusUpdate (label : str) (state : option str) (expanded : option bool)
| StWrite (text : str)
| StError (text : str)
| StDownloadButton (label : str) (data : list N) (file_name : str) (mime : str)
                   (use_container_width : bool)
| SessionSetStatusBox
| SessionDelStatusBox
| YdlExtractInfo (opts : YdlOptions) (url : str) (download : bool).

(** A computation that performs effects and returns or raises. *)
Definition io (A : Type) : Type := list effect * result A.

#[global] Instance io_ret : MRet io := λ A a, ([], Ok a).
#[global] Instance io_bind : MBind io := λ A B k m,
  match m.2 with
  | Ok a => (m.1 ++ (k a).1, (k a).2)
  | Raise e => (m.1, Raise e)
  end.

Definition emit (e : effect) : io unit := ([e], Ok tt).
Definition lift {A} (r : result A) : io A := ([], r).

(** [try: body except Exception as e: handler(e)] *)
Definition try_except {A} (body : io A) (handler : exn → io A) : io A :=
  match body.2 with
  | Ok a => body
  | Raise e => (body.1 ++ (handler e).1, (handler e).2)
  end.

(** [try: body finally: cleanup] *)
Definition try_finally {A} (body : io A) (cleanup : io unit) : io A :=
  match cleanup.2 with
  | Ok _ => (body.1 ++ cleanup.1, body.2)
  | Raise e => (body.1 ++ cleanup.1, Raise e)
  end.

(** ** The progress tracker *)

(** The dict [{'step': ..., 'total_steps': ...}] of line 69. *)
Record ProgressState := MkProgressState { step : Z; total_steps : Z }.

(** [progress_hook(d, status_box, progress_state)]: the new state and the
    updates made to the status box. *)
Definition progress_hook (d : pydict) (progress_state : ProgressState)
  : result (list effect * ProgressState) :=
  status ← dict_item d "status";
  if eq_str status (lit "downloading") then
    let percent_str := sanitize_for_display (default (PyStr (lit "0.0%")) (d !! lit "_percent_str")) in
    let speed_str := sanitize_for_display (default (PyStr (lit "N/A")) (d !! lit "_speed_str")) in
    let eta_str := sanitize_for_display (default (PyStr (lit "N/A")) (d !! lit "_eta_str")) in
    let step_info :=
      lit "Step " ++ str_of_int (step progress_state) ++ lit "/"
        ++ str_of_int (total_steps progress_state) ++ lit ":" in
    Ok ([StatusUpdate (step_info ++ lit " Downloading... " ++ percent_str ++ lit " ("
                         ++ speed_str ++ lit " - ETA: " ++ eta_str ++ lit ")") None None],
        progress_state)
  else
    status ← dict_item d "status";
    if eq_str status (lit "finished") then
      let progress_state :=
        {| step := step progress_state + 1; total_steps := total_steps progress_state |} in
      let step_info :=
        lit "Step " ++ str_of_int (step progress_state - 1) ++ lit "/"
          ++ str_of_int (total_steps progress_state) ++ lit ":" in
      Ok ([StatusUpdate (step_info ++ lit " Download finished. Starting conversion...") None None],
          progress_state)
    else Ok ([], progress_state).

(** The hook as a computation, and its run over the events of one call. *)
Definition hook_io (d : pydict) (progress_state : ProgressState) : io ProgressState :=
  match progress_hook d progress_state with
  | Ok (updates, progress_state') => (updates, Ok progress_state')
  | Raise e => ([], Raise e)
  end.

Fixpoint run_hooks (events : list pydict) (progress_state : ProgressState) : io ProgressState :=
  match events with
  | [] => mret progress_state
  | d :: events' => progress_state' ← hook_io d progress_state; run_hooks events' progress_state'
  end.

(** ** The download orchestrator *)

(** Lines 69-80: the progress state, the format string and the
    post-processors chosen from the user's selection. *)
Record plan := Plan {
  plan_progress : ProgressState;
  plan_format : str;
  plan_postprocessors : list pydict
}.

Definition mp4_format_string (height : str) : str :=
  lit "bestvideo[ext=mp4][height<=" ++ height ++ lit "]+bestaudio[ext=m4a]/best[ext=mp4][height<="
    ++ height ++ lit "]".

Definition download_plan (format_type quality_setting : str) : plan :=
  let progress_state := {| step := 1; total_steps := 1 |} in
  if bool_decide (format_type = lit "mp3") then
    {| plan_progress := progress_state;
       plan_format := lit "bestaudio/best";
       plan_postprocessors :=
         [ {[ lit "key" := PyStr (lit "FFmpegExtractAudio");
              lit "preferredcodec" := PyStr (lit "mp3");
              lit "preferredquality" := PyStr quality_setting ]} ] |}
  else
    let height := slice_to_last quality_setting in
    let format_string := mp4_format_string height in
    {| plan_progress :=
         if py_in (lit "+") format_string
         then {| step := step progress_state; total_steps := 2 |}
         else progress_state;
       plan_format := format_string;
       plan_postprocessors := [] |}.

(** The bit rates offered by the select box of [main] (line 179). *)
Definition mp3_bitrates : list str := [lit "128"; lit "192"; lit "256"; lit "320"].

Section HandleDownload.

(** The collaborators: the temporary directory, [os.path], the file
    system and the extraction library.  [ydl_extract_info opts url]
    gives the events the library delivers to the progress hooks during
    the call and what the call returns or raises. *)
Variable temp_dir : str.
Variable os_path_join : str → str → str.
Variable os_path_exists : pyval → result bool.
Variable os_path_basename : pyval → result str.
Variable read_bytes : pyval → result (list N).
Variable ydl_extract_info : YdlOptions → str → list pydict * result pyval.

(** Line 99: the call, the hooks it runs, its outcome.  An exception
    raised by a hook leaves the call. *)
Definition extract_info (opts : YdlOptions) (url : str) (progress_state : ProgressState)
  : io pyval :=
  emit (YdlExtractInfo opts url true);;
  run_hooks (ydl_extract_info opts url).1 progress_state;;
  lift (ydl_extract_info opts url).2.

(** Line 100 *)
Definition resolve_filepath (info_dict : pyval) : result pyval :=
  requested ← py_get info_dict (lit "requested_downloads") (PyList [PyDict ∅]);
  first ← py_item0 requested;
  py_get first (lit "filepath") PyNone.

(** Line 102: [not actual_filepath or not os.path.exists(actual_filepath)] *)
Definition file_missing (actual_filepath : pyval) : result bool :=
  if negb (truthy actual_filepath) then Ok true
  else found ← os_path_exists actual_filepath; Ok (negb found).

(** Lines 66-67 and 82-89 *)
Definition ydl_opts (title format_type quality_setting : str) : YdlOptions :=
  let safe_title := sanitize_filename title in
  let output_template := os_path_join temp_dir (safe_title ++ lit ".%(ext)s") in
  let p := download_plan format_type quality_setting in
  {| outtmpl := output_template; quiet := true; no_warnings := true;
     format := plan_format p; postprocessors := plan_postprocessors p |}.

(** Lines 93-119: the body of the [try] block. *)
Definition download_body (url title format_type quality_setting : str) : io unit :=
  let p := download_plan format_type quality_setting in
  emit (StStatus (lit "Starting...") true);;
  emit SessionSetStatusBox;;
  emit (StatusUpdate (lit "Step 1/" ++ str_of_int (total_steps (plan_progress p))
                        ++ lit ": Initializing...") None None);;
  emit (StWrite ([9881; 65039]%N ++ lit " Starting download process..."));;
  info_dict ← extract_info (ydl_opts title format_type quality_setting) url (plan_progress p);
  actual_filepath ← lift (resolve_filepath info_dict);
  missing ← lift (file_missing actual_filepath);
  if (missing : bool) then
    emit (StatusUpdate (lit "Download Failed") (Some (lit "error")) (Some false));;
    emit (StError (lit "Could not retrieve the final file."))
  else
    name ← lift (os_path_basename actual_filepath);
    emit (StWrite ([9989%N] ++ lit " File saved as: " ++ name));;
    emit (StatusUpdate (lit "Download complete!") (Some (lit "complete")) (Some false));;
    file_bytes ← lift (read_bytes actual_filepath);
    emit (StDownloadButton ([128229%N] ++ lit " Download " ++ name) file_bytes name
            (if bool_decide (format_type = lit "mp3") then lit "audio/mpeg" else lit "video/mp4")
            true).

(** The effects of one call of [handle_download], in order. *)
Definition handle_download (url title format_type quality_setting : str) : list effect :=
  (try_finally
     (try_except (download_body url title format_type quality_setting)
        (λ e, emit (StError (lit "An unexpected error occurred: " ++ exn_msg e))))
     (emit SessionDelStatusBox)).1.

End HandleDownload.

(** ** The page script

    Streamlit runs [main] from top to bottom on every interaction.  One
    run reads the session state and the values of the widgets and leaves
    a new session state, the Streamlit calls it made and, when the run
    was cut short, the exception that ended it.  Layout containers and
    columns are not recorded. *)

(** [st.session_state] after lines 130-132: the cached metadata, the
    quality labels and the last URL seen.  The [status_box] entry lives
    only during [handle_download]. *)
Record session_state := SessionState {
  video_info : option pydict;
  available_qualities : list str;
  last_url : option str
}.

(** The session of a new browser tab, once lines 130-132 have run. *)
Definition new_session : session_state :=
  {| video_info := None; available_qualities := []; last_url := None |}.

(** What the widgets return in one run: the text of the URL field, which
    buttons were clicked, and the positions chosen in the radio and the
    two select boxes. *)
Record widgets := Widgets {
  url_input : str;
  analyze_clicked : bool;
  format_index : nat;
  bitrate_index : nat;
  resolution_index : nat;
  download_clicked : bool
}.

(** [st.radio]: the chosen option of a list that is not empty, the first
    one by default. *)
Definition radio {A} (first : A) (others : list A) (i : nat) : A :=
  default first ((first :: others) !! i).

(** [st.selectbox]: the chosen option, the first one by default, and
    [None] when there is no option. *)
Definition selectbox {A} (options : list A) (i : nat) : option A :=
  match options with
  | [] => None
  | first :: _ => Some (default first (options !! i))
  end.

Definition format_choices : list str :=
  [ [127926%N] ++ lit " MP3 (Audio)"; [127916%N] ++ lit " MP4 (Video)" ].

Inductive main_effect :=
| MSetPageConfig
| MTitle (text : str)
| MTextInput (label : str)
| MButton (label : str)
| MSpinner (text : str)
| MProbe (url : str)
| MWarning (text : str)
| MError (text : str)
| MImage (image : pyval)
| MSubheader (text : pyval)
| MRadio (label : str) (options : list str)
| MWrite (text : str)
| MSelectbox (label : str) (options : list str)
| MDownload (url : str) (title : str) (format_type : str) (quality_setting : str)
            (trace : list effect).

Record outcome := Outcome {
  final : session_state;
  shown : list main_effect;
  raised : option exn
}.

(** What [ydl.extract_info(url, download=False)] does: it returns a
    dictionary or [None], raises [yt_dlp.utils.DownloadError], or raises
    something else. *)
Inductive probe :=
| ProbeReturns (info : option pydict)
| ProbeDownloadError (msg : str)
| ProbeRaises (e : exn).

(** Lines 128-143: what every run shows first. *)
Definition page_head : list main_effect :=
  [ MSetPageConfig; MTitle ([128640%N] ++ lit " Open Source YouTube Downloader");
    MTextInput ([128279%N] ++ lit " Enter the YouTube URL"); MButton (lit "Analyze Video") ].

(** [if info:] on a value that is a dictionary or [None]. *)
Definition info_truthy (info : option pydict) : bool :=
  match info with
  | Some d => truthy (PyDict d)
  | None => false
  end.

Section Main.

Variable temp_dir : str.
Variable os_path_join : str → str → str.
Variable os_path_exists : pyval → result bool.
Variable os_path_basename : pyval → result str.
Variable read_bytes : pyval → result (list N).
Variable ydl_extract_info : YdlOptions → str → list pydict * result pyval.

(** The metadata call of the library, and the exception [re.sub] raises
    on a value that is not a string. *)
Variable ydl_probe : str → probe.
Variable re_type_error : pyval → exn.

(** Lines 22-29 *)
Definition get_video_info (url : str) : result (option pydict) :=
  match ydl_probe url with
  | ProbeReturns info => Ok info
  | ProbeDownloadError _ => Ok None
  | ProbeRaises e => Raise e
  end.

(** Lines 138-141 *)
Definition note_url (s : session_state) (url : str) : session_state :=
  if negb (bool_decide (url = [])) && negb (bool_decide (last_url s = Some url))
  then {| video_info := None; available_qualities := []; last_url := Some url |}
  else s.

(** Lines 144-154: the click on Analyze Video. *)
Definition analyze (s : session_state) (url : str) : outcome :=
  if bool_decide (url = []) then
    {| final := s; shown := [MWarning (lit "Please enter a URL.")]; raised := None |}
  else
    match get_video_info url with
    | Raise e =>
        {| final := s; shown := [MSpinner (lit "Analyzing..."); MProbe url]; raised := Some e |}
    | Ok info =>
        if info_truthy info then
          let s1 := {| video_info := info; available_qualities := available_qualities s;
                       last_url := last_url s |} in
          match extract_available_qualities (default ∅ info) with
          | Ok qualities =>
              {| final := {| video_info := info; available_qualities := qualities;
                             last_url := last_url s |};
                 shown := [MSpinner (lit "Analyzing..."); MProbe url];
                 raised := None |}
          | Raise e =>
              {| final := s1; shown := [MSpinner (lit "Analyzing..."); MProbe url];
                 raised := Some e |}
          end
        else
          {| final := {| video_info := None; available_qualities := available_qualities s;
                         last_url := last_url s |};
             shown := [MSpinner (lit "Analyzing..."); MProbe url;
                       MError (lit "Video not found. Please check the URL.")];
             raised := None |}
    end.

(** The call of line 191: [sanitize_filename] raises on a title that is
    not a string, before anything is shown. *)
Definition start_download (url : str) (title : pyval) (format_type quality_setting : str)
  : list main_effect * option exn :=
  match title with
  | PyStr t =>
      ([MDownload url t format_type quality_setting
          (handle_download temp_dir os_path_join os_path_exists os_path_basename read_bytes
             ydl_extract_info url t format_type quality_setting)], None)
  | _ => ([], Some (re_type_error title))
  end.

(** Line 171 *)
Definition format_type_of (format_choice : str) : str :=
  if py_in (lit "MP3") format_choice then lit "mp3" else lit "mp4".

(** Lines 174-187: the quality chosen in the select box of the format. *)
Definition quality_choice (s : session_state) (w : widgets) (format_type : str) : option str :=
  if bool_decide (format_type = lit "mp3")
  then selectbox mp3_bitrates (bitrate_index w)
  else selectbox (available_qualities s) (resolution_index w).

(** Lines 156-191: the part of the page shown for a cached video. *)
Definition video_section (s : session_state) (w : widgets) : list main_effect * option exn :=
  if info_truthy (video_info s) then
    let info := default ∅ (video_info s) in
    let title := default (PyStr (lit "Untitled")) (info !! lit "title") in
    let thumbnail_url := default PyNone (info !! lit "thumbnail") in
    let format_choice :=
      radio ([127926%N] ++ lit " MP3 (Audio)") [[127916%N] ++ lit " MP4 (Video)"]
        (format_index w) in
    let format_type := format_type_of format_choice in
    let quality_setting := quality_choice s w format_type in
    let page :=
      (if truthy thumbnail_url then [MImage thumbnail_url] else []) ++
      [MSubheader title; MRadio (lit "**1. Choose format**") format_choices;
       MWrite (lit "**2. Choose quality**");
       if bool_decide (format_type = lit "mp3")
       then MSelectbox (lit "Audio Bitrate (lower is faster)") mp3_bitrates
       else MSelectbox (lit "Video Resolution (higher is slower)") (available_qualities s);
       MButton (lit "Start Download")] in
    if download_clicked w then
      match quality_setting with
      | Some (c :: q) =>
          (page ++ (start_download (url_input w) title format_type (c :: q)).1,
           (start_download (url_input w) title format_type (c :: q)).2)
      | _ => (page, None)
      end
    else (page, None)
  else ([], None).

(** Lines 137-154: the run up to the end of the first container. *)
Definition analysis (s : session_state) (w : widgets) : outcome :=
  if analyze_clicked w then analyze (note_url s (url_input w)) (url_input w)
  else {| final := note_url s (url_input w); shown := []; raised := None |}.

(** Lines 127-191: one run of the script. *)
Definition main (s : session_state) (w : widgets) : outcome :=
  let a := analysis s w in
  match raised a with
  | Some e => {| final := final a; shown := page_head ++ shown a; raised := Some e |}
  | None =>
      {| final := final a;
         shown := page_head ++ shown a ++ (video_section (final a) w).1;
         raised := (video_section (final a) w).2 |}
  end.

(** The session after a series of interactions; a run that raised leaves
    the session as it was when the exception occurred. *)
Definition interact (s : session_state) (ws : list widgets) : session_state :=
  fold_left (λ s w, final (main s w)) ws s.

(** The cached video was fetched for the last URL. *)
Definition video_of_last_url (s : session_state) : Prop :=
  info_truthy (video_info s) = true →
  ∃ url, last_url s = Some url ∧ url ≠ [] ∧ get_video_info url = Ok (video_info s).

(** The quality list is the one extracted from the cached video. *)
Definition qualities_of_video (s : session_state) : Prop :=
  info_truthy (video_info s) = true →
  ∃ d, video_info s = Some d ∧ extract_available_qualities d = Ok (available_qualities s).

End Main.

(** ** Notions of the specification *)

(** The nine characters a file name must not contain. *)
Definition forbidden_chars : str := lit "<>:" ++ [34%N] ++ lit "/\|?*".

Definition replace_forbidden (c : N) : N :=
  if bool_decide (c ∈ forbidden_chars) then ch "_" else c.

(** Escape sequences, after ECMA-48: the two-character form is ESC and a
    byte of columns 4-5 other than the CSI introducer; the CSI form is
    ESC, the introducer, parameter bytes, intermediate bytes and a final
    byte. *)
Definition ESC : N := 27%N.
Definition is_two_char_final (c : N) : Prop := (64 ≤ c ≤ 95)%N ∧ c ≠ ch "[".
Definition is_parameter (c : N) : Prop := (48 ≤ c ≤ 63)%N.
Definition is_intermediate (c : N) : Prop := (32 ≤ c ≤ 47)%N.
Definition is_final (c : N) : Prop := (64 ≤ c ≤ 126)%N.

Inductive escape_seq : str → Prop :=
| escape_two_char c :
    is_two_char_final c → escape_seq [ESC; c]
| escape_csi ps ints f :
    Forall is_parameter ps → Forall is_intermediate ints → is_final f →
    escape_seq (ESC :: ch "[" :: ps ++ ints ++ [f]).

(** [e] occurs somewhere in [s]. *)
Definition occurs_in (e s : str) : Prop := ∃ a b, s = a ++ e ++ b.

Definition escape_free (s : str) : Prop := ∀ e, escape_seq e → ¬ occurs_in e s.

(** [stripped s out]: [out] is [s] read left to right with every escape
    sequence met on the way left out. *)
Inductive stripped : str → str → Prop :=
| stripped_nil : stripped [] []
| stripped_skip e s out :
    escape_seq e → stripped s out → stripped (e ++ s) out
| stripped_keep c s out :
    (∀ e, escape_seq e → ¬ e `prefix_of` (c :: s)) →
    stripped s out → stripped (c :: s) (c :: out).

(** The characters of a class standing at the start of [s], passed over. *)
Fixpoint skip_class (ranges : list (N * N)) (s : str) : str :=
  match s with
  | c :: s' => if in_class ranges c then skip_class ranges s' else s
  | [] => []
  end.

(** What the CSI branch of [ansi_escape] leaves of the text [u] that
    follows the introducer. *)
Definition csi_rest (u : str) : option str :=
  match skip_class [range " " "/"] (skip_class [range "0" "?"] u) with
  | f :: rest => if in_class [range "@" "~"] f then Some rest else None
  | [] => None
  end.

(** The [height] of a format entry when it is an [int] instance. *)
Definition entry_height (f : pydict) : option int_instance :=
  as_int_instance (default PyNone (f !! lit "height")).

(** A format entry passes the filter: video-bearing, MP4 container,
    integer height. *)
Definition accepted (f : pydict) : Prop :=
  f !! lit "vcodec" ≠ Some (PyStr (lit "none")) ∧
  f !! lit "ext" = Some (PyStr (lit "mp4")) ∧
  is_Some (entry_height f).

(** A height within the digit limit of the conversion to text. *)
Definition within_str_limit (i : int_instance) : Prop := Z.abs (int_value i) < int_str_limit.

(** A format entry whose height, if the entry is accepted, can be turned
    into a label. *)
Definition printable_height (f : pydict) : Prop :=
  ∀ i, accepted f → entry_height f = Some i → within_str_limit i.

(** The two-character escape sequences of ISO 2022 and the VT100: ESC
    and one final byte of columns 3 to 7 (the private functions such as
    ESC 7 and ESC 8, the C1 functions, and the standardized functions
    such as ESC c), the CSI introducer apart. *)
Definition two_char_escape (e : str) : Prop :=
  ∃ c, e = [ESC; c] ∧ (48 ≤ c ≤ 126)%N ∧ c ≠ ch "[".

(** The metadata has [fs] as its sequence of format entries; a missing
    [formats] key stands for the empty sequence. *)
Definition has_formats (info_dict : pydict) (fs : list pydict) : Prop :=
  (info_dict !! lit "formats" = None ∧ fs = []) ∨
  info_dict !! lit "formats" = Some (PyList (PyDict <$> fs)).

(** The number of events of a run whose status is [finished]. *)
Definition is_finished (d : pydict) : bool :=
  eq_str (default PyNone (d !! lit "status")) (lit "finished").

Definition count_finished (events : list pydict) : Z :=
  Z.of_nat (length (filter (λ d, is_finished d = true) events)).

Definition is_download_button (e : effect) : bool :=
  match e with StDownloadButton _ _ _ _ _ => true | _ => false end.

Definition is_extract_call (e : effect) : bool :=
  match e with YdlExtractInfo _ _ _ => true | _ => false end.

(** Heights in strictly descending order. *)
Definition above (a b : int_instance) : Prop := int_value b < int_value a.

(** A metadata dictionary with formats of mixed codecs and containers,
    whose MP4 video formats have the heights 1080, 720, 720 and 480. *)
Definition format_entry (vcodec ext : string) (height : pyval) : pydict :=
  {[ lit "vcodec" := PyStr (lit vcodec); lit "ext" := PyStr (lit ext);
     lit "height" := height ]}.

Definition example_formats : list pydict :=
  [ format_entry "none" "m4a" PyNone;
    format_entry "avc1.64001F" "mp4" (PyInt 720);
    format_entry "vp9" "webm" (PyInt 2160);
    format_entry "avc1.640028" "mp4" (PyInt 1080);
    format_entry "none" "mp4" (PyInt 144);
    format_entry "av01.0.05M.08" "mp4" (PyInt 720);
    format_entry "avc1.4D401E" "mp4" (PyInt 480);
    format_entry "vp9" "webm" (PyInt 480) ].

Definition example_metadata : pydict :=
  {[ lit "title" := PyStr (lit "A video");
     lit "formats" := PyList (PyDict <$> example_formats) ]}.

(** Metadata with one accepted entry whose height has 4301 decimal
    digits, and metadata whose formats value is [None]. *)
Definition oversized_formats : list pydict :=
  [ format_entry "avc1" "mp4" (PyInt (10 ^ 4300)) ].

Definition oversized_metadata : pydict :=
  {[ lit "formats" := PyList (PyDict <$> oversized_formats) ]}.


(** Stage events as the library delivers them. *)
Definition finished_event : pydict := {[ lit "status" := PyStr (lit "finished") ]}.

Definition downloading_event (percent speed eta : string) : pydict :=
  {[ lit "status" := PyStr (lit "downloading");
     lit "_percent_str" := PyStr (lit percent);
     lit "_speed_str" := PyStr (lit speed);
     lit "_eta_str" := PyStr (lit eta) ]}.

Definition has_status (d : pydict) : Prop := is_Some (d !! lit "status").

(** The effects with which every call of [handle_download] starts, up to
    and including the call of the library. *)
Definition call_prefix (p : plan) (opts : YdlOptions) (url : str) : list effect :=
  [ StStatus (lit "Starting...") true;
    SessionSetStatusBox;
    StatusUpdate (lit "Step 1/" ++ str_of_int (total_steps (plan_progress p))
                    ++ lit ": Initializing...") None None;
    StWrite ([9881; 65039]%N ++ lit " Starting download process...");
    YdlExtractInfo opts url true ].

(** The effects of a failed retrieval. *)
Definition failure_report : list effect :=
  [ StatusUpdate (lit "Download Failed") (Some (lit "error")) (Some false);
    StError (lit "Could not retrieve the final file.");
    SessionDelStatusBox ].

(** The effects with which the handler of line 120 ends a run. *)
Definition unexpected_error_report (e : exn) : list effect :=
  [ StError (lit "An unexpected error occurred: " ++ exn_msg e);
    SessionDelStatusBox ].

(** An update of the status box that shows the label Download Failed. *)
Definition is_download_failed (e : effect) : bool :=
  match e with
  | StatusUpdate label _ _ => bool_decide (label = lit "Download Failed")
  | _ => false
  end.

(** An update made by the progress hook: a label that starts with the
    step, no change of state. *)
Definition is_step_update (e : effect) : Prop :=
  ∃ rest, e = StatusUpdate (lit "Step " ++ rest) None None.

(** A result structure whose list of requested downloads is empty. *)
Definition info_without_downloads : pyval :=
  PyDict {[ lit "requested_downloads" := PyList [] ]}.

(** Entries none of which passes the filter: audio-only, WebM, and two
    with a malformed height. *)
Definition rejected_formats : list pydict :=
  [ format_entry "none" "mp4" (PyInt 720);
    format_entry "vp9" "webm" (PyInt 720);
    format_entry "avc1" "mp4" (PyStr (lit "720"));
    format_entry "avc1" "mp4" PyNone ].

Definition is_status_update (e : effect) : bool :=
  match e with StatusUpdate _ _ _ => true | _ => false end.

(** Collaborators for the examples: a library that delivers [events] and
    returns [info_dict], on a file system where [present] tells which
    paths exist. *)
Definition example_join (a b : str) : str := a ++ lit "/" ++ b.

Definition example_exists (present : list str) (path : pyval) : result bool :=
  match path with
  | PyStr s => Ok (bool_decide (s ∈ present))
  | _ => Raise (Exn TypeError (lit "stat: path should be string, bytes, os.PathLike or integer"))
  end.

Definition example_basename (path : pyval) : result str :=
  match path with
  | PyStr s => Ok (fold_left (λ name c, if (c =? ch "/")%N then [] else name ++ [c]) s [])
  | _ => Raise (Exn TypeError (lit "expected str, bytes or os.PathLike object"))
  end.

Definition example_read (path : pyval) : result (list N) := Ok [].

Definition example_ydl (events : list pydict) (outcome : result pyval)
  (opts : YdlOptions) (url : str) : list pydict * result pyval := (events, outcome).

(** A result structure whose first requested download reports no file. *)
Definition info_without_filepath : pyval :=
  PyDict {[ lit "title" := PyStr (lit "A video");
            lit "requested_downloads" := PyList [PyDict {[ lit "ext" := PyStr (lit "mp4") ]}] ]}.

(** A result structure that reports a file. *)
Definition info_with_filepath (path : string) : pyval :=
  PyDict {[ lit "requested_downloads" := PyList [PyDict {[ lit "filepath" := PyStr (lit path) ]}] ]}.

(** A format entry whose height, if any, is not a [bool]. *)
Definition plain_height (f : pydict) : Prop :=
  ∀ b, f !! lit "height" ≠ Some (PyBool b).

Definition is_dict (v : pyval) : Prop := ∃ d, v = PyDict d.

(** The label of the integer height [h]. *)
Definition label_of (h : Z) : str := str_of_int h ++ lit "p".

(** The same two video formats listed in two ways. *)
Definition two_formats : list pydict :=
  [ format_entry "avc1.64001F" "mp4" (PyInt 720);
    format_entry "avc1.640028" "mp4" (PyInt 1080) ].

Definition two_formats_shuffled : list pydict :=
  [ format_entry "avc1.640028" "mp4" (PyInt 1080);
    format_entry "avc1.64001F" "mp4" (PyInt 720);
    format_entry "avc1.640028" "mp4" (PyInt 1080) ].

Definition is_download (e : main_effect) : bool :=
  match e with MDownload _ _ _ _ _ => true | _ => false end.

(** A library that knows one video. *)
Definition example_url : str := lit "https://youtu.be/v".

Definition example_probe (url : str) : probe :=
  if bool_decide (url = example_url) then ProbeReturns (Some example_metadata)
  else ProbeDownloadError (lit "ERROR: Unsupported URL").

Definition example_re_type_error (v : pyval) : exn :=
  Exn TypeError (lit "expected string or bytes-like object").

(** The click on Analyze Video with the URL typed in, and the click on
    Start Download with the second format and the first resolution. *)
Definition analyze_click (url : str) : widgets :=
  {| url_input := url; analyze_clicked := true; format_index := 0; bitrate_index := 0;
     resolution_index := 0; download_clicked := false |}.

Definition mp4_download_click (url : str) : widgets :=
  {| url_input := url; analyze_clicked := false; format_index := 1; bitrate_index := 0;
     resolution_index := 0; download_clicked := true |}.

(** The library returns metadata whose formats, if any, are a list of
    dictionaries, the accepted heights being within the digit limit. *)
Definition well_formed_library (ydl_probe : str → probe) : Prop :=
  ∀ url d, ydl_probe url = ProbeReturns (Some d) →
    ∃ fs, has_formats d fs ∧ Forall printable_height fs.

(** The page script on the example collaborators, with the downloaded
    file present, and the session after the example video was analyzed. *)
Definition example_main : session_state → widgets → outcome :=
  main (lit "/tmp/tmpk3") example_join (example_exists [lit "/tmp/tmpk3/A video.mp4"])
    example_basename example_read
    (example_ydl [finished_event; finished_event]
       (Ok (info_with_filepath "/tmp/tmpk3/A video.mp4")))
    example_probe example_re_type_error.

Definition example_interact : list widgets → session_state :=
  interact (lit "/tmp/tmpk3") example_join (example_exists [lit "/tmp/tmpk3/A video.mp4"])
    example_basename example_read
    (example_ydl [finished_event; finished_event]
       (Ok (info_with_filepath "/tmp/tmpk3/A video.mp4")))
    example_probe example_re_type_error new_session.

Definition analyzed_session : session_state :=
  {| video_info := Some example_metadata;
     available_qualities := [lit "1080p"; lit "720p"; lit "480p"];
     last_url := Some example_url |}.

(** Metadata without a title and with a formats value that is not a
    list, and a library that returns it. *)
Definition broken_metadata : pydict :=
  {[ lit "id" := PyStr (lit "v"); lit "formats" := PyNone ]}.

Definition broken_probe (url : str) : probe := ProbeReturns (Some broken_metadata).

Definition failing_probe (url : str) : probe :=
  ProbeRaises (Exn OtherError (lit "network unreachable")).

(** Typing a URL without clicking anything. *)
Definition type_url (url : str) : widgets :=
  {| url_input := url; analyze_clicked := false; format_index := 0; bitrate_index := 0;
     resolution_index := 0; download_clicked := false |}.

(** A file that cannot be opened. *)
Definition failing_read (path : pyval) : result (list N) :=
  Raise (Exn OtherError (lit "[Errno 13] Permission denied")).

Definition example_path : str := lit "/tmp/tmpk3/A video.mp4".

(** * Properties *)

(** ** Regular expressions *)

Lemma re_sub_from_drop r repl s : ∀ n,
  re_sub_from r repl n s = re_sub_from r repl 0 (drop n s).
Proof.
  induction s as [|c s IH]; intros [|n]; try reflexivity.
  simpl. apply IH.
Qed.

Lemma re_sub_nil r repl : re_sub r repl [] = [].
Proof. reflexivity. Qed.

Lemma re_sub_no_match r repl c s :
  match_at r (c :: s) = None → re_sub r repl (c :: s) = c :: re_sub r repl s.
Proof. unfold re_sub. simpl. intros ->. reflexivity. Qed.

Lemma re_sub_match r repl e rest :
  e ≠ [] → match_at r (e ++ rest) = Some rest →
  re_sub r repl (e ++ rest) = repl ++ re_sub r repl rest.
Proof.
  destruct e as [|c e]; [done|]. intros _ Hm.
  unfold re_sub. simpl in *. rewrite Hm.
  assert ((length rest <? S (length (e ++ rest)))%nat = true) as ->.
  { apply Nat.ltb_lt. rewrite length_app. lia. }
  f_equal. rewrite re_sub_from_drop. f_equal.
  rewrite length_app.
  replace (length e + length rest - length rest)%nat with (length e) by lia.
  apply drop_app_length.
Qed.

Lemma match_at_cls ranges s :
  match_at (Cls ranges) s =
  match s with
  | a :: s' => if in_class ranges a then Some s' else None
  | [] => None
  end.
Proof. reflexivity. Qed.

Lemma in_class_cons r ranges c :
  in_class (r :: ranges) c = ((r.1 <=? c)%N && (c <=? r.2)%N) || in_class ranges c.
Proof. reflexivity. Qed.

Lemma in_class_singletons (l : list N) c :
  in_class ((λ x, (x, x)) <$> l) c = bool_decide (c ∈ l).
Proof.
  induction l as [|x l IH].
  - reflexivity.
  - rewrite fmap_cons, in_class_cons, IH. cbn [fst snd].
    destruct (decide (c = x)) as [->|Hne].
    + rewrite N.leb_refl. simpl. symmetry. apply bool_decide_eq_true, list_elem_of_here.
    + assert ((x <=? c)%N && (c <=? x)%N = false) as ->.
      { apply andb_false_iff. destruct (N.leb_spec x c); [|auto].
        right. apply N.leb_gt. lia. }
      simpl. apply bool_decide_ext. rewrite elem_of_cons. tauto.
Qed.

(** ** The filename sanitizer *)

Lemma sanitize_filename_map filename :
  sanitize_filename filename = replace_forbidden <$> filename.
Proof.
  unfold sanitize_filename.
  change filename_pattern with (Cls ((λ x, (x, x)) <$> forbidden_chars)).
  induction filename as [|c s IH]; [reflexivity|].
  pose proof (in_class_singletons forbidden_chars c) as Hc.
  rewrite fmap_cons. unfold replace_forbidden at 1.
  destruct (bool_decide (c ∈ forbidden_chars)) eqn:E.
  - etrans; [apply (re_sub_match _ _ [c] s); [done|]|].
    + simpl app. rewrite match_at_cls, Hc. reflexivity.
    + rewrite IH. reflexivity.
  - rewrite re_sub_no_match.
    + rewrite IH. reflexivity.
    + rewrite match_at_cls, Hc. reflexivity.
Qed.

Lemma replace_forbidden_clean c : replace_forbidden c ∉ forbidden_chars.
Proof.
  unfold replace_forbidden. case_bool_decide as H; [|exact H].
  vm_compute. intros Hin.
  repeat (apply elem_of_cons in Hin as [Hin|Hin]; [discriminate Hin|]).
  by apply elem_of_nil in Hin.
Qed.

(** C7. For every string, [sanitize_filename] returns the string with
    each of the nine characters less-than, greater-than, colon, double
    quote, slash, backslash, bar, question mark and star replaced by an
    underscore and every other character kept; the result contains none
    of the nine and is as long as the input. *)
Theorem sanitize_filename_spec (filename : str) :
  sanitize_filename filename = replace_forbidden <$> filename ∧
  Forall (λ c, c ∉ forbidden_chars) (sanitize_filename filename) ∧
  length (sanitize_filename filename) = length filename.
Proof.
  rewrite sanitize_filename_map. split; [reflexivity|]. split.
  - apply Forall_fmap, Forall_forall. intros c _. apply replace_forbidden_clean.
  - apply length_fmap.
Qed.

(** ** The display sanitizer *)

Lemma star_match_skip ranges k s :
  (∀ c s', in_class ranges c = true → k (c :: s') = None) →
  star_match ranges k s = k (skip_class ranges s).
Proof.
  intros Hk. induction s as [|c s IH]; simpl; [reflexivity|].
  destruct (in_class ranges c) eqn:E; [|reflexivity].
  rewrite IH. destruct (k (skip_class ranges s)); [reflexivity|].
  apply Hk, E.
Qed.

Lemma in_class_range lo hi c :
  in_class [(lo, hi)] c = true ↔ (lo ≤ c ≤ hi)%N.
Proof.
  unfold in_class. simpl. rewrite orb_false_r, andb_true_iff, !N.leb_le. tauto.
Qed.

Lemma in_class_range_false lo hi c :
  in_class [(lo, hi)] c = false ↔ ¬ (lo ≤ c ≤ hi)%N.
Proof. rewrite <- in_class_range. destruct (in_class _ c); split; congruence. Qed.

Lemma skip_class_split ranges s :
  ∃ p, s = p ++ skip_class ranges s ∧ Forall (λ c, in_class ranges c = true) p.
Proof.
  induction s as [|c s (p & Hs & Hp)]; simpl.
  - exists []. split; [reflexivity|constructor].
  - destruct (in_class ranges c) eqn:E.
    + exists (c :: p). split; [simpl; congruence|by constructor].
    + exists []. split; [reflexivity|constructor].
Qed.

Lemma skip_class_app ranges p t :
  Forall (λ c, in_class ranges c = true) p →
  match t with c :: _ => in_class ranges c = false | [] => True end →
  skip_class ranges (p ++ t) = t.
Proof.
  intros Hp Ht. induction Hp as [|c p Hc _ IH]; simpl.
  - destruct t as [|c t]; [reflexivity|]. simpl. by rewrite Ht.
  - by rewrite Hc.
Qed.

Lemma parameter_not_intermediate c :
  in_class [range "0" "?"] c = true → in_class [range " " "/"] c = false.
Proof.
  unfold range. rewrite in_class_range, in_class_range_false.
  change (ch "0") with 48%N. change (ch "?") with 63%N.
  change (ch " ") with 32%N. change (ch "/") with 47%N. lia.
Qed.

Lemma parameter_not_final c :
  in_class [range "0" "?"] c = true → in_class [range "@" "~"] c = false.
Proof.
  unfold range. rewrite in_class_range, in_class_range_false.
  change (ch "0") with 48%N. change (ch "?") with 63%N.
  change (ch "@") with 64%N. change (ch "~") with 126%N. lia.
Qed.

Lemma intermediate_not_final c :
  in_class [range " " "/"] c = true → in_class [range "@" "~"] c = false.
Proof.
  unfold range. rewrite in_class_range, in_class_range_false.
  change (ch " ") with 32%N. change (ch "/") with 47%N.
  change (ch "@") with 64%N. change (ch "~") with 126%N. lia.
Qed.

Lemma match_at_ansi_escape s :
  match_at ansi_escape s =
  match s with
  | a :: c :: u =>
      if (a =? 27)%N then
        if in_class [range "@" "Z"; range "\" "_"] c then Some u
        else if (c =? ch "[")%N then csi_rest u else None
      else None
  | _ => None
  end.
Proof.
  unfold match_at, ansi_escape.
  destruct s as [|a [|c u]]; cbn [re_match]; try reflexivity.
  - by destruct (a =? 27)%N.
  - destruct (a =? 27)%N; [|reflexivity].
    destruct (in_class [range "@" "Z"; range "\" "_"] c); [reflexivity|].
    destruct (c =? ch "[")%N; [|reflexivity].
    unfold csi_rest. rewrite star_match_skip.
    + rewrite star_match_skip; [reflexivity|].
      intros f s' Hf. by rewrite (intermediate_not_final f Hf).
    + intros f s' Hf. cbn [star_match].
      by rewrite (parameter_not_intermediate f Hf), (parameter_not_final f Hf).
Qed.

Lemma parameter_class c : in_class [range "0" "?"] c = true ↔ is_parameter c.
Proof. unfold range. apply in_class_range. Qed.

Lemma intermediate_class c : in_class [range " " "/"] c = true ↔ is_intermediate c.
Proof. unfold range. apply in_class_range. Qed.

Lemma final_class c : in_class [range "@" "~"] c = true ↔ is_final c.
Proof. unfold range. apply in_class_range. Qed.

Lemma two_char_class c :
  in_class [range "@" "Z"; range "\" "_"] c = true ↔ is_two_char_final c.
Proof.
  unfold range. rewrite in_class_cons, orb_true_iff, in_class_range.
  cbn [fst snd]. rewrite andb_true_iff, !N.leb_le. unfold is_two_char_final.
  change (ch "@") with 64%N. change (ch "Z") with 90%N.
  change (ch "\") with 92%N. change (ch "_") with 95%N.
  change (ch "[") with 91%N. lia.
Qed.

Lemma not_in_class ranges c (P : Prop) :
  (in_class ranges c = true ↔ P) → ¬ P → in_class ranges c = false.
Proof. destruct (in_class ranges c); [|done]. intros [H _] HP. destruct HP. by apply H. Qed.

Lemma csi_rest_sound u rest :
  csi_rest u = Some rest →
  ∃ ps ints f, u = ps ++ ints ++ f :: rest ∧
    Forall is_parameter ps ∧ Forall is_intermediate ints ∧ is_final f.
Proof.
  unfold csi_rest. intros H.
  destruct (skip_class_split [range "0" "?"] u) as (ps & Hu & Hps).
  destruct (skip_class_split [range " " "/"] (skip_class [range "0" "?"] u))
    as (ints & Hi & Hints).
  destruct (skip_class [range " " "/"] (skip_class [range "0" "?"] u)) as [|f r];
    [discriminate|].
  destruct (in_class [range "@" "~"] f) eqn:Hf; [|discriminate].
  injection H as ->. exists ps, ints, f. repeat split.
  - rewrite Hu at 1. by rewrite Hi.
  - eapply Forall_impl; [exact Hps|]. intros c. apply parameter_class.
  - eapply Forall_impl; [exact Hints|]. intros c. apply intermediate_class.
  - by apply final_class.
  - by apply final_class.
Qed.

Lemma csi_rest_complete ps ints f rest :
  Forall is_parameter ps → Forall is_intermediate ints → is_final f →
  csi_rest (ps ++ ints ++ f :: rest) = Some rest.
Proof.
  intros Hps Hints Hf. unfold csi_rest.
  rewrite skip_class_app.
  - rewrite skip_class_app.
    + by apply final_class in Hf as ->.
    + eapply Forall_impl; [exact Hints|]. intros c. apply intermediate_class.
    + apply (not_in_class _ _ _ (intermediate_class f)).
      unfold is_intermediate, is_final in *. lia.
  - eapply Forall_impl; [exact Hps|]. intros c. apply parameter_class.
  - destruct Hints as [|c ints Hc _]; simpl.
    + apply (not_in_class _ _ _ (parameter_class f)).
      unfold is_parameter, is_final in *. lia.
    + apply (not_in_class _ _ _ (parameter_class c)).
      unfold is_parameter, is_intermediate in *. lia.
Qed.

Lemma escape_seq_nonempty e : escape_seq e → e ≠ [].
Proof. by intros []. Qed.

Lemma match_at_sound s rest :
  match_at ansi_escape s = Some rest → ∃ e, escape_seq e ∧ s = e ++ rest.
Proof.
  rewrite match_at_ansi_escape. destruct s as [|a [|c u]]; try discriminate.
  destruct (a =? 27)%N eqn:Ha; [|discriminate]. apply N.eqb_eq in Ha as ->.
  destruct (in_class [range "@" "Z"; range "\" "_"] c) eqn:Hc.
  - intros [= ->]. exists [ESC; c]. split; [|reflexivity].
    constructor. by apply two_char_class.
  - destruct (c =? ch "[")%N eqn:Hb; [|discriminate]. apply N.eqb_eq in Hb as ->.
    intros (ps & ints & f & -> & Hps & Hints & Hf)%csi_rest_sound.
    exists (ESC :: ch "[" :: ps ++ ints ++ [f]). split; [by constructor|].
    simpl. by rewrite <- !app_assoc.
Qed.

Lemma match_at_complete e rest :
  escape_seq e → match_at ansi_escape (e ++ rest) = Some rest.
Proof.
  intros [c Hc|ps ints f Hps Hints Hf].
  - change ([ESC; c] ++ rest) with (27%N :: c :: rest).
    rewrite match_at_ansi_escape, N.eqb_refl.
    by apply two_char_class in Hc as ->.
  - change ((ESC :: ch "[" :: ps ++ ints ++ [f]) ++ rest)
      with (27%N :: ch "[" :: (ps ++ ints ++ [f]) ++ rest).
    rewrite match_at_ansi_escape, !N.eqb_refl.
    assert (in_class [range "@" "Z"; range "\" "_"] (ch "[") = false) as -> by reflexivity.
    rewrite <- !app_assoc. by apply csi_rest_complete.
Qed.

Lemma match_at_none s e :
  match_at ansi_escape s = None → escape_seq e → ¬ e `prefix_of` s.
Proof.
  intros Hnone He [rest ->]. by rewrite match_at_complete in Hnone.
Qed.

Lemma sanitize_for_display_skip e s :
  escape_seq e →
  sanitize_for_display (PyStr (e ++ s)) = sanitize_for_display (PyStr s).
Proof.
  intros He. simpl. rewrite re_sub_match; [reflexivity| |].
  - by apply escape_seq_nonempty.
  - by apply match_at_complete.
Qed.

Lemma sanitize_for_display_stripped s :
  stripped s (sanitize_for_display (PyStr s)).
Proof.
  remember (length s) as n eqn:Hn. revert s Hn.
  induction n as [n IH] using lt_wf_ind. intros [|c s] Hn.
  - constructor.
  - destruct (match_at ansi_escape (c :: s)) as [rest|] eqn:Hm.
    + destruct (match_at_sound _ _ Hm) as (e & He & Hs). rewrite Hs.
      rewrite sanitize_for_display_skip by done.
      constructor; [done|]. apply (IH (length rest)); [|reflexivity].
      subst n. rewrite Hs, length_app.
      pose proof (escape_seq_nonempty e He). destruct e; [done|simpl; lia].
    + simpl. rewrite re_sub_no_match by done.
      constructor; [intros e He; by apply match_at_none|].
      apply (IH (length s)); [subst n; simpl; lia|reflexivity].
Qed.

Lemma stripped_unique s out :
  stripped s out → out = sanitize_for_display (PyStr s).
Proof.
  induction 1 as [|e s out He _ IH|c s out Hc _ IH].
  - reflexivity.
  - by rewrite sanitize_for_display_skip.
  - simpl. rewrite re_sub_no_match; [by rewrite IH|].
    destruct (match_at ansi_escape (c :: s)) as [rest|] eqn:Hm; [|reflexivity].
    destruct (match_at_sound _ _ Hm) as (e & He & Hs).
    destruct (Hc e He). by exists rest.
Qed.

Lemma escape_free_unchanged s :
  escape_free s → sanitize_for_display (PyStr s) = s.
Proof.
  induction s as [|c s IH]; intros Hfree; [reflexivity|].
  simpl. rewrite re_sub_no_match.
  - f_equal. apply IH. intros e He (a & b & ->).
    apply (Hfree e He). by exists (c :: a), b.
  - destruct (match_at ansi_escape (c :: s)) as [rest|] eqn:Hm; [|reflexivity].
    destruct (match_at_sound _ _ Hm) as (e & He & Hs).
    destruct (Hfree e He). by exists [], rest.
Qed.

Lemma no_escape_char_free s : ESC ∉ s → escape_free s.
Proof.
  intros Hs e He (a & b & ->). apply Hs.
  rewrite !elem_of_app. right. left. destruct He; left.
Qed.

(** A two-character sequence whose second byte is outside columns 4
    and 5 is kept. *)
Lemma sanitize_for_display_keeps c s :
  (48 ≤ c ≤ 63)%N ∨ (96 ≤ c ≤ 126)%N →
  sanitize_for_display (PyStr (ESC :: c :: s)) = ESC :: c :: sanitize_for_display (PyStr s).
Proof.
  intros Hc. symmetry. apply stripped_unique.
  assert (c ≠ ch "[") as Hcsi by (change (c ≠ 91%N); lia).
  apply stripped_keep.
  { intros e He [rest Hpre]. destruct He as [c' [Hc' _]|ps ints f _ _ _].
    - cbn [app] in Hpre. injection Hpre as Heq _. lia.
    - cbn [app] in Hpre. injection Hpre as Heq _. by apply Hcsi. }
  apply stripped_keep; [|apply sanitize_for_display_stripped].
  intros e He [rest Hpre].
  destruct He as [c' _|ps ints f _ _ _]; cbn [app] in Hpre; injection Hpre as Heq _;
    unfold ESC in Heq; lia.
Qed.

(** C8. [sanitize_for_display] returns the empty string on every value
    that is not a string; on a string it returns the text with the
    escape sequences of the pattern met from left to right left out, and
    nothing else: the CSI form, and of the two-character forms those
    whose second byte is in columns 4 and 5 (from the at sign to the
    underscore), the CSI introducer apart; a string in which none of
    these occurs is returned unchanged; the two-character sequences
    whose second byte is a digit, another byte of column 3, or a byte of
    columns 6 and 7 (ESC 7, ESC 8, ESC =, ESC >, ESC c) are kept. *)
Theorem sanitize_for_display_spec :
  (∀ text, isinstance_str text = false → sanitize_for_display text = []) ∧
  (∀ s out, stripped s out ↔ out = sanitize_for_display (PyStr s)) ∧
  (∀ s, escape_free s → sanitize_for_display (PyStr s) = s) ∧
  (∀ c s, (48 ≤ c ≤ 63)%N ∨ (96 ≤ c ≤ 126)%N →
     two_char_escape [ESC; c] ∧
     sanitize_for_display (PyStr (ESC :: c :: s))
       = ESC :: c :: sanitize_for_display (PyStr s)).
Proof.
  split; [|split; [|split]].
  - by intros [].
  - intros s out. split; [apply stripped_unique|].
    intros ->. apply sanitize_for_display_stripped.
  - apply escape_free_unchanged.
  - intros c s Hc. split; [|by apply sanitize_for_display_keeps].
    exists c. split; [reflexivity|]. change ((48 ≤ c ≤ 126)%N ∧ c ≠ 91%N). lia.
Qed.

Lemma sanitize_for_display_spec_witness :
  sanitize_for_display (PyInt 45) = [] ∧
  sanitize_for_display (PyStr (lit "45.0%")) = lit "45.0%" ∧
  stripped ([ESC] ++ lit "[0;32m45.0%" ++ [ESC] ++ lit "[0m") (lit "45.0%") ∧
  two_char_escape [ESC; ch "7"] ∧
  sanitize_for_display (PyStr (ESC :: ch "7" :: lit "45.0%"))
    = ESC :: ch "7" :: sanitize_for_display (PyStr (lit "45.0%")).
Proof.
  destruct sanitize_for_display_spec as (Hother & Hstr & Hfree & Hkept).
  split; [|split; [|split]].
  - apply Hother. reflexivity.
  - apply Hfree, no_escape_char_free. vm_compute. intros Hin.
    repeat (apply elem_of_cons in Hin as [Hin|Hin]; [discriminate Hin|]).
    by apply elem_of_nil in Hin.
  - apply Hstr. vm_compute. reflexivity.
  - apply Hkept. left. vm_compute. split; discriminate.
Defined.

(** Counterexample to C8 as stated for the two-character escape forms:
    ESC 7 (save cursor) and ESC c (reset) are two-character escape
    sequences of the VT100, and a string that holds them is returned with
    both still in it. *)
Lemma sanitize_for_display_spec_counterexample :
  two_char_escape [ESC; ch "7"] ∧ two_char_escape [ESC; ch "c"] ∧
  sanitize_for_display (PyStr ([ESC; ch "7"] ++ lit "45.0%" ++ [ESC; ch "c"]))
    = [ESC; ch "7"] ++ lit "45.0%" ++ [ESC; ch "c"] ∧
  occurs_in [ESC; ch "7"]
    (sanitize_for_display (PyStr ([ESC; ch "7"] ++ lit "45.0%" ++ [ESC; ch "c"]))).
Proof.
  split; [|split; [|split]].
  - exists (ch "7"). split; [reflexivity|]. vm_compute. repeat split; discriminate.
  - exists (ch "c"). split; [reflexivity|]. vm_compute. repeat split; discriminate.
  - vm_compute. reflexivity.
  - exists [], (lit "45.0%" ++ [ESC; ch "c"]). vm_compute. reflexivity.
Qed.

(** ** The quality extractor *)

Lemma eq_str_true v s : eq_str v s = true ↔ v = PyStr s.
Proof.
  destruct v; simpl; try (split; [discriminate|discriminate]).
  rewrite bool_decide_eq_true. split; [by intros ->|by intros [= ->]].
Qed.

Lemma eq_str_lookup (f : pydict) k s :
  eq_str (default PyNone (f !! k)) s = true ↔ f !! k = Some (PyStr s).
Proof.
  rewrite eq_str_true. destruct (f !! k) as [v|]; simpl.
  - split; [by intros ->|by intros [= ->]].
  - split; discriminate.
Qed.

Lemma isinstance_int_is_Some v : isinstance_int v = true ↔ is_Some (as_int_instance v).
Proof.
  unfold isinstance_int. destruct (as_int_instance v).
  - split; [eauto|done].
  - split; [discriminate|by intros [? ?]].
Qed.

Lemma accepts_dict (f : pydict) :
  ∃ b, accepts (PyDict f) = Ok b ∧ (b = true ↔ accepted f).
Proof.
  unfold accepts, accepted, entry_height, ne_str, py_get, mbind, result_bind.
  pose proof (eq_str_lookup f (lit "vcodec") (lit "none")) as Hv.
  pose proof (eq_str_lookup f (lit "ext") (lit "mp4")) as He.
  pose proof (isinstance_int_is_Some (default PyNone (f !! lit "height"))) as Hh.
  destruct (eq_str (default PyNone (f !! lit "vcodec")) (lit "none")); simpl.
  { exists false. split; [reflexivity|]. split; [discriminate|].
    intros [H _]. destruct H. by apply Hv. }
  destruct (eq_str (default PyNone (f !! lit "ext")) (lit "mp4")); simpl.
  - eexists. split; [reflexivity|]. rewrite Hh. split; [|tauto].
    intros H. split; [|split; [by apply He|done]].
    intros H'. apply Hv in H'. discriminate.
  - exists false. split; [reflexivity|]. split; [discriminate|].
    intros (_ & H & _). apply He in H. discriminate.
Qed.

Lemma collect_accepted q f i :
  accepted f → entry_height f = Some i →
  collect_quality q (PyDict f) = Ok (set_add i q).
Proof.
  intros Hf Hi. unfold collect_quality.
  destruct (accepts_dict f) as (b & -> & Hb). apply Hb in Hf as ->.
  unfold entry_height in Hi. simpl. by rewrite Hi.
Qed.

Lemma collect_rejected q f :
  ¬ accepted f → collect_quality q (PyDict f) = Ok q.
Proof.
  intros Hf. unfold collect_quality.
  destruct (accepts_dict f) as (b & -> & Hb).
  destruct b; [destruct Hf; by apply Hb|reflexivity].
Qed.

Lemma collect_dict q f :
  ∃ q', collect_quality q (PyDict f) = Ok q' ∧
    ((accepted f ∧ ∃ i, entry_height f = Some i ∧ q' = set_add i q) ∨
     (¬ accepted f ∧ q' = q)).
Proof.
  destruct (accepts_dict f) as (b & Hacc & Hb). destruct b.
  - assert (accepted f) as Hf by by apply Hb.
    destruct Hf as (Hv & He & i & Hi).
    exists (set_add i q). split; [apply collect_accepted; [by repeat split; eauto|done]|].
    left. split; [by repeat split; eauto|eauto].
  - assert (¬ accepted f) as Hf by (intros H; apply Hb in H; discriminate).
    exists q. split; [by apply collect_rejected|]. by right.
Qed.

Lemma for_each_app {A S} (body : S → A → result S) l1 l2 : ∀ s,
  for_each body s (l1 ++ l2) = s' ← for_each body s l1; for_each body s' l2.
Proof.
  induction l1 as [|x l1 IH]; intros s; [reflexivity|].
  simpl. destruct (body s x) as [s'|e]; simpl; [apply IH|reflexivity].
Qed.

Lemma set_add_lookup i q z :
  set_add i q !! z =
  if decide (int_value i = z) then Some (default i (q !! z)) else q !! z.
Proof.
  unfold set_add. destruct (q !! int_value i) as [j|] eqn:Hq.
  - case_decide as Hz; [by rewrite <- Hz, Hq|reflexivity].
  - rewrite lookup_insert. case_decide as Hz; [by rewrite <- Hz, Hq|reflexivity].
Qed.

(** The set after the loop over [fs]: its members are the members
    present before and the heights of the accepted entries, identified
    by their numbers. *)
Lemma for_each_collect fs : ∀ q,
  ∃ q', for_each collect_quality q (PyDict <$> fs) = Ok q' ∧
    (∀ z i, q' !! z = Some i →
       q !! z = Some i ∨
       ∃ f, f ∈ fs ∧ accepted f ∧ entry_height f = Some i ∧ int_value i = z) ∧
    (∀ z, is_Some (q !! z) → is_Some (q' !! z)) ∧
    (∀ f i, f ∈ fs → accepted f → entry_height f = Some i →
       is_Some (q' !! int_value i)).
Proof.
  induction fs as [|f fs IH]; intros q.
  - exists q. split; [reflexivity|]. split; [auto|]. split; [auto|].
    intros f i Hin. by apply elem_of_nil in Hin.
  - rewrite fmap_cons. cbn [for_each].
    destruct (collect_dict q f) as (q1 & -> & Hq1).
    destruct (IH q1) as (q' & Hrun & Hfrom & Hkeep & Hall).
    exists q'. split; [exact Hrun|].
    assert (∀ z, is_Some (q !! z) → is_Some (q1 !! z)) as Hq.
    { intros z Hz. destruct Hq1 as [(_ & i & _ & ->)|(_ & ->)]; [|done].
      rewrite set_add_lookup. case_decide; [eauto|done]. }
    split; [|split].
    + intros z i Hz. destruct (Hfrom z i Hz) as [H1|(g & Hg & Hacc & Hh & Hv)].
      * destruct Hq1 as [(Hacc & j & Hj & ->)|(_ & ->)]; [|by left].
        rewrite set_add_lookup in H1. case_decide as Hd; [|by left].
        destruct (q !! z) as [k|] eqn:Hk; simpl in H1; injection H1 as <-.
        -- by left.
        -- right. exists f. split; [left|done].
      * right. exists g. split; [by right|done].
    + intros z Hz. by apply Hkeep, Hq.
    + intros g i Hg Hacc Hh. apply elem_of_cons in Hg as [->|Hg].
      * apply Hkeep. destruct Hq1 as [(_ & j & Hj & ->)|(Hrej & _)]; [|done].
        rewrite set_add_lookup. rewrite Hh in Hj. injection Hj as <-.
        rewrite decide_True by done. eauto.
      * by eapply Hall.
Qed.

#[global] Instance before_transitive : Transitive before.
Proof. unfold before. intros a b c. lia. Qed.

#[global] Instance before_total : Total before.
Proof. unfold before. intros a b. lia. Qed.

Lemma strongly_sorted_above l :
  StronglySorted before l → NoDup (int_value <$> l) → StronglySorted above l.
Proof.
  induction 1 as [|a l Hl IH Ha]; intros Hnd; [constructor|].
  rewrite fmap_cons in Hnd. apply NoDup_cons in Hnd as [Hnotin Hnd].
  constructor; [by apply IH|].
  apply Forall_forall. intros b Hb.
  rewrite Forall_forall in Ha. specialize (Ha b Hb).
  unfold before, above in *.
  assert (int_value b ≠ int_value a); [|lia].
  intros Heq. apply Hnotin. rewrite <- Heq. by apply list_elem_of_fmap_2.
Qed.

Lemma sorted_reverse_above l :
  NoDup (int_value <$> l) → StronglySorted above (sorted_reverse l).
Proof.
  intros Hnd. apply strongly_sorted_above.
  - apply StronglySorted_merge_sort; apply _.
  - unfold sorted_reverse. by rewrite merge_sort_Permutation.
Qed.

Lemma elem_of_sorted_reverse i l : i ∈ sorted_reverse l ↔ i ∈ l.
Proof. unfold sorted_reverse. by rewrite merge_sort_Permutation. Qed.

Lemma elem_of_set_to_list (q : int_set) i : i ∈ set_to_list q ↔ ∃ z, q !! z = Some i.
Proof.
  unfold set_to_list. rewrite list_elem_of_fmap. split.
  - intros ([z j] & -> & Hin). exists z. by apply elem_of_map_to_list.
  - intros (z & Hz). exists (z, i). split; [reflexivity|by apply elem_of_map_to_list].
Qed.

Lemma set_to_list_values (q : int_set) :
  (∀ z i, q !! z = Some i → int_value i = z) →
  int_value <$> set_to_list q = (map_to_list q).*1.
Proof.
  intros Hkey. unfold set_to_list. rewrite <- list_fmap_compose.
  apply list_fmap_ext. intros n [z i] Hl. simpl. apply Hkey.
  apply elem_of_map_to_list. by eapply list_elem_of_lookup_2.
Qed.

Lemma set_is_empty_true (q : int_set) : set_is_empty q = true ↔ q = ∅.
Proof. unfold set_is_empty. by rewrite bool_decide_eq_true, map_size_empty_iff. Qed.

Lemma has_formats_iter info_dict fs :
  has_formats info_dict fs →
  py_iter (default (PyList []) (info_dict !! lit "formats")) = Ok (PyDict <$> fs).
Proof. by intros [[-> ->]| ->]. Qed.

(** The digit limit: a label is produced exactly for the heights within
    it. *)
Lemma int_str_limit_gt_1 : 1 < int_str_limit.
Proof. unfold int_str_limit, int_max_str_digits. apply Z.pow_gt_1; lia. Qed.

Lemma within_str_limit_dec i : {within_str_limit i} + {¬ within_str_limit i}.
Proof. unfold within_str_limit. destruct (Z_lt_dec (Z.abs (int_value i)) int_str_limit); auto. Qed.

Lemma format_quality_within i :
  within_str_limit i → format_quality i = Ok (quality_label i).
Proof.
  unfold within_str_limit, format_quality, format_value. destruct i as [z|b]; [|reflexivity].
  cbn [int_value]. intros Hz.
  destruct (Z.leb_spec int_str_limit (Z.abs z)) as [Hle|_]; [lia|reflexivity].
Qed.

Lemma format_quality_beyond i :
  ¬ within_str_limit i → format_quality i = Raise int_str_error.
Proof.
  unfold within_str_limit, format_quality, format_value. destruct i as [z|b].
  - cbn [int_value]. intros Hz.
    destruct (Z.leb_spec int_str_limit (Z.abs z)) as [_|Hlt]; [reflexivity|lia].
  - intros Hb. destruct Hb. pose proof int_str_limit_gt_1. destruct b; cbn [int_value Z.b2z]; lia.
Qed.

Lemma comprehension_within l :
  Forall within_str_limit l →
  comprehension format_quality l = Ok (quality_label <$> l).
Proof.
  induction 1 as [|i l Hi _ IH]; [reflexivity|].
  cbn [comprehension]. rewrite (format_quality_within _ Hi), IH. reflexivity.
Qed.

Lemma comprehension_beyond l :
  Exists (λ i, ¬ within_str_limit i) l →
  comprehension format_quality l = Raise int_str_error.
Proof.
  induction l as [|i l IH]; intros Hex; [by apply Exists_nil in Hex|].
  cbn [comprehension]. destruct (within_str_limit_dec i) as [Hi|Hi].
  - rewrite (format_quality_within _ Hi). cbn [mbind result_bind].
    rewrite IH; [reflexivity|]. apply Exists_cons in Hex as [?|?]; done.
  - by rewrite (format_quality_beyond _ Hi).
Qed.

Lemma comprehension_returns l labels :
  comprehension format_quality l = Ok labels →
  Forall within_str_limit l ∧ labels = quality_label <$> l.
Proof.
  intros Hrun. destruct (decide (Forall within_str_limit l)) as [Hall|Hnot].
  - split; [exact Hall|]. rewrite (comprehension_within _ Hall) in Hrun. congruence.
  - apply not_Forall_Exists in Hnot; [|intros i; apply within_str_limit_dec].
    rewrite (comprehension_beyond l) in Hrun; [discriminate|exact Hnot].
Qed.

(** What the function returns on well-formed metadata, in terms of the
    set built by the loop. *)
Lemma extract_available_qualities_run info_dict fs :
  has_formats info_dict fs →
  ∃ q, for_each collect_quality ∅ (PyDict <$> fs) = Ok q ∧
    extract_available_qualities info_dict =
      (if set_is_empty q then Ok fallback_qualities
       else comprehension format_quality (sorted_reverse (set_to_list q))) ∧
    (∀ z i, q !! z = Some i →
       ∃ f, f ∈ fs ∧ accepted f ∧ entry_height f = Some i ∧ int_value i = z) ∧
    (∀ f i, f ∈ fs → accepted f → entry_height f = Some i →
       is_Some (q !! int_value i)).
Proof.
  intros Hfs. destruct (for_each_collect fs ∅) as (q & Hrun & Hfrom & _ & Hall).
  exists q. split; [exact Hrun|]. split; [|split; [|exact Hall]].
  - unfold extract_available_qualities. rewrite (has_formats_iter _ _ Hfs).
    cbn [mbind result_bind]. rewrite Hrun. reflexivity.
  - intros z i Hz. destruct (Hfrom z i Hz) as [H|H]; [|exact H].
    by rewrite lookup_empty in H.
Qed.

(** With an accepted entry, line 46 runs over the accepted heights, each
    once, in strictly descending order. *)
Lemma extract_available_qualities_heights info_dict fs :
  has_formats info_dict fs → Exists accepted fs →
  ∃ hs, extract_available_qualities info_dict = comprehension format_quality hs ∧
    StronglySorted above hs ∧
    (∀ i, i ∈ hs → ∃ f, f ∈ fs ∧ accepted f ∧ entry_height f = Some i) ∧
    (∀ f i, f ∈ fs → accepted f → entry_height f = Some i →
       int_value i ∈ int_value <$> hs).
Proof.
  intros Hfs Hex.
  destruct (extract_available_qualities_run _ _ Hfs) as (q & _ & Hres & Hfrom & Hall).
  assert (∀ z i, q !! z = Some i → int_value i = z) as Hkey.
  { intros z i Hz. by destruct (Hfrom z i Hz) as (_ & _ & _ & _ & ?). }
  exists (sorted_reverse (set_to_list q)).
  assert (set_is_empty q = false) as Hne.
  { apply not_true_is_false. rewrite set_is_empty_true. intros ->.
    apply Exists_exists in Hex as (f & Hin & Hacc).
    pose proof Hacc as (_ & _ & i & Hi).
    destruct (Hall f i Hin Hacc Hi) as [j Hj]. by rewrite lookup_empty in Hj. }
  rewrite Hne in Hres. split; [exact Hres|]. split; [|split].
  - apply sorted_reverse_above. rewrite set_to_list_values by done.
    apply NoDup_fst_map_to_list.
  - intros i Hi. apply elem_of_sorted_reverse, elem_of_set_to_list in Hi as (z & Hz).
    destruct (Hfrom z i Hz) as (f & ? & ? & ? & _). by exists f.
  - intros f i Hin Hacc Hi. destruct (Hall f i Hin Hacc Hi) as [j Hj].
    rewrite <- (Hkey _ _ Hj). apply list_elem_of_fmap_2.
    apply elem_of_sorted_reverse, elem_of_set_to_list. eauto.
Qed.

(** When it returns on such metadata, it returns the labels of those
    heights. *)
Lemma extract_available_qualities_sorted info_dict fs l :
  has_formats info_dict fs → Exists accepted fs →
  extract_available_qualities info_dict = Ok l →
  ∃ hs, l = quality_label <$> hs ∧
    StronglySorted above hs ∧
    (∀ i, i ∈ hs → ∃ f, f ∈ fs ∧ accepted f ∧ entry_height f = Some i) ∧
    (∀ f i, f ∈ fs → accepted f → entry_height f = Some i →
       int_value i ∈ int_value <$> hs).
Proof.
  intros Hfs Hex Hl.
  destruct (extract_available_qualities_heights _ _ Hfs Hex) as (hs & Hres & Hrest).
  exists hs. split; [|exact Hrest].
  rewrite Hres in Hl. by apply comprehension_returns in Hl as [_ ->].
Qed.

(** It returns when the accepted heights are within the digit limit. *)
Lemma extract_available_qualities_accepted info_dict fs :
  has_formats info_dict fs → Exists accepted fs → Forall printable_height fs →
  ∃ hs, extract_available_qualities info_dict = Ok (quality_label <$> hs) ∧
    StronglySorted above hs ∧
    (∀ i, i ∈ hs → ∃ f, f ∈ fs ∧ accepted f ∧ entry_height f = Some i) ∧
    (∀ f i, f ∈ fs → accepted f → entry_height f = Some i →
       int_value i ∈ int_value <$> hs).
Proof.
  intros Hfs Hex Hprint.
  destruct (extract_available_qualities_heights _ _ Hfs Hex) as (hs & Hres & Hrest).
  exists hs. split; [|exact Hrest]. rewrite Hres. apply comprehension_within.
  apply Forall_forall. intros i Hi.
  destruct Hrest as (_ & Hfrom & _). destruct (Hfrom i Hi) as (f & Hin & Hacc & Hh).
  rewrite Forall_forall in Hprint. by apply (Hprint f Hin).
Qed.

(** It raises [ValueError] when an accepted height is beyond the limit. *)
Lemma extract_available_qualities_beyond info_dict fs f i :
  has_formats info_dict fs → f ∈ fs → accepted f → entry_height f = Some i →
  ¬ within_str_limit i →
  extract_available_qualities info_dict = Raise int_str_error.
Proof.
  intros Hfs Hin Hacc Hh Hbeyond.
  assert (Exists accepted fs) as Hex by (apply Exists_exists; eauto).
  destruct (extract_available_qualities_heights _ _ Hfs Hex) as (hs & -> & _ & _ & Hall).
  apply comprehension_beyond, Exists_exists.
  specialize (Hall f i Hin Hacc Hh). apply list_elem_of_fmap in Hall as (j & Hj & Hjin).
  exists j. split; [exact Hjin|]. unfold within_str_limit in *. by rewrite <- Hj.
Qed.

Lemma extract_available_qualities_fallback info_dict fs :
  has_formats info_dict fs → Forall (λ f, ¬ accepted f) fs →
  extract_available_qualities info_dict = Ok fallback_qualities.
Proof.
  intros Hfs Hnone.
  destruct (extract_available_qualities_run _ _ Hfs) as (q & _ & Hres & Hfrom & _).
  assert (set_is_empty q = true) as Hq; [|by rewrite Hq in Hres].
  apply set_is_empty_true, map_eq. intros z. rewrite lookup_empty.
  destruct (q !! z) as [i|] eqn:Hz; [|reflexivity].
  destruct (Hfrom z i Hz) as (f & Hin & Hacc & _).
  rewrite Forall_forall in Hnone. by destruct (Hnone f Hin).
Qed.

Lemma extract_available_qualities_nonempty info_dict l :
  extract_available_qualities info_dict = Ok l → l ≠ [].
Proof.
  unfold extract_available_qualities.
  destruct (py_iter _) as [formats|e]; [|discriminate]. cbn [mbind result_bind].
  destruct (for_each collect_quality ∅ formats) as [q|e]; [|discriminate].
  cbn [mbind result_bind].
  destruct (set_is_empty q) eqn:Hq; [intros [= <-]; discriminate|].
  intros Hl. apply comprehension_returns in Hl as [_ ->].
  intros Hnil. apply fmap_nil_inv in Hnil.
  assert (set_to_list q = []) as Hl.
  { apply Permutation_nil_r. rewrite <- Hnil. unfold sorted_reverse.
    by rewrite merge_sort_Permutation. }
  apply fmap_nil_inv, map_to_list_empty_iff, set_is_empty_true in Hl. congruence.
Qed.

(** Heights of a few digits are within the limit. *)
Lemma within_str_limit_small i : Z.abs (int_value i) < 1000000 → within_str_limit i.
Proof.
  intros Hi. unfold within_str_limit, int_str_limit, int_max_str_digits.
  apply (Z.lt_trans _ (10 ^ 6)); [exact Hi|]. apply Z.pow_lt_mono_r; lia.
Qed.

Ltac printable_heights :=
  repeat constructor; intros i _ Hi; vm_compute in Hi;
  first [discriminate Hi
        |injection Hi as <-; apply within_str_limit_small; vm_compute; reflexivity].

(** The entries of the examples, whatever their height. *)
Lemma format_entry_lookup vcodec ext height :
  format_entry vcodec ext height !! lit "vcodec" = Some (PyStr (lit vcodec)) ∧
  format_entry vcodec ext height !! lit "ext" = Some (PyStr (lit ext)) ∧
  format_entry vcodec ext height !! lit "height" = Some height.
Proof.
  unfold format_entry. split; [apply lookup_insert_eq|]. split.
  - rewrite lookup_insert_ne by (intros H; vm_compute in H; discriminate).
    apply lookup_insert_eq.
  - rewrite !lookup_insert_ne by (intros H; vm_compute in H; discriminate).
    apply lookup_singleton_eq.
Qed.

Lemma format_entry_accepted vcodec ext z :
  lit vcodec ≠ lit "none" → lit ext = lit "mp4" →
  accepted (format_entry vcodec ext (PyInt z)) ∧
  entry_height (format_entry vcodec ext (PyInt z)) = Some (AnInt z).
Proof.
  intros Hvcodec Hext.
  destruct (format_entry_lookup vcodec ext (PyInt z)) as (Hv & He & Hh).
  assert (entry_height (format_entry vcodec ext (PyInt z)) = Some (AnInt z)) as Hheight.
  { unfold entry_height. rewrite Hh. reflexivity. }
  split; [|exact Hheight]. split; [|split].
  - rewrite Hv. intros [= H]. by apply Hvcodec.
  - rewrite He, Hext. reflexivity.
  - rewrite Hheight. by eexists.
Qed.

(** The height [10 ^ 4300] is the least one beyond the limit. *)
Lemma oversized_height_beyond : ¬ within_str_limit (AnInt (10 ^ 4300)).
Proof.
  unfold within_str_limit, int_str_limit, int_max_str_digits.
  change (int_value (AnInt (10 ^ 4300))) with (10 ^ 4300).
  rewrite Z.abs_eq; [apply Z.lt_irrefl|]. apply Z.pow_nonneg. lia.
Qed.

Lemma oversized_entry_accepted :
  accepted (format_entry "avc1" "mp4" (PyInt (10 ^ 4300))) ∧
  entry_height (format_entry "avc1" "mp4" (PyInt (10 ^ 4300))) = Some (AnInt (10 ^ 4300)).
Proof.
  apply format_entry_accepted; [|reflexivity]. intros H. vm_compute in H. discriminate.
Qed.

Lemma oversized_metadata_raises :
  has_formats oversized_metadata oversized_formats ∧
  Forall accepted oversized_formats ∧
  accepts (PyDict (format_entry "avc1" "mp4" (PyInt (10 ^ 4300)))) = Ok true ∧
  extract_available_qualities oversized_metadata = Raise int_str_error.
Proof.
  destruct oversized_entry_accepted as (Hacc & Hh).
  assert (has_formats oversized_metadata oversized_formats) as Hfs.
  { right. apply lookup_singleton_eq. }
  split; [exact Hfs|]. split; [|split].
  - apply Forall_cons_2; [exact Hacc|constructor].
  - destruct (accepts_dict (format_entry "avc1" "mp4" (PyInt (10 ^ 4300))))
      as (b & -> & Hb).
    f_equal. apply Hb. exact Hacc.
  - apply (extract_available_qualities_beyond oversized_metadata oversized_formats
             (format_entry "avc1" "mp4" (PyInt (10 ^ 4300))) (AnInt (10 ^ 4300)) Hfs).
    + left.
    + exact Hacc.
    + exact Hh.
    + exact oversized_height_beyond.
Qed.

(** C1. An entry is accepted exactly when its vcodec is not the string
    none, its ext is the string mp4 and its height is an instance of
    [int]; on metadata with an accepted entry, the accepted heights
    having at most 4300 decimal digits each, the result is the list of
    labels of the accepted heights, each once, in strictly descending
    order, a height [h] being labelled by its decimal digits followed by
    the letter p; when an accepted height has more than 4300 digits,
    line 46 raises [ValueError] and nothing is returned; the example
    metadata (heights 1080, 720, 720, 480 among audio-only and WebM
    entries) gives 1080p, 720p, 480p. *)
Theorem extract_available_qualities_spec :
  (∀ f : pydict, ∃ b, accepts (PyDict f) = Ok b ∧ (b = true ↔ accepted f)) ∧
  (∀ info_dict fs, has_formats info_dict fs → Exists accepted fs →
     Forall printable_height fs →
     ∃ hs, extract_available_qualities info_dict = Ok (quality_label <$> hs) ∧
       StronglySorted above hs ∧
       (∀ i, i ∈ hs → ∃ f, f ∈ fs ∧ accepted f ∧ entry_height f = Some i) ∧
       (∀ f i, f ∈ fs → accepted f → entry_height f = Some i →
          int_value i ∈ int_value <$> hs)) ∧
  (∀ info_dict fs f i, has_formats info_dict fs →
     f ∈ fs → accepted f → entry_height f = Some i → ¬ within_str_limit i →
     extract_available_qualities info_dict = Raise int_str_error) ∧
  (∀ h : Z, quality_label (AnInt h) = lit (pretty h) ++ lit "p") ∧
  extract_available_qualities example_metadata = Ok [lit "1080p"; lit "720p"; lit "480p"].
Proof.
  split; [exact accepts_dict|]. split; [exact extract_available_qualities_accepted|].
  split; [exact extract_available_qualities_beyond|].
  split; [reflexivity|]. vm_compute. reflexivity.
Qed.

Lemma extract_available_qualities_spec_witness :
  has_formats example_metadata example_formats ∧
  Exists accepted example_formats ∧
  Forall printable_height example_formats ∧
  (∃ hs, extract_available_qualities example_metadata = Ok (quality_label <$> hs) ∧
     StronglySorted above hs ∧
     (∀ i, i ∈ hs → ∃ f, f ∈ example_formats ∧ accepted f ∧ entry_height f = Some i) ∧
     (∀ f i, f ∈ example_formats → accepted f → entry_height f = Some i →
        int_value i ∈ int_value <$> hs)) ∧
  extract_available_qualities oversized_metadata = Raise int_str_error.
Proof.
  assert (has_formats example_metadata example_formats) as Hfs.
  { right. vm_compute. reflexivity. }
  assert (Exists accepted example_formats) as Hex.
  { apply Exists_cons_tl, Exists_cons_hd. split; [|split].
    - vm_compute. discriminate.
    - vm_compute. reflexivity.
    - eexists. vm_compute. reflexivity. }
  assert (Forall printable_height example_formats) as Hprint.
  { printable_heights. }
  split; [exact Hfs|]. split; [exact Hex|]. split; [exact Hprint|].
  destruct extract_available_qualities_spec as (_ & Hlabels & Hraise & _).
  split; [exact (Hlabels example_metadata example_formats Hfs Hex Hprint)|].
  apply (Hraise oversized_metadata oversized_formats
           (format_entry "avc1" "mp4" (PyInt (10 ^ 4300))) (AnInt (10 ^ 4300))).
  - right. apply lookup_singleton_eq.
  - left.
  - apply oversized_entry_accepted.
  - apply oversized_entry_accepted.
  - exact oversized_height_beyond.
Defined.

(** Counterexample to C1 as stated for every integer height: an accepted
    entry whose height is [10 ^ 4300] makes the conversion of line 46
    raise, so no list of labels is returned. *)
Lemma extract_available_qualities_spec_counterexample :
  has_formats oversized_metadata oversized_formats ∧
  Forall accepted oversized_formats ∧
  accepts (PyDict (format_entry "avc1" "mp4" (PyInt (10 ^ 4300)))) = Ok true ∧
  extract_available_qualities oversized_metadata = Raise int_str_error ∧
  ¬ ∃ l, extract_available_qualities oversized_metadata = Ok l.
Proof.
  destruct oversized_metadata_raises as (Hfs & Hacc & Hone & Hraise).
  repeat (split; [assumption|]). intros [l Hl]. congruence.
Qed.

Lemma extract_available_qualities_insert info_dict l :
  extract_available_qualities (<[lit "formats" := PyList l]> info_dict) =
  (qualities ← for_each collect_quality ∅ l;
   if set_is_empty qualities then Ok fallback_qualities
   else comprehension format_quality (sorted_reverse (set_to_list qualities))).
Proof.
  unfold extract_available_qualities. by rewrite lookup_insert_eq.
Qed.

Lemma accepted_dec (f : pydict) : accepted f ∨ ¬ accepted f.
Proof.
  destruct (accepts_dict f) as ([] & _ & Hb).
  - left. by apply Hb.
  - right. intros H. apply Hb in H. discriminate.
Qed.

Lemma accepted_Exists_or_none (fs : list pydict) :
  Exists accepted fs ∨ Forall (λ f, ¬ accepted f) fs.
Proof.
  induction fs as [|f fs [IH|IH]].
  - right. constructor.
  - left. by right.
  - destruct (accepted_dec f); [left; by left|right; by constructor].
Qed.

Lemma extract_available_qualities_returns info_dict fs :
  has_formats info_dict fs → Forall printable_height fs →
  ∃ l, extract_available_qualities info_dict = Ok l.
Proof.
  intros Hfs Hprint. destruct (accepted_Exists_or_none fs) as [Hex|Hnone].
  - destruct (extract_available_qualities_accepted _ _ Hfs Hex Hprint) as (hs & -> & _).
    eauto.
  - rewrite (extract_available_qualities_fallback _ _ Hfs Hnone). eauto.
Qed.

Lemma collect_malformed q f :
  entry_height f = None → ¬ accepted f ∧ collect_quality q (PyDict f) = Ok q.
Proof.
  intros Hh. assert (¬ accepted f) as Hrej by (intros (_ & _ & i & Hi); congruence).
  split; [exact Hrej|by apply collect_rejected].
Qed.

Lemma extract_available_qualities_skip info_dict fs1 f fs2 :
  entry_height f = None →
  extract_available_qualities
    (<[lit "formats" := PyList (PyDict <$> fs1 ++ f :: fs2)]> info_dict) =
  extract_available_qualities
    (<[lit "formats" := PyList (PyDict <$> fs1 ++ fs2)]> info_dict).
Proof.
  intros Hh. rewrite !extract_available_qualities_insert.
  rewrite !fmap_app, fmap_cons, !for_each_app.
  destruct (for_each collect_quality ∅ (PyDict <$> fs1)) as [q|e]; [|reflexivity].
  cbn [mbind result_bind for_each].
  rewrite collect_rejected; [reflexivity|].
  intros (_ & _ & i & Hi). congruence.
Qed.

(** C4. On metadata whose formats are missing, empty or without an
    accepted entry the result is the fallback 720p, 360p; an entry whose
    height is missing or not an integer is not accepted and the loop
    passes over it without raising, the set of heights unchanged; and the
    result, whatever it is, is the same as without that entry. *)
Theorem extract_available_qualities_fallback_spec :
  (∀ info_dict fs, has_formats info_dict fs → Forall (λ f, ¬ accepted f) fs →
     extract_available_qualities info_dict = Ok [lit "720p"; lit "360p"]) ∧
  (∀ qualities f, entry_height f = None →
     ¬ accepted f ∧ collect_quality qualities (PyDict f) = Ok qualities) ∧
  (∀ info_dict fs1 f fs2, entry_height f = None →
     extract_available_qualities
       (<[lit "formats" := PyList (PyDict <$> fs1 ++ f :: fs2)]> info_dict) =
     extract_available_qualities
       (<[lit "formats" := PyList (PyDict <$> fs1 ++ fs2)]> info_dict)).
Proof.
  split; [exact extract_available_qualities_fallback|]. split.
  - exact collect_malformed.
  - exact extract_available_qualities_skip.
Qed.

Lemma extract_available_qualities_fallback_spec_witness :
  extract_available_qualities ∅ = Ok [lit "720p"; lit "360p"] ∧
  extract_available_qualities {[ lit "formats" := PyList [] ]} = Ok [lit "720p"; lit "360p"] ∧
  extract_available_qualities
    {[ lit "formats" := PyList (PyDict <$> rejected_formats) ]}
    = Ok [lit "720p"; lit "360p"] ∧
  (¬ accepted (format_entry "avc1" "mp4" (PyStr (lit "720"))) ∧
   collect_quality ∅ (PyDict (format_entry "avc1" "mp4" (PyStr (lit "720")))) = Ok ∅) ∧
  extract_available_qualities
    (<[lit "formats" := PyList (PyDict <$>
         [format_entry "avc1" "mp4" (PyInt 720)] ++
          {[ lit "vcodec" := PyStr (lit "avc1"); lit "ext" := PyStr (lit "mp4") ]} ::
          [format_entry "avc1" "mp4" (PyInt 360)])]> ∅) =
  extract_available_qualities
    (<[lit "formats" := PyList (PyDict <$>
         [format_entry "avc1" "mp4" (PyInt 720)] ++ [format_entry "avc1" "mp4" (PyInt 360)])]> ∅).
Proof.
  destruct extract_available_qualities_fallback_spec as (Hfall & Hpass & Hskip).
  split; [|split; [|split; [|split]]].
  - apply (Hfall ∅ []); [left; split; reflexivity|constructor].
  - apply (Hfall _ []); [right; reflexivity|constructor].
  - apply (Hfall _ rejected_formats); [right; apply lookup_singleton_eq|].
    repeat constructor.
    + intros (H & _). apply H. vm_compute. reflexivity.
    + intros (_ & H & _). vm_compute in H. discriminate.
    + intros (_ & _ & i & H). vm_compute in H. discriminate.
    + intros (_ & _ & i & H). vm_compute in H. discriminate.
  - apply Hpass. vm_compute. reflexivity.
  - apply Hskip. vm_compute. reflexivity.
Defined.




(** ** The progress tracker *)

Lemma progress_hook_finished d progress_state :
  d !! lit "status" = Some (PyStr (lit "finished")) →
  progress_hook d progress_state =
  Ok ([StatusUpdate
         (lit "Step " ++ str_of_int (step progress_state) ++ lit "/"
            ++ str_of_int (total_steps progress_state)
            ++ lit ": Download finished. Starting conversion...") None None],
      {| step := step progress_state + 1; total_steps := total_steps progress_state |}).
Proof.
  intros Hd. unfold progress_hook, dict_item. rewrite Hd.
  cbn [mbind result_bind].
  change (eq_str (PyStr (lit "finished")) (lit "downloading")) with false.
  change (eq_str (PyStr (lit "finished")) (lit "finished")) with true.
  cbn [step total_steps]. rewrite Z.add_simpl_r.
  repeat rewrite <- app_assoc. reflexivity.
Qed.

Lemma is_finished_lookup d v :
  d !! lit "status" = Some v → is_finished d = eq_str v (lit "finished").
Proof. unfold is_finished. by intros ->. Qed.

Lemma progress_hook_step d progress_state updates progress_state' :
  progress_hook d progress_state = Ok (updates, progress_state') →
  total_steps progress_state' = total_steps progress_state ∧
  step progress_state' = step progress_state + (if is_finished d then 1 else 0) ∧
  Forall (λ e, is_status_update e = true) updates.
Proof.
  unfold progress_hook, dict_item.
  destruct (d !! lit "status") as [v|] eqn:Hv; [|discriminate].
  rewrite (is_finished_lookup d v Hv).
  cbn [mbind result_bind].
  destruct (eq_str v (lit "downloading")) eqn:Hdl.
  - apply eq_str_true in Hdl as ->. intros [= <- <-].
    change (eq_str (PyStr (lit "downloading")) (lit "finished")) with false.
    split; [reflexivity|]. split; [apply Zplus_0_r_reverse|]. by repeat constructor.
  - destruct (eq_str v (lit "finished")); intros [= <- <-]; cbn [step total_steps].
    + split; [reflexivity|]. split; [reflexivity|]. by repeat constructor.
    + split; [reflexivity|]. split; [apply Zplus_0_r_reverse|]. constructor.
Qed.

Lemma progress_hook_returns d progress_state :
  has_status d → ∃ r, progress_hook d progress_state = Ok r.
Proof.
  intros [v Hv]. unfold progress_hook, dict_item. rewrite Hv.
  cbn [mbind result_bind].
  destruct (eq_str v (lit "downloading")); [eauto|].
  destruct (eq_str v (lit "finished")); eauto.
Qed.

Lemma io_bind_fst {A B} (m : io A) (k : A → io B) :
  (m ≫= k).1 = m.1 ++ match m.2 with Ok a => (k a).1 | Raise _ => [] end.
Proof.
  unfold mbind, io_bind. destruct (m.2); [reflexivity|]. simpl. by rewrite app_nil_r.
Qed.

Lemma io_bind_snd {A B} (m : io A) (k : A → io B) :
  (m ≫= k).2 = match m.2 with Ok a => (k a).2 | Raise e => Raise e end.
Proof. unfold mbind, io_bind. by destruct (m.2). Qed.

Lemma count_finished_cons d events :
  count_finished (d :: events) = (if is_finished d then 1 else 0) + count_finished events.
Proof.
  unfold count_finished. rewrite filter_cons.
  destruct (is_finished d); case_decide; try done. simpl length. lia.
Qed.

Lemma run_hooks_updates events : ∀ progress_state,
  Forall (λ e, is_status_update e = true) (run_hooks events progress_state).1.
Proof.
  induction events as [|d events IH]; intros ps; [constructor|].
  cbn [run_hooks]. rewrite io_bind_fst. unfold hook_io.
  destruct (progress_hook d ps) as [[upd ps']|e] eqn:Hd; cbn [fst snd].
  - apply Forall_app. split; [|apply IH].
    by destruct (progress_hook_step _ _ _ _ Hd) as (_ & _ & ?).
  - constructor.
Qed.

Lemma progress_hook_step_updates d progress_state updates progress_state' :
  progress_hook d progress_state = Ok (updates, progress_state') →
  Forall is_step_update updates.
Proof.
  unfold progress_hook, dict_item.
  destruct (d !! lit "status") as [v|] eqn:Hv; [|discriminate].
  cbn [mbind result_bind].
  destruct (eq_str v (lit "downloading")).
  - intros [= <- <-]. repeat constructor. eexists. rewrite <- !app_assoc. reflexivity.
  - destruct (eq_str v (lit "finished")); intros [= <- <-]; [|constructor].
    repeat constructor. eexists. rewrite <- !app_assoc. reflexivity.
Qed.

Lemma run_hooks_step_updates events : ∀ progress_state,
  Forall is_step_update (run_hooks events progress_state).1.
Proof.
  induction events as [|d events IH]; intros ps; [constructor|].
  cbn [run_hooks]. rewrite io_bind_fst. unfold hook_io.
  destruct (progress_hook d ps) as [[upd ps']|e] eqn:Hd; cbn [fst snd].
  - apply Forall_app. split; [|apply IH]. by eapply progress_hook_step_updates.
  - constructor.
Qed.

Lemma step_update_not_failed e : is_step_update e → is_download_failed e = false.
Proof.
  intros [rest ->]. cbn [is_download_failed]. apply bool_decide_eq_false.
  intros H. apply (f_equal head) in H. vm_compute in H. discriminate.
Qed.

Lemma run_hooks_steps events : ∀ progress_state,
  Forall has_status events →
  ∃ progress_state', (run_hooks events progress_state).2 = Ok progress_state' ∧
    step progress_state' = step progress_state + count_finished events ∧
    total_steps progress_state' = total_steps progress_state.
Proof.
  induction events as [|d events IH]; intros ps Hst.
  - exists ps. split; [reflexivity|]. split; [|reflexivity].
    unfold count_finished. simpl. lia.
  - apply Forall_cons in Hst as [Hd Hst].
    destruct (progress_hook_returns d ps Hd) as ([upd ps1] & Hhook).
    destruct (progress_hook_step _ _ _ _ Hhook) as (Htot & Hstep & _).
    destruct (IH ps1 Hst) as (ps' & Hrun & Hstep' & Htot').
    exists ps'. cbn [run_hooks]. rewrite io_bind_snd. unfold hook_io.
    rewrite Hhook. cbn [fst snd]. split; [exact Hrun|].
    rewrite count_finished_cons. split; [lia|congruence].
Qed.

Lemma fresh_step format_type quality_setting :
  step (plan_progress (download_plan format_type quality_setting)) = 1.
Proof.
  unfold download_plan. case_bool_decide; [reflexivity|].
  cbn [plan_progress]. by destruct (py_in _ _).
Qed.

(** C3, as the code has it. One event changes [step] only if its status
    is finished, and then by one; [total_steps] never changes. After any
    events that all carry a status, [step] is one plus the number of
    finished events, so it stays within [total_steps + 1] as long as no
    more than [total_steps] finished events are delivered. *)
Theorem progress_step_count :
  (∀ d progress_state updates progress_state',
     progress_hook d progress_state = Ok (updates, progress_state') →
     total_steps progress_state' = total_steps progress_state ∧
     step progress_state' = step progress_state + (if is_finished d then 1 else 0)) ∧
  (∀ events format_type quality_setting,
     Forall has_status events →
     ∃ progress_state,
       (run_hooks events (plan_progress (download_plan format_type quality_setting))).2
         = Ok progress_state ∧
       step progress_state = 1 + count_finished events ∧
       total_steps progress_state
         = total_steps (plan_progress (download_plan format_type quality_setting)) ∧
       (count_finished events ≤ total_steps progress_state →
        step progress_state ≤ total_steps progress_state + 1)).
Proof.
  split.
  - intros d ps upd ps' H. destruct (progress_hook_step _ _ _ _ H) as (? & ? & _). done.
  - intros events ft q Hst.
    destruct (run_hooks_steps events (plan_progress (download_plan ft q)) Hst)
      as (ps & Hrun & Hstep & Htot).
    rewrite fresh_step in Hstep.
    exists ps. split; [exact Hrun|]. split; [exact Hstep|]. split; [exact Htot|]. lia.
Qed.

Lemma progress_step_count_witness :
  Forall has_status [downloading_event "45.0%" "1.2MiB/s" "00:10"; finished_event;
                     downloading_event "10.0%" "1.0MiB/s" "00:02"; finished_event] ∧
  ∃ progress_state,
    (run_hooks [downloading_event "45.0%" "1.2MiB/s" "00:10"; finished_event;
                downloading_event "10.0%" "1.0MiB/s" "00:02"; finished_event]
       (plan_progress (download_plan (lit "mp4") (lit "720p")))).2 = Ok progress_state ∧
    step progress_state = 3 ∧ total_steps progress_state = 2 ∧
    (2 ≤ total_steps progress_state → step progress_state ≤ total_steps progress_state + 1).
Proof.
  assert (Forall has_status
            [downloading_event "45.0%" "1.2MiB/s" "00:10"; finished_event;
             downloading_event "10.0%" "1.0MiB/s" "00:02"; finished_event]) as Hst.
  { repeat constructor; eexists; vm_compute; reflexivity. }
  split; [exact Hst|].
  destruct progress_step_count as (_ & H).
  exact (H _ (lit "mp4") (lit "720p") Hst).
Defined.

(** Counterexample to the bound of C3 over arbitrary event sequences: in
    mp3 mode ([total_steps] 1) two finished events, as a playlist of two
    entries delivers them, bring [step] to 3. *)
Lemma progress_bound_counterexample :
  ∃ progress_state,
    (run_hooks [finished_event; finished_event]
       (plan_progress (download_plan (lit "mp3") (lit "128")))).2 = Ok progress_state ∧
    ¬ (step progress_state ≤ total_steps progress_state + 1).
Proof.
  exists {| step := 3; total_steps := 1 |}. split; [vm_compute; reflexivity|].
  cbn [step total_steps]. lia.
Qed.

(** C6. On an event whose status is finished the hook adds one to
    [step], leaves [total_steps] as it is, and publishes the label that
    names the step just completed over [total_steps] and announces the
    conversion. *)
Theorem progress_hook_finished_spec d progress_state :
  d !! lit "status" = Some (PyStr (lit "finished")) →
  progress_hook d progress_state =
  Ok ([StatusUpdate
         (lit "Step " ++ str_of_int (step progress_state) ++ lit "/"
            ++ str_of_int (total_steps progress_state)
            ++ lit ": Download finished. Starting conversion...") None None],
      {| step := step progress_state + 1; total_steps := total_steps progress_state |}).
Proof. apply progress_hook_finished. Qed.

Lemma progress_hook_finished_spec_witness :
  finished_event !! lit "status" = Some (PyStr (lit "finished")) ∧
  progress_hook finished_event {| step := 1; total_steps := 2 |} =
  Ok ([StatusUpdate (lit "Step 1/2: Download finished. Starting conversion...") None None],
      {| step := 2; total_steps := 2 |}).
Proof.
  assert (finished_event !! lit "status" = Some (PyStr (lit "finished"))) as Hd.
  { apply lookup_singleton_eq. }
  split; [exact Hd|].
  exact (progress_hook_finished_spec finished_event {| step := 1; total_steps := 2 |} Hd).
Defined.

(** ** The download plan *)

Lemma slice_to_last_snoc s c : slice_to_last (s ++ [c]) = s.
Proof.
  unfold slice_to_last. rewrite length_app. simpl.
  replace (length s + 1 - 1)%nat with (length s) by lia.
  apply take_app_length.
Qed.

Lemma starts_with_cons c s : starts_with [c] (c :: s) = true.
Proof. simpl. by rewrite N.eqb_refl. Qed.

Lemma py_in_char c hay : c ∈ hay → py_in [c] hay = true.
Proof.
  induction 1 as [c s|c d s _ IH].
  - cbn [py_in]. by rewrite starts_with_cons.
  - cbn [py_in]. rewrite IH. apply orb_true_r.
Qed.

Lemma mp4_format_string_merges height :
  py_in (lit "+") (mp4_format_string height) = true.
Proof.
  apply py_in_char. unfold mp4_format_string.
  rewrite !elem_of_app. right. right. left.
  apply (bool_decide_unpack _). vm_compute. exact I.
Qed.

Lemma download_plan_mp4 quality_setting :
  download_plan (lit "mp4") quality_setting =
  {| plan_progress := {| step := 1; total_steps := 2 |};
     plan_format := mp4_format_string (slice_to_last quality_setting);
     plan_postprocessors := [] |}.
Proof.
  unfold download_plan.
  rewrite bool_decide_eq_false_2 by (intros H; vm_compute in H; discriminate).
  by rewrite mp4_format_string_merges.
Qed.

Lemma download_plan_mp3 quality_setting :
  download_plan (lit "mp3") quality_setting =
  {| plan_progress := {| step := 1; total_steps := 1 |};
     plan_format := lit "bestaudio/best";
     plan_postprocessors :=
       [ {[ lit "key" := PyStr (lit "FFmpegExtractAudio");
            lit "preferredcodec" := PyStr (lit "mp3");
            lit "preferredquality" := PyStr quality_setting ]} ] |}.
Proof. unfold download_plan. by rewrite bool_decide_eq_true_2. Qed.

(** ** The download orchestrator *)

Lemma no_extract_call_among_updates (l : list effect) :
  Forall (λ e, is_status_update e = true) l →
  filter (λ e, is_extract_call e = true) l = [].
Proof.
  induction 1 as [|e l He _ IH]; [reflexivity|].
  rewrite filter_cons_False; [exact IH|]. destruct e; simpl in *; congruence.
Qed.

Ltac io_simpl :=
  repeat (progress
            (rewrite ?io_bind_fst, ?io_bind_snd; cbn [emit lift fst snd];
             repeat match goal with
                    | H : _ = Ok _ |- _ => rewrite H
                    | H : _ = Raise _ |- _ => rewrite H
                    end)).

(** Closes the goal of a run that ends without a download button. *)
Ltac io_done :=
  io_simpl; eexists; split;
  [ unfold call_prefix; rewrite <- !app_assoc; cbn [app]; reflexivity
  | split;
    [ by repeat constructor
    | let H := fresh in
      intros H;
      repeat (apply Exists_cons in H as [H|H]; [discriminate H|]);
      by apply Exists_nil in H ] ].

Section HandleDownloadFacts.

Variable temp_dir : str.
Variable os_path_join : str → str → str.
Variable os_path_exists : pyval → result bool.
Variable os_path_basename : pyval → result str.
Variable read_bytes : pyval → result (list N).
Variable ydl_extract_info : YdlOptions → str → list pydict * result pyval.

Variables url title format_type quality_setting : str.

Let p := download_plan format_type quality_setting.
Let opts := ydl_opts temp_dir os_path_join title format_type quality_setting.
Let body :=
  download_body temp_dir os_path_join os_path_exists os_path_basename read_bytes
    ydl_extract_info url title format_type quality_setting.
Let hooks := run_hooks (ydl_extract_info opts url).1 (plan_progress p).

(** Every run starts with the same four effects and the single call of
    the library, whose options carry the planned format string and
    post-processors. *)
Lemma handle_download_starts :
  ∃ rest,
    handle_download temp_dir os_path_join os_path_exists os_path_basename read_bytes
      ydl_extract_info url title format_type quality_setting
      = call_prefix p opts url ++ rest.
Proof.
  unfold handle_download, try_finally, try_except. cbn [emit fst snd].
  fold body. assert (∃ rest, body.1 = call_prefix p opts url ++ rest) as [rest Hb].
  { unfold body, download_body. rewrite !io_bind_fst. cbn [emit fst snd].
    unfold extract_info at 1. rewrite !io_bind_fst. cbn [emit fst snd].
    fold p opts. unfold call_prefix. simpl app. eauto. }
  destruct body.2; cbn [fst snd]; rewrite Hb, <- !app_assoc; eauto.
Qed.

(** The run when the file cannot be retrieved. *)
Lemma handle_download_missing info_dict actual_filepath :
  Forall has_status (ydl_extract_info opts url).1 →
  (ydl_extract_info opts url).2 = Ok info_dict →
  resolve_filepath info_dict = Ok actual_filepath →
  file_missing os_path_exists actual_filepath = Ok true →
  handle_download temp_dir os_path_join os_path_exists os_path_basename read_bytes
    ydl_extract_info url title format_type quality_setting
    = call_prefix p opts url ++ hooks.1 ++ failure_report.
Proof.
  intros Hst Hinfo Hpath Hmiss.
  destruct (run_hooks_steps _ (plan_progress p) Hst) as (ps & Hrun & _).
  fold opts in Hrun. fold hooks in Hrun.
  assert ((extract_info ydl_extract_info opts url (plan_progress p)).1
          = [YdlExtractInfo opts url true] ++ hooks.1) as Hcall1.
  { unfold extract_info. rewrite !io_bind_fst. cbn [emit fst snd].
    fold hooks. rewrite Hrun. cbn [lift fst]. by rewrite app_nil_r. }
  assert ((extract_info ydl_extract_info opts url (plan_progress p)).2 = Ok info_dict)
    as Hcall2.
  { unfold extract_info. rewrite !io_bind_snd. cbn [emit fst snd].
    fold hooks. rewrite Hrun. cbn [lift snd]. exact Hinfo. }
  assert (body.1 = call_prefix p opts url ++ hooks.1 ++
            [StatusUpdate (lit "Download Failed") (Some (lit "error")) (Some false);
             StError (lit "Could not retrieve the final file.")]) as Hb1.
  { unfold body, download_body. rewrite !io_bind_fst. cbn [emit fst snd].
    fold p opts. rewrite Hcall1, Hcall2. rewrite !io_bind_fst.
    cbn [lift fst snd]. rewrite Hpath. rewrite !io_bind_fst.
    cbn [lift fst snd]. rewrite Hmiss. rewrite !io_bind_fst. cbn [emit fst snd].
    unfold call_prefix. rewrite <- !app_assoc. reflexivity. }
  assert (body.2 = Ok tt) as Hb2.
  { unfold body, download_body. rewrite !io_bind_snd. cbn [emit fst snd].
    fold p opts. rewrite Hcall2. rewrite !io_bind_snd.
    cbn [lift fst snd]. rewrite Hpath. rewrite !io_bind_snd.
    cbn [lift fst snd]. rewrite Hmiss. rewrite !io_bind_snd. reflexivity. }
  unfold handle_download, try_finally, try_except. cbn [emit fst snd].
  fold body. rewrite Hb2. cbn [fst snd]. rewrite Hb1.
  unfold failure_report. by rewrite <- !app_assoc.
Qed.

Lemma file_missing_true actual_filepath :
  truthy actual_filepath = false ∨ os_path_exists actual_filepath = Ok false →
  file_missing os_path_exists actual_filepath = Ok true.
Proof.
  unfold file_missing. intros [-> | H]; [reflexivity|].
  destruct (truthy actual_filepath); [|reflexivity]. by rewrite H.
Qed.

Lemma handle_download_failure info_dict actual_filepath :
  Forall has_status (ydl_extract_info opts url).1 →
  (ydl_extract_info opts url).2 = Ok info_dict →
  resolve_filepath info_dict = Ok actual_filepath →
  truthy actual_filepath = false ∨ os_path_exists actual_filepath = Ok false →
  let trace :=
    handle_download temp_dir os_path_join os_path_exists os_path_basename read_bytes
      ydl_extract_info url title format_type quality_setting in
  (∃ before, trace = before ++ failure_report) ∧
  Forall (λ e, is_download_button e = false) trace ∧
  length (filter (λ e, is_extract_call e = true) trace) = 1%nat.
Proof.
  intros Hst Hinfo Hpath Hmiss trace.
  pose proof (handle_download_missing _ _ Hst Hinfo Hpath (file_missing_true _ Hmiss)) as Ht.
  fold trace in Ht. pose proof (run_hooks_updates (ydl_extract_info opts url).1
                                  (plan_progress p)) as Hup.
  fold hooks in Hup. rewrite Ht. split; [|split].
  - exists (call_prefix p opts url ++ hooks.1). by rewrite <- app_assoc.
  - rewrite !Forall_app. split; [by repeat constructor|]. split; [|by repeat constructor].
    eapply Forall_impl; [exact Hup|]. by intros [].
  - rewrite !filter_app, !length_app.
    assert (filter (λ e, is_extract_call e = true) hooks.1 = []) as ->.
    { by apply no_extract_call_among_updates. }
    reflexivity.
Qed.

(** The run when line 100 raises: the handler of line 120 reports the
    exception; the status label is left as the hooks set it. *)
Lemma handle_download_unresolved info_dict e :
  Forall has_status (ydl_extract_info opts url).1 →
  (ydl_extract_info opts url).2 = Ok info_dict →
  resolve_filepath info_dict = Raise e →
  let trace :=
    handle_download temp_dir os_path_join os_path_exists os_path_basename read_bytes
      ydl_extract_info url title format_type quality_setting in
  (∃ before, trace = before ++ unexpected_error_report e) ∧
  Forall (λ e, is_download_failed e = false) trace ∧
  Forall (λ e, is_download_button e = false) trace ∧
  length (filter (λ e, is_extract_call e = true) trace) = 1%nat.
Proof.
  intros Hst Hinfo Hpath trace.
  destruct (run_hooks_steps _ (plan_progress p) Hst) as (ps & Hrun & _).
  fold opts in Hrun. fold hooks in Hrun.
  assert (trace = call_prefix p opts url ++ hooks.1 ++ unexpected_error_report e) as Ht.
  { unfold trace, handle_download, try_finally, try_except. cbn [emit fst snd].
    unfold download_body, extract_info. fold p opts. io_simpl. fold hooks. io_simpl.
    unfold call_prefix, unexpected_error_report. rewrite <- ?app_assoc. reflexivity. }
  pose proof (run_hooks_updates (ydl_extract_info opts url).1 (plan_progress p)) as Hup.
  pose proof (run_hooks_step_updates (ydl_extract_info opts url).1 (plan_progress p)) as Hsteps.
  fold hooks in Hup, Hsteps. rewrite Ht. split; [|split; [|split]].
  - exists (call_prefix p opts url ++ hooks.1). by rewrite <- app_assoc.
  - rewrite !Forall_app. split; [|split; [|by repeat constructor]].
    + unfold call_prefix. by repeat constructor.
    + eapply Forall_impl; [exact Hsteps|]. apply step_update_not_failed.
  - rewrite !Forall_app. split; [by repeat constructor|]. split; [|by repeat constructor].
    eapply Forall_impl; [exact Hup|]. by intros [].
  - rewrite !filter_app, !length_app.
    assert (filter (λ e, is_extract_call e = true) hooks.1 = []) as ->.
    { by apply no_extract_call_among_updates. }
    reflexivity.
Qed.

Lemma file_missing_false actual_filepath :
  file_missing os_path_exists actual_filepath = Ok false →
  truthy actual_filepath = true ∧ os_path_exists actual_filepath = Ok true.
Proof.
  unfold file_missing. destruct (truthy actual_filepath); [|discriminate].
  destruct (os_path_exists actual_filepath) as [[]|]; by intros [=].
Qed.

(** The shape of every run: the common start, the updates of the
    hooks, and a tail without a further call of the library; the tail
    shows a download button only if a path was resolved that exists. *)
Lemma handle_download_shape :
  ∃ tail,
    handle_download temp_dir os_path_join os_path_exists os_path_basename read_bytes
      ydl_extract_info url title format_type quality_setting
      = call_prefix p opts url ++ hooks.1 ++ tail ∧
    Forall (λ e, is_extract_call e = false) tail ∧
    (Exists (λ e, is_download_button e = true) tail →
     ∃ info_dict actual_filepath,
       (ydl_extract_info opts url).2 = Ok info_dict ∧
       resolve_filepath info_dict = Ok actual_filepath ∧
       truthy actual_filepath = true ∧ os_path_exists actual_filepath = Ok true).
Proof.
  unfold handle_download, try_finally, try_except. cbn [emit fst snd].
  fold body. unfold body, download_body, extract_info. fold p opts.
  io_simpl. fold hooks.
  destruct hooks.2 as [ps|e1] eqn:Hhooks; [|io_done].
  destruct (ydl_extract_info opts url).2 as [info_dict|e2] eqn:Hinfo; [|io_done].
  io_simpl.
  destruct (resolve_filepath info_dict) as [actual_filepath|e3] eqn:Hpath; [|io_done].
  io_simpl.
  destruct (file_missing os_path_exists actual_filepath) as [[]|e4] eqn:Hmiss;
    [io_done| |io_done].
  io_simpl.
  destruct (os_path_basename actual_filepath) as [name|e5] eqn:Hname; [|io_done].
  io_simpl.
  destruct (read_bytes actual_filepath) as [file_bytes|e6] eqn:Hread; [|io_done].
  io_simpl. eexists. split; [|split].
  - unfold call_prefix. rewrite <- !app_assoc. cbn [app]. reflexivity.
  - by repeat constructor.
  - intros _. exists info_dict, actual_filepath.
    split; [reflexivity|]. split; [exact Hpath|]. by apply file_missing_false.
Qed.

(** X25. No run calls the library a second time, however the run
    ends. *)
Lemma handle_download_calls_once :
  length (filter (λ e, is_extract_call e = true)
    (handle_download temp_dir os_path_join os_path_exists os_path_basename read_bytes
       ydl_extract_info url title format_type quality_setting)) = 1%nat.
Proof.
  destruct handle_download_shape as (tail & -> & Htail & _).
  rewrite !filter_app, !length_app.
  rewrite (no_extract_call_among_updates hooks.1) by apply run_hooks_updates.
  assert (filter (λ e, is_extract_call e = true) tail = []) as ->; [|reflexivity].
  induction Htail as [|e tail He _ IH]; [reflexivity|].
  rewrite filter_cons_False; [exact IH|congruence].
Qed.

(** X26. A download button is shown only when the call returned, line
    100 resolved a path that counts as true, and the path exists. *)
Lemma handle_download_exposes :
  Exists (λ e, is_download_button e = true)
    (handle_download temp_dir os_path_join os_path_exists os_path_basename read_bytes
       ydl_extract_info url title format_type quality_setting) →
  ∃ info_dict actual_filepath,
    (ydl_extract_info opts url).2 = Ok info_dict ∧
    resolve_filepath info_dict = Ok actual_filepath ∧
    truthy actual_filepath = true ∧ os_path_exists actual_filepath = Ok true.
Proof.
  destruct handle_download_shape as (tail & -> & _ & Htail).
  rewrite !Exists_app. intros [H|[H|H]]; [| |by apply Htail].
  - unfold call_prefix in H.
    repeat (apply Exists_cons in H as [H|H]; [discriminate H|]).
    by apply Exists_nil in H.
  - pose proof (run_hooks_updates (ydl_extract_info opts url).1 (plan_progress p)) as Hup.
    fold hooks in Hup. apply Exists_exists in H as (e & Hin & He).
    rewrite Forall_forall in Hup. specialize (Hup e Hin). by destruct e.
Qed.

End HandleDownloadFacts.

Lemma resolve_filepath_absent (d first : pydict) rest :
  d !! lit "requested_downloads" = Some (PyList (PyDict first :: rest)) →
  first !! lit "filepath" = None →
  resolve_filepath (PyDict d) = Ok PyNone.
Proof.
  intros Hd Hf. unfold resolve_filepath, py_get. rewrite Hd.
  cbn [default mbind result_bind from_option id py_item0]. by rewrite Hf.
Qed.

Lemma resolve_filepath_no_downloads (d : pydict) :
  d !! lit "requested_downloads" = None → resolve_filepath (PyDict d) = Ok PyNone.
Proof. intros Hd. unfold resolve_filepath, py_get. by rewrite Hd. Qed.

Lemma resolve_filepath_empty_downloads (d : pydict) :
  d !! lit "requested_downloads" = Some (PyList []) →
  resolve_filepath (PyDict d) = Raise (Exn IndexError (lit "list index out of range")).
Proof. intros Hd. unfold resolve_filepath, py_get. by rewrite Hd. Qed.

(** C5. When the call returns a result from which line 100 resolves a
    path that is empty, [None] or otherwise false, or a path that does
    not exist, the run ends with the status label Download Failed in
    state error, the error message and the cleanup.  When line 100
    itself raises, as on a result whose list of requested downloads is
    empty, the run ends with the generic message of line 121 carrying
    the text of the exception, and the label Download Failed is never
    shown.  In both cases no download button is shown, and the library
    is called exactly once. *)
Theorem handle_download_failure_spec
  (temp_dir : str) (os_path_join : str → str → str)
  (os_path_exists : pyval → result bool) (os_path_basename : pyval → result str)
  (read_bytes : pyval → result (list N))
  (ydl_extract_info : YdlOptions → str → list pydict * result pyval)
  (url title format_type quality_setting : str) (info_dict : pyval) :
  Forall has_status
    (ydl_extract_info (ydl_opts temp_dir os_path_join title format_type quality_setting) url).1 →
  (ydl_extract_info (ydl_opts temp_dir os_path_join title format_type quality_setting) url).2
    = Ok info_dict →
  let trace :=
    handle_download temp_dir os_path_join os_path_exists os_path_basename read_bytes
      ydl_extract_info url title format_type quality_setting in
  (∀ actual_filepath, resolve_filepath info_dict = Ok actual_filepath →
     truthy actual_filepath = false ∨ os_path_exists actual_filepath = Ok false →
     (∃ before, trace = before ++ failure_report) ∧
     Forall (λ e, is_download_button e = false) trace ∧
     length (filter (λ e, is_extract_call e = true) trace) = 1%nat) ∧
  (∀ e, resolve_filepath info_dict = Raise e →
     (∃ before, trace = before ++ unexpected_error_report e) ∧
     Forall (λ e, is_download_failed e = false) trace ∧
     Forall (λ e, is_download_button e = false) trace ∧
     length (filter (λ e, is_extract_call e = true) trace) = 1%nat) ∧
  (∀ d, info_dict = PyDict d → d !! lit "requested_downloads" = Some (PyList []) →
     resolve_filepath info_dict = Raise (Exn IndexError (lit "list index out of range"))).
Proof.
  intros Hst Hinfo trace. split; [|split].
  - intros actual_filepath Hpath Hmiss. by eapply handle_download_failure.
  - intros e Hpath. by eapply handle_download_unresolved.
  - intros d -> Hd. by apply resolve_filepath_empty_downloads.
Qed.

Lemma handle_download_failure_spec_witness :
  resolve_filepath info_without_filepath = Ok PyNone ∧
  resolve_filepath (info_with_filepath "/tmp/tmpk3/A video.mp3")
    = Ok (PyStr (lit "/tmp/tmpk3/A video.mp3")) ∧
  resolve_filepath info_without_downloads
    = Raise (Exn IndexError (lit "list index out of range")) ∧
  (∃ before,
     handle_download (lit "/tmp/tmpk3") example_join (example_exists []) example_basename
       example_read (example_ydl [finished_event] (Ok info_without_filepath))
       (lit "https://youtu.be/v") (lit "A video") (lit "mp3") (lit "128")
     = before ++ failure_report) ∧
  Forall (λ e, is_download_button e = false)
    (handle_download (lit "/tmp/tmpk3") example_join (example_exists []) example_basename
       example_read (example_ydl [finished_event]
                       (Ok (info_with_filepath "/tmp/tmpk3/A video.mp3")))
       (lit "https://youtu.be/v") (lit "A video") (lit "mp3") (lit "128")) ∧
  Forall (λ e, is_download_failed e = false)
    (handle_download (lit "/tmp/tmpk3") example_join (example_exists []) example_basename
       example_read (example_ydl [finished_event] (Ok info_without_downloads))
       (lit "https://youtu.be/v") (lit "A video") (lit "mp3") (lit "128")).
Proof.
  assert (Forall has_status [finished_event]) as Hst.
  { repeat constructor. eexists. apply lookup_singleton_eq. }
  assert (resolve_filepath info_without_filepath = Ok PyNone) as Hnone.
  { vm_compute. reflexivity. }
  assert (resolve_filepath (info_with_filepath "/tmp/tmpk3/A video.mp3")
          = Ok (PyStr (lit "/tmp/tmpk3/A video.mp3"))) as Hpath.
  { vm_compute. reflexivity. }
  assert (resolve_filepath info_without_downloads
          = Raise (Exn IndexError (lit "list index out of range"))) as Hraise.
  { vm_compute. reflexivity. }
  split; [exact Hnone|]. split; [exact Hpath|]. split; [exact Hraise|]. split; [|split].
  - destruct (handle_download_failure_spec (lit "/tmp/tmpk3") example_join (example_exists [])
                example_basename example_read
                (example_ydl [finished_event] (Ok info_without_filepath))
                (lit "https://youtu.be/v") (lit "A video") (lit "mp3") (lit "128")
                info_without_filepath Hst eq_refl) as (Hfail & _).
    apply (Hfail PyNone Hnone). left. reflexivity.
  - destruct (handle_download_failure_spec (lit "/tmp/tmpk3") example_join (example_exists [])
                example_basename example_read
                (example_ydl [finished_event]
                   (Ok (info_with_filepath "/tmp/tmpk3/A video.mp3")))
                (lit "https://youtu.be/v") (lit "A video") (lit "mp3") (lit "128")
                (info_with_filepath "/tmp/tmpk3/A video.mp3") Hst eq_refl) as (Hfail & _).
    apply (Hfail (PyStr (lit "/tmp/tmpk3/A video.mp3")) Hpath). right. reflexivity.
  - destruct (handle_download_failure_spec (lit "/tmp/tmpk3") example_join (example_exists [])
                example_basename example_read
                (example_ydl [finished_event] (Ok info_without_downloads))
                (lit "https://youtu.be/v") (lit "A video") (lit "mp3") (lit "128")
                info_without_downloads Hst eq_refl) as (_ & Hgeneric & _).
    apply (Hgeneric _ Hraise).
Defined.

(** Counterexample to C5 as stated for every result without a
    resolvable path: the result whose list of requested downloads is
    empty has no first entry; line 100 raises [IndexError], the run shows
    the generic message and the status label is never set to Download
    Failed. *)
Lemma handle_download_failure_spec_counterexample :
  resolve_filepath info_without_downloads
    = Raise (Exn IndexError (lit "list index out of range")) ∧
  handle_download (lit "/tmp/tmpk3") example_join (example_exists []) example_basename
    example_read (example_ydl [finished_event] (Ok info_without_downloads))
    (lit "https://youtu.be/v") (lit "A video") (lit "mp3") (lit "128")
  = call_prefix (download_plan (lit "mp3") (lit "128"))
      (ydl_opts (lit "/tmp/tmpk3") example_join (lit "A video") (lit "mp3") (lit "128"))
      (lit "https://youtu.be/v")
    ++ [StatusUpdate (lit "Step 1/1: Download finished. Starting conversion...") None None;
        StError (lit "An unexpected error occurred: list index out of range");
        SessionDelStatusBox] ∧
  ¬ Exists (λ e, is_download_failed e = true)
      (handle_download (lit "/tmp/tmpk3") example_join (example_exists []) example_basename
         example_read (example_ydl [finished_event] (Ok info_without_downloads))
         (lit "https://youtu.be/v") (lit "A video") (lit "mp3") (lit "128")).
Proof.
  split; [vm_compute; reflexivity|]. split; [vm_compute; reflexivity|].
  apply (bool_decide_unpack _). vm_compute. exact I.
Qed.

(** ** The format specifier *)

(** C2. In mp4 mode the quality label of a height [h] is read back to
    the digits of [h], and the plan asks for the best MP4 video of
    height at most [h] merged with the best M4A audio, else the best
    pre-merged MP4 of height at most [h], without post-processors;
    [total_steps] is 2 when the format string contains the merge sign
    and 1 otherwise, which for this format string means 2; the options
    passed to the library carry that format string. *)
Theorem mp4_plan_spec :
  (∀ h : Z,
     slice_to_last (str_of_int h ++ lit "p") = str_of_int h ∧
     download_plan (lit "mp4") (str_of_int h ++ lit "p") =
       {| plan_progress := {| step := 1; total_steps := 2 |};
          plan_format :=
            lit "bestvideo[ext=mp4][height<=" ++ str_of_int h
              ++ lit "]+bestaudio[ext=m4a]/best[ext=mp4][height<=" ++ str_of_int h ++ lit "]";
          plan_postprocessors := [] |}) ∧
  (∀ quality_setting,
     total_steps (plan_progress (download_plan (lit "mp4") quality_setting)) =
       if py_in (lit "+") (plan_format (download_plan (lit "mp4") quality_setting))
       then 2 else 1) ∧
  (∀ temp_dir os_path_join os_path_exists os_path_basename read_bytes ydl_extract_info
     url title quality_setting,
     format (ydl_opts temp_dir os_path_join title (lit "mp4") quality_setting)
       = plan_format (download_plan (lit "mp4") quality_setting) ∧
     ∃ rest,
       handle_download temp_dir os_path_join os_path_exists os_path_basename read_bytes
         ydl_extract_info url title (lit "mp4") quality_setting
       = call_prefix (download_plan (lit "mp4") quality_setting)
           (ydl_opts temp_dir os_path_join title (lit "mp4") quality_setting) url ++ rest) ∧
  plan_format (download_plan (lit "mp4") (lit "480p"))
    = lit "bestvideo[ext=mp4][height<=480]+bestaudio[ext=m4a]/best[ext=mp4][height<=480]".
Proof.
  split; [|split; [|split]].
  - intros h. assert (slice_to_last (str_of_int h ++ lit "p") = str_of_int h) as Hs.
    { apply (slice_to_last_snoc _ (ch "p")). }
    split; [exact Hs|]. by rewrite download_plan_mp4, Hs.
  - intros q. rewrite download_plan_mp4. cbn [plan_progress plan_format total_steps].
    by rewrite mp4_format_string_merges.
  - intros. split; [reflexivity|]. apply handle_download_starts.
  - vm_compute. reflexivity.
Qed.

(** C9. In mp3 mode, for each of the bit rates 128, 192, 256 and 320 the
    plan asks for the best audio and has the one post-processor
    FFmpegExtractAudio with preferred codec mp3 and the requested bit
    rate as preferred quality; [total_steps] stays 1; the options passed
    to the library carry that format string and post-processor. *)
Theorem mp3_plan_spec (quality_setting : str) :
  quality_setting ∈ mp3_bitrates →
  plan_format (download_plan (lit "mp3") quality_setting) = lit "bestaudio/best" ∧
  plan_progress (download_plan (lit "mp3") quality_setting) = {| step := 1; total_steps := 1 |} ∧
  (∃ pp, plan_postprocessors (download_plan (lit "mp3") quality_setting) = [pp] ∧
     pp !! lit "key" = Some (PyStr (lit "FFmpegExtractAudio")) ∧
     pp !! lit "preferredcodec" = Some (PyStr (lit "mp3")) ∧
     pp !! lit "preferredquality" = Some (PyStr quality_setting)) ∧
  (∀ temp_dir os_path_join os_path_exists os_path_basename read_bytes ydl_extract_info
     url title,
     format (ydl_opts temp_dir os_path_join title (lit "mp3") quality_setting)
       = lit "bestaudio/best" ∧
     postprocessors (ydl_opts temp_dir os_path_join title (lit "mp3") quality_setting)
       = plan_postprocessors (download_plan (lit "mp3") quality_setting) ∧
     ∃ rest,
       handle_download temp_dir os_path_join os_path_exists os_path_basename read_bytes
         ydl_extract_info url title (lit "mp3") quality_setting
       = call_prefix (download_plan (lit "mp3") quality_setting)
           (ydl_opts temp_dir os_path_join title (lit "mp3") quality_setting) url ++ rest).
Proof.
  intros _. split; [by rewrite download_plan_mp3|]. split; [by rewrite download_plan_mp3|].
  split.
  - rewrite download_plan_mp3. eexists. split; [reflexivity|]. split; [|split].
    + apply lookup_insert_eq.
    + rewrite lookup_insert_ne by (intros H; vm_compute in H; discriminate).
      apply lookup_insert_eq.
    + rewrite !lookup_insert_ne by (intros H; vm_compute in H; discriminate).
      apply lookup_singleton_eq.
  - intros. split; [|split].
    + unfold ydl_opts. cbn [format]. by rewrite download_plan_mp3.
    + reflexivity.
    + apply handle_download_starts.
Qed.

Lemma mp3_plan_spec_witness :
  lit "256" ∈ mp3_bitrates ∧
  plan_format (download_plan (lit "mp3") (lit "256")) = lit "bestaudio/best" ∧
  ∃ pp, plan_postprocessors (download_plan (lit "mp3") (lit "256")) = [pp] ∧
    pp !! lit "key" = Some (PyStr (lit "FFmpegExtractAudio")) ∧
    pp !! lit "preferredcodec" = Some (PyStr (lit "mp3")) ∧
    pp !! lit "preferredquality" = Some (PyStr (lit "256")).
Proof.
  assert (lit "256" ∈ mp3_bitrates) as Hin.
  { apply (bool_decide_unpack _). vm_compute. exact I. }
  split; [exact Hin|].
  destruct (mp3_plan_spec (lit "256") Hin) as (Hfmt & _ & Hpp & _).
  split; [exact Hfmt|exact Hpp].
Defined.

(** ** Worked examples *)

(** Only the sequences met by the left-to-right scan are removed: here
    the second ESC starts a CSI sequence, and what remains after its
    removal reads as a sequence again. *)
Example sanitize_for_display_single_pass :
  sanitize_for_display (PyStr ([ESC; ESC] ++ lit "[0m" ++ lit "[1m"))
  = [ESC] ++ lit "[1m".
Proof. vm_compute. reflexivity. Qed.

(** An unfinished sequence is not an escape sequence and is kept. *)
Example sanitize_for_display_unfinished :
  sanitize_for_display (PyStr ([ESC] ++ lit "[12;")) = [ESC] ++ lit "[12;".
Proof. vm_compute. reflexivity. Qed.

Example sanitize_filename_example :
  sanitize_filename (lit "AC/DC: Back in Black? <live>") = lit "AC_DC_ Back in Black_ _live_".
Proof. vm_compute. reflexivity. Qed.

(** The label of a downloading event, its fields stripped of colour
    codes. *)
Example progress_hook_downloading :
  progress_hook
    (<[lit "_percent_str" := PyStr ([ESC] ++ lit "[0;94m 45.0%" ++ [ESC] ++ lit "[0m")]>
       (downloading_event "" "1.2MiB/s" "00:10"))
    {| step := 1; total_steps := 2 |}
  = Ok ([StatusUpdate (lit "Step 1/2: Downloading...  45.0% (1.2MiB/s - ETA: 00:10)") None None],
        {| step := 1; total_steps := 2 |}).
Proof. vm_compute. reflexivity. Qed.

(** An event without a status makes the hook raise [KeyError]. *)
Example progress_hook_no_status :
  progress_hook ∅ {| step := 1; total_steps := 1 |} = Raise (Exn KeyError (lit "'status'")).
Proof. vm_compute. reflexivity. Qed.

(** A [bool] height is an [int] instance: it is accepted and labelled by
    its name. *)
Example extract_available_qualities_bool_height :
  extract_available_qualities
    {[ lit "formats" := PyList [PyDict (format_entry "avc1" "mp4" (PyBool true));
                                PyDict (format_entry "avc1" "mp4" (PyInt 360))] ]}
  = Ok [lit "360p"; lit "Truep"].
Proof. vm_compute. reflexivity. Qed.

(** A [formats] value that is not a sequence of dicts makes the function
    raise. *)
Example extract_available_qualities_ill_formed :
  extract_available_qualities {[ lit "formats" := PyNone ]}
    = Raise (Exn TypeError (lit "'NoneType' object is not iterable")) ∧
  extract_available_qualities {[ lit "formats" := PyList [PyStr (lit "mp4")] ]}
    = Raise (Exn AttributeError (lit "'str' object has no attribute 'get'")).
Proof. split; vm_compute; reflexivity. Qed.

(** A result whose list of requested downloads is empty: line 100 raises
    [IndexError], which the handler of line 120 reports. *)
Example handle_download_empty_downloads :
  handle_download (lit "/tmp/tmpk3") example_join (example_exists []) example_basename
    example_read
    (example_ydl [] (Ok (PyDict {[ lit "requested_downloads" := PyList [] ]})))
    (lit "https://youtu.be/v") (lit "A video") (lit "mp3") (lit "128")
  = call_prefix (download_plan (lit "mp3") (lit "128"))
      (ydl_opts (lit "/tmp/tmpk3") example_join (lit "A video") (lit "mp3") (lit "128"))
      (lit "https://youtu.be/v")
    ++ [StError (lit "An unexpected error occurred: list index out of range");
        SessionDelStatusBox].
Proof. vm_compute. reflexivity. Qed.

(** A successful run in mp4 mode: two downloads, then the file is
    offered. *)
Example handle_download_success :
  handle_download (lit "/tmp/tmpk3") example_join (example_exists [lit "/tmp/tmpk3/A video.mp4"])
    example_basename example_read
    (example_ydl [finished_event; finished_event]
       (Ok (info_with_filepath "/tmp/tmpk3/A video.mp4")))
    (lit "https://youtu.be/v") (lit "A video") (lit "mp4") (lit "720p")
  = call_prefix (download_plan (lit "mp4") (lit "720p"))
      (ydl_opts (lit "/tmp/tmpk3") example_join (lit "A video") (lit "mp4") (lit "720p"))
      (lit "https://youtu.be/v")
    ++ [StatusUpdate (lit "Step 1/2: Download finished. Starting conversion...") None None;
        StatusUpdate (lit "Step 2/2: Download finished. Starting conversion...") None None;
        StWrite ([9989%N] ++ lit " File saved as: A video.mp4");
        StatusUpdate (lit "Download complete!") (Some (lit "complete")) (Some false);
        StDownloadButton ([128229%N] ++ lit " Download A video.mp4") []
          (lit "A video.mp4") (lit "video/mp4") true;
        SessionDelStatusBox].
Proof. vm_compute. reflexivity. Qed.

(** * Further properties *)

(** ** The sanitizers *)

Lemma replace_forbidden_id c : c ∉ forbidden_chars → replace_forbidden c = c.
Proof. intros Hc. unfold replace_forbidden. by rewrite bool_decide_eq_false_2. Qed.

Lemma replace_forbidden_fixed c : replace_forbidden c = c → c ∉ forbidden_chars.
Proof. intros <-. apply replace_forbidden_clean. Qed.

Lemma sanitize_filename_app a b :
  sanitize_filename (a ++ b) = sanitize_filename a ++ sanitize_filename b.
Proof. rewrite !sanitize_filename_map. apply fmap_app. Qed.

(** X1. Sanitizing a file name twice gives the same as sanitizing it
    once. *)
Theorem sanitize_filename_idempotent (filename : str) :
  sanitize_filename (sanitize_filename filename) = sanitize_filename filename.
Proof.
  rewrite !sanitize_filename_map, <- list_fmap_compose.
  apply list_fmap_ext. intros _ c _. simpl.
  apply replace_forbidden_id, replace_forbidden_clean.
Qed.

(** X2. A file name is returned unchanged exactly when it holds none of
    the nine characters. *)
Theorem sanitize_filename_fixed_iff (filename : str) :
  sanitize_filename filename = filename ↔ Forall (λ c, c ∉ forbidden_chars) filename.
Proof.
  rewrite sanitize_filename_map. split.
  - intros Heq. rewrite <- Heq. apply Forall_fmap, Forall_forall.
    intros c _. apply replace_forbidden_clean.
  - intros Hall. induction Hall as [|c l Hc _ IH]; [reflexivity|].
    rewrite fmap_cons, IH. by rewrite replace_forbidden_id.
Qed.

(** X3. The output template handed to the library is the temporary
    directory joined with one name: the sanitized title followed by the
    extension placeholder.  That name holds none of the nine characters,
    so no title can add a path separator to it. *)
Theorem output_template_has_no_separator
  (temp_dir : str) (os_path_join : str → str → str) (title format_type quality_setting : str) :
  ∃ name,
    outtmpl (ydl_opts temp_dir os_path_join title format_type quality_setting)
      = os_path_join temp_dir name ∧
    name = sanitize_filename title ++ lit ".%(ext)s" ∧
    Forall (λ c, c ∉ forbidden_chars) name ∧
    (ch "/" ∉ name) ∧ (ch "\" ∉ name).
Proof.
  exists (sanitize_filename title ++ lit ".%(ext)s").
  assert (Forall (λ c, c ∉ forbidden_chars) (sanitize_filename title ++ lit ".%(ext)s")) as Hall.
  { apply Forall_app. split.
    - rewrite sanitize_filename_map. apply Forall_fmap, Forall_forall.
      intros c _. apply replace_forbidden_clean.
    - apply (bool_decide_unpack _). vm_compute. exact I. }
  split; [reflexivity|]. split; [reflexivity|]. split; [exact Hall|].
  rewrite Forall_forall in Hall. split; intros Hin; apply (Hall _ Hin).
  - apply (bool_decide_unpack _). vm_compute. exact I.
  - apply (bool_decide_unpack _). vm_compute. exact I.
Qed.

Lemma match_at_not_escape c s : c ≠ ESC → match_at ansi_escape (c :: s) = None.
Proof.
  intros Hc. rewrite match_at_ansi_escape. destruct s as [|d u]; [reflexivity|].
  apply N.eqb_neq in Hc. change 27%N with ESC. by rewrite Hc.
Qed.

Lemma sanitize_for_display_keep t s :
  ESC ∉ t →
  sanitize_for_display (PyStr (t ++ s)) = t ++ sanitize_for_display (PyStr s).
Proof.
  induction t as [|c t IH]; intros Ht; [reflexivity|].
  apply not_elem_of_cons in Ht as [Hc Ht].
  cbn [sanitize_for_display app]. rewrite re_sub_no_match.
  - f_equal. by apply IH.
  - apply match_at_not_escape. congruence.
Qed.

Lemma stripped_sublist s out : stripped s out → out `sublist_of` s.
Proof.
  induction 1 as [|e s out _ _ IH|c s out _ _ IH].
  - constructor.
  - by apply sublist_inserts_l.
  - by constructor.
Qed.

(** X4. The displayed text is the input with characters left out: it
    keeps the order of the characters it keeps and is never longer than
    the input. *)
Theorem sanitize_for_display_sublist (s : str) :
  sanitize_for_display (PyStr s) `sublist_of` s ∧
  (length (sanitize_for_display (PyStr s)) ≤ length s)%nat.
Proof.
  pose proof (stripped_sublist _ _ (sanitize_for_display_stripped s)) as H.
  split; [exact H|]. by apply sublist_length.
Qed.

Lemma sanitize_for_display_between (e1 t e2 : str) :
  escape_seq e1 → escape_seq e2 → ESC ∉ t →
  sanitize_for_display (PyStr (e1 ++ t ++ e2)) = t.
Proof.
  intros H1 H2 Ht.
  rewrite sanitize_for_display_skip by done.
  rewrite sanitize_for_display_keep by done.
  rewrite <- (app_nil_r e2), sanitize_for_display_skip by done.
  apply app_nil_r.
Qed.

(** X5. A text without the escape character that is wrapped in two
    escape sequences, as a coloured field of the library is, comes out
    as the bare text. *)
Theorem sanitize_for_display_wrapped (e1 t e2 : str) :
  escape_seq e1 → escape_seq e2 → ESC ∉ t →
  sanitize_for_display (PyStr (e1 ++ t ++ e2)) = t.
Proof. apply sanitize_for_display_between. Qed.

Lemma sanitize_for_display_wrapped_witness :
  escape_seq ([ESC] ++ lit "[0;94m") ∧ escape_seq ([ESC] ++ lit "[0m") ∧
  (ESC ∉ lit " 45.0%") ∧
  sanitize_for_display (PyStr (([ESC] ++ lit "[0;94m") ++ lit " 45.0%" ++ [ESC] ++ lit "[0m"))
    = lit " 45.0%".
Proof.
  assert (escape_seq ([ESC] ++ lit "[0;94m")) as H1.
  { apply (escape_csi (lit "0;94") [] (ch "m")).
    - apply Forall_forall. intros c Hc. unfold is_parameter.
      vm_compute in Hc.
      repeat (apply elem_of_cons in Hc as [->|Hc]; [lia|]). by apply elem_of_nil in Hc.
    - constructor.
    - unfold is_final. vm_compute. split; discriminate. }
  assert (escape_seq ([ESC] ++ lit "[0m")) as H2.
  { apply (escape_csi (lit "0") [] (ch "m")).
    - apply Forall_forall. intros c Hc. unfold is_parameter.
      vm_compute in Hc.
      repeat (apply elem_of_cons in Hc as [->|Hc]; [lia|]). by apply elem_of_nil in Hc.
    - constructor.
    - unfold is_final. vm_compute. split; discriminate. }
  assert (ESC ∉ lit " 45.0%") as Ht.
  { apply (bool_decide_unpack _). vm_compute. exact I. }
  split; [exact H1|]. split; [exact H2|]. split; [exact Ht|].
  exact (sanitize_for_display_wrapped _ _ _ H1 H2 Ht).
Defined.

(** ** The quality extractor *)

Lemma above_sorted_unique (l1 l2 : list int_instance) :
  StronglySorted above l1 → StronglySorted above l2 →
  (∀ i, i ∈ l1 ↔ i ∈ l2) → l1 = l2.
Proof.
  intros H1. revert l2. induction H1 as [|a l1 Hl1 IH Ha]; intros l2 H2 Hmem.
  - destruct l2 as [|b l2]; [reflexivity|].
    assert (b ∈ []) as Hb by (apply Hmem; left). by apply elem_of_nil in Hb.
  - destruct H2 as [|b l2 Hl2 Hb].
    { assert (a ∈ []) as Ha' by (apply Hmem; left). by apply elem_of_nil in Ha'. }
    rewrite Forall_forall in Ha, Hb. unfold above in Ha, Hb.
    assert (a = b) as ->.
    { assert (a ∈ b :: l2) as Hab by (apply Hmem; left).
      assert (b ∈ a :: l1) as Hba by (apply Hmem; left).
      apply elem_of_cons in Hab as [?|Hab]; [done|].
      apply elem_of_cons in Hba as [?|Hba]; [done|].
      specialize (Ha _ Hba). specialize (Hb _ Hab). lia. }
    f_equal. apply IH; [exact Hl2|]. intros i. split; intros Hi.
    + assert (i ∈ b :: l2) as Hi' by (apply Hmem; by right).
      apply elem_of_cons in Hi' as [->|Hi']; [|exact Hi'].
      specialize (Ha _ Hi). lia.
    + assert (i ∈ b :: l1) as Hi' by (apply Hmem; by right).
      apply elem_of_cons in Hi' as [->|Hi']; [|exact Hi'].
      specialize (Hb _ Hi). lia.
Qed.

Lemma plain_entry_height f i :
  plain_height f → entry_height f = Some i → i = AnInt (int_value i).
Proof.
  unfold plain_height, entry_height. intros Hp.
  destruct (f !! lit "height") as [[]|] eqn:Hh; simpl; try discriminate.
  - by destruct (Hp b).
  - by intros [= <-].
Qed.

(** X6. The result depends only on which format entries there are, not
    on their order or on repetitions: two metadata dictionaries with the
    same entries, heights being plain integers, give the same list. *)
Theorem extract_available_qualities_same_entries (info_dict info_dict' : pydict)
  (fs fs' : list pydict) :
  has_formats info_dict fs → has_formats info_dict' fs' →
  Forall plain_height fs → (∀ f, f ∈ fs ↔ f ∈ fs') →
  extract_available_qualities info_dict = extract_available_qualities info_dict'.
Proof.
  intros Hfs Hfs' Hplain Hsame.
  assert (Forall plain_height fs') as Hplain'.
  { rewrite Forall_forall in Hplain. apply Forall_forall. intros f Hf.
    by apply Hplain, Hsame. }
  rewrite Forall_forall in Hplain, Hplain'.
  destruct (accepted_Exists_or_none fs) as [Hex|Hnone].
  - assert (Exists accepted fs') as Hex'.
    { apply Exists_exists in Hex as (f & Hf & Hacc). apply Exists_exists.
      exists f. split; [by apply Hsame|done]. }
    destruct (extract_available_qualities_heights _ _ Hfs Hex)
      as (hs & -> & Hs & Hin & Hall).
    destruct (extract_available_qualities_heights _ _ Hfs' Hex')
      as (hs' & -> & Hs' & Hin' & Hall').
    f_equal. apply above_sorted_unique; [done|done|].
    intros i. split; intros Hi.
    + destruct (Hin i Hi) as (f & Hf & Hacc & Hh).
      apply Hsame in Hf as Hf'.
      pose proof (Hall' f i Hf' Hacc Hh) as Hv.
      apply list_elem_of_fmap in Hv as (j & Hij & Hj).
      destruct (Hin' j Hj) as (g & Hg & _ & Hhg).
      rewrite (plain_entry_height f i), Hij, <- (plain_entry_height g j); auto.
    + destruct (Hin' i Hi) as (f & Hf & Hacc & Hh).
      apply Hsame in Hf as Hf'.
      pose proof (Hall f i Hf' Hacc Hh) as Hv.
      apply list_elem_of_fmap in Hv as (j & Hij & Hj).
      destruct (Hin j Hj) as (g & Hg & _ & Hhg).
      rewrite (plain_entry_height f i), Hij, <- (plain_entry_height g j); auto.
  - assert (Forall (λ f, ¬ accepted f) fs') as Hnone'.
    { rewrite Forall_forall in Hnone. apply Forall_forall. intros f Hf.
      by apply Hnone, Hsame. }
    by rewrite (extract_available_qualities_fallback _ _ Hfs Hnone),
               (extract_available_qualities_fallback _ _ Hfs' Hnone').
Qed.

Lemma plain_format_entry vcodec ext (z : Z) : plain_height (format_entry vcodec ext (PyInt z)).
Proof.
  intros b. unfold format_entry.
  rewrite !lookup_insert_ne by (intros H; vm_compute in H; discriminate).
  by rewrite lookup_singleton_eq.
Qed.

Lemma extract_available_qualities_same_entries_witness :
  has_formats {[ lit "formats" := PyList (PyDict <$> two_formats) ]} two_formats ∧
  has_formats {[ lit "formats" := PyList (PyDict <$> two_formats_shuffled) ]}
    two_formats_shuffled ∧
  Forall plain_height two_formats ∧
  (∀ f, f ∈ two_formats ↔ f ∈ two_formats_shuffled) ∧
  extract_available_qualities {[ lit "formats" := PyList (PyDict <$> two_formats) ]} =
  extract_available_qualities {[ lit "formats" := PyList (PyDict <$> two_formats_shuffled) ]}.
Proof.
  assert (has_formats {[ lit "formats" := PyList (PyDict <$> two_formats) ]} two_formats)
    as H1 by (right; apply lookup_singleton_eq).
  assert (has_formats {[ lit "formats" := PyList (PyDict <$> two_formats_shuffled) ]}
            two_formats_shuffled) as H2 by (right; apply lookup_singleton_eq).
  assert (Forall plain_height two_formats) as H3.
  { repeat constructor; apply plain_format_entry. }
  assert (∀ f, f ∈ two_formats ↔ f ∈ two_formats_shuffled) as H4.
  { intros f. unfold two_formats, two_formats_shuffled.
    rewrite !elem_of_cons, !elem_of_nil. tauto. }
  split; [exact H1|]. split; [exact H2|]. split; [exact H3|]. split; [exact H4|].
  exact (extract_available_qualities_same_entries _ _ _ _ H1 H2 H3 H4).
Defined.

Lemma lit_inj s1 s2 : lit s1 = lit s2 → s1 = s2.
Proof.
  unfold lit. intros H.
  rewrite <- (string_of_list_ascii_of_string s1), <- (string_of_list_ascii_of_string s2).
  f_equal. revert H.
  generalize (list_ascii_of_string s1) (list_ascii_of_string s2).
  induction l as [|a l IH]; intros [|b l']; simpl; try discriminate; [done|].
  intros [= Hab Hl]. f_equal; [|by apply IH].
  by rewrite <- (ascii_N_embedding a), <- (ascii_N_embedding b), Hab.
Qed.

Lemma quality_label_int_inj z1 z2 :
  quality_label (AnInt z1) = quality_label (AnInt z2) → z1 = z2.
Proof.
  unfold quality_label, format_int_instance, str_of_int.
  intros H. apply app_inv_tail, lit_inj in H. by apply (inj pretty) in H.
Qed.

Lemma above_sorted_NoDup l : StronglySorted above l → NoDup l.
Proof.
  induction 1 as [|a l _ IH Ha]; constructor; [|exact IH].
  intros Hin. rewrite Forall_forall in Ha. specialize (Ha a Hin).
  unfold above in Ha. lia.
Qed.

(** X7. With heights that are plain integers the labels offered are
    pairwise different. *)
Theorem extract_available_qualities_distinct (info_dict : pydict) (fs : list pydict)
  (qualities : list str) :
  has_formats info_dict fs → Forall plain_height fs →
  extract_available_qualities info_dict = Ok qualities →
  NoDup qualities.
Proof.
  intros Hfs Hplain Hres. rewrite Forall_forall in Hplain.
  destruct (accepted_Exists_or_none fs) as [Hex|Hnone].
  - destruct (extract_available_qualities_sorted _ _ _ Hfs Hex Hres) as (hs & -> & Hs & Hin & _).
    apply NoDup_fmap_2_strong; [|by apply above_sorted_NoDup].
    intros i j Hi Hj Hij.
    destruct (Hin i Hi) as (f & Hf & _ & Hh). destruct (Hin j Hj) as (g & Hg & _ & Hhg).
    rewrite (plain_entry_height f i), (plain_entry_height g j) in Hij |- *; auto.
    f_equal. by apply quality_label_int_inj.
  - rewrite (extract_available_qualities_fallback _ _ Hfs Hnone) in Hres.
    injection Hres as <-. apply (bool_decide_unpack _). vm_compute. exact I.
Qed.

Lemma extract_available_qualities_distinct_witness :
  has_formats {[ lit "formats" := PyList (PyDict <$> two_formats_shuffled) ]}
    two_formats_shuffled ∧
  Forall plain_height two_formats_shuffled ∧
  extract_available_qualities {[ lit "formats" := PyList (PyDict <$> two_formats_shuffled) ]}
    = Ok [lit "1080p"; lit "720p"] ∧
  NoDup [lit "1080p"; lit "720p"].
Proof.
  assert (has_formats {[ lit "formats" := PyList (PyDict <$> two_formats_shuffled) ]}
            two_formats_shuffled) as H1 by (right; apply lookup_singleton_eq).
  assert (Forall plain_height two_formats_shuffled) as H2.
  { repeat constructor; apply plain_format_entry. }
  assert (extract_available_qualities
            {[ lit "formats" := PyList (PyDict <$> two_formats_shuffled) ]}
          = Ok [lit "1080p"; lit "720p"]) as H3 by (vm_compute; reflexivity).
  split; [exact H1|]. split; [exact H2|]. split; [exact H3|].
  exact (extract_available_qualities_distinct _ _ _ H1 H2 H3).
Defined.

(** X8. Whatever label of the offered list is chosen, the mp4 format
    string limits the height to the height of an accepted entry of the
    metadata, or to 720 or 360 when the fallback list was offered. *)
Theorem offered_quality_format_string (info_dict : pydict) (fs : list pydict)
  (qualities : list str) (quality_setting : str) :
  has_formats info_dict fs →
  extract_available_qualities info_dict = Ok qualities →
  quality_setting ∈ qualities →
  (∃ f i, f ∈ fs ∧ accepted f ∧ entry_height f = Some i ∧
     quality_setting = format_int_instance i ++ lit "p" ∧
     plan_format (download_plan (lit "mp4") quality_setting)
       = mp4_format_string (format_int_instance i)) ∨
  (Forall (λ f, ¬ accepted f) fs ∧
   ((quality_setting = lit "720p" ∧
     plan_format (download_plan (lit "mp4") quality_setting) = mp4_format_string (lit "720")) ∨
    (quality_setting = lit "360p" ∧
     plan_format (download_plan (lit "mp4") quality_setting) = mp4_format_string (lit "360")))).
Proof.
  intros Hfs Hres Hq.
  destruct (accepted_Exists_or_none fs) as [Hex|Hnone].
  - left.
    destruct (extract_available_qualities_sorted _ _ _ Hfs Hex Hres) as (hs & -> & _ & Hin & _).
    apply list_elem_of_fmap in Hq as (i & -> & Hi).
    destruct (Hin i Hi) as (f & Hf & Hacc & Hh).
    exists f, i. repeat (split; [done|]).
    rewrite download_plan_mp4. cbn [plan_format]. f_equal.
    apply (slice_to_last_snoc _ (ch "p")).
  - right. split; [exact Hnone|].
    rewrite (extract_available_qualities_fallback _ _ Hfs Hnone) in Hres.
    injection Hres as <-.
    apply elem_of_cons in Hq as [->|Hq]; [left; split; [reflexivity|]|].
    { rewrite download_plan_mp4. reflexivity. }
    apply list_elem_of_singleton in Hq as ->. right. split; [reflexivity|].
    rewrite download_plan_mp4. reflexivity.
Qed.

Lemma offered_quality_format_string_witness :
  has_formats example_metadata example_formats ∧
  extract_available_qualities example_metadata = Ok [lit "1080p"; lit "720p"; lit "480p"] ∧
  lit "720p" ∈ [lit "1080p"; lit "720p"; lit "480p"] ∧
  ((∃ f i, f ∈ example_formats ∧ accepted f ∧ entry_height f = Some i ∧
      lit "720p" = format_int_instance i ++ lit "p" ∧
      plan_format (download_plan (lit "mp4") (lit "720p"))
        = mp4_format_string (format_int_instance i)) ∨
   (Forall (λ f, ¬ accepted f) example_formats ∧
    ((lit "720p" = lit "720p" ∧
      plan_format (download_plan (lit "mp4") (lit "720p")) = mp4_format_string (lit "720")) ∨
     (lit "720p" = lit "360p" ∧
      plan_format (download_plan (lit "mp4") (lit "720p")) = mp4_format_string (lit "360"))))).
Proof.
  assert (has_formats example_metadata example_formats) as H1.
  { right. vm_compute. reflexivity. }
  assert (extract_available_qualities example_metadata
          = Ok [lit "1080p"; lit "720p"; lit "480p"]) as H2 by (vm_compute; reflexivity).
  assert (lit "720p" ∈ [lit "1080p"; lit "720p"; lit "480p"]) as H3.
  { right. left. }
  split; [exact H1|]. split; [exact H2|]. split; [exact H3|].
  exact (offered_quality_format_string _ _ _ _ H1 H2 H3).
Defined.

Lemma is_dict_fmap (l : list pyval) : Forall is_dict l → ∃ ds, l = PyDict <$> ds.
Proof.
  induction 1 as [|v l [d ->] _ [ds ->]]; [by exists []|]. by exists (d :: ds).
Qed.

Lemma collect_quality_not_dict q v :
  ¬ is_dict v → collect_quality q v = Raise (no_attribute v "get").
Proof.
  intros Hv. unfold collect_quality, accepts, py_get.
  destruct v; try reflexivity. destruct Hv. by eexists.
Qed.

(** X9. The extraction fails as a whole on ill-formed metadata: it
    returns when every item of the formats list is a dictionary and the
    accepted heights have at most 4300 decimal digits each; with every
    item a dictionary and an accepted height of more digits it raises
    [ValueError]; at the first item that is not a dictionary it raises
    [AttributeError], whatever the entries around it; and on a formats
    value that is [None] or a number it raises [TypeError]. *)
Theorem extract_available_qualities_errors :
  (∀ (info_dict : pydict) l, info_dict !! lit "formats" = Some (PyList l) →
     Forall is_dict l →
     (∀ d i, PyDict d ∈ l → accepted d → entry_height d = Some i → within_str_limit i) →
     ∃ qualities, extract_available_qualities info_dict = Ok qualities) ∧
  (∀ (info_dict : pydict) l d i, info_dict !! lit "formats" = Some (PyList l) →
     Forall is_dict l →
     PyDict d ∈ l → accepted d → entry_height d = Some i → ¬ within_str_limit i →
     extract_available_qualities info_dict = Raise int_str_error) ∧
  (∀ (info_dict : pydict) ds v rest,
     info_dict !! lit "formats" = Some (PyList ((PyDict <$> ds) ++ v :: rest)) →
     ¬ is_dict v →
     extract_available_qualities info_dict = Raise (no_attribute v "get")) ∧
  (∀ (info_dict : pydict) v, info_dict !! lit "formats" = Some v →
     v = PyNone ∨ (∃ b, v = PyBool b) ∨ (∃ z, v = PyInt z) ∨ (∃ x, v = PyFloat x) →
     extract_available_qualities info_dict
       = Raise (Exn TypeError (quoted (type_name v) ++ lit " object is not iterable"))).
Proof.
  split; [|split; [|split]].
  - intros info_dict l Hl Hall Hlimit. destruct (is_dict_fmap l Hall) as (ds & ->).
    apply (extract_available_qualities_returns info_dict ds); [by right|].
    apply Forall_forall. intros d Hd i Hacc Hi.
    apply (Hlimit d i); [by apply list_elem_of_fmap_2|done|done].
  - intros info_dict l d i Hl Hall Hd Hacc Hi Hbeyond.
    destruct (is_dict_fmap l Hall) as (ds & ->).
    apply (extract_available_qualities_beyond info_dict ds d i); [by right| |done|done|done].
    apply list_elem_of_fmap in Hd as (d' & [= ->] & Hd'). exact Hd'.
  - intros info_dict ds v rest Hl Hv. unfold extract_available_qualities.
    rewrite Hl. cbn [default from_option id py_iter mbind result_bind].
    rewrite for_each_app. destruct (for_each_collect ds ∅) as (q & -> & _).
    cbn [mbind result_bind for_each]. by rewrite collect_quality_not_dict.
  - intros info_dict v Hv Hcases. unfold extract_available_qualities. rewrite Hv.
    destruct Hcases as [->|[[b ->]|[[z ->]|[x ->]]]]; reflexivity.
Qed.

Lemma extract_available_qualities_errors_witness :
  (∃ qualities,
     extract_available_qualities {[ lit "formats" := PyList (PyDict <$> two_formats) ]}
       = Ok qualities) ∧
  extract_available_qualities oversized_metadata = Raise int_str_error ∧
  extract_available_qualities
    {[ lit "formats" := PyList ((PyDict <$> two_formats) ++ PyStr (lit "hls") ::
                                 [PyDict (format_entry "avc1" "mp4" (PyInt 360))]) ]}
    = Raise (no_attribute (PyStr (lit "hls")) "get") ∧
  extract_available_qualities {[ lit "formats" := PyNone ]}
    = Raise (Exn TypeError (lit "'NoneType' object is not iterable")).
Proof.
  destruct extract_available_qualities_errors as (Hok & Hvalue & Hattr & Htype).
  split; [|split; [|split]].
  - apply (Hok _ (PyDict <$> two_formats)); [apply lookup_singleton_eq| |].
    + repeat constructor; by eexists.
    + intros d i Hd _ Hi. apply within_str_limit_small.
      apply list_elem_of_fmap in Hd as (d' & [= ->] & Hd').
      unfold two_formats in Hd'.
      repeat (apply elem_of_cons in Hd' as [->|Hd'];
              [vm_compute in Hi; injection Hi as <-; vm_compute; reflexivity|]).
      by apply elem_of_nil in Hd'.
  - apply (Hvalue _ (PyDict <$> oversized_formats)
             (format_entry "avc1" "mp4" (PyInt (10 ^ 4300))) (AnInt (10 ^ 4300))).
    + apply lookup_singleton_eq.
    + apply Forall_cons_2; [by eexists|constructor].
    + left.
    + apply oversized_entry_accepted.
    + apply oversized_entry_accepted.
    + exact oversized_height_beyond.
  - apply (Hattr _ two_formats (PyStr (lit "hls"))
             [PyDict (format_entry "avc1" "mp4" (PyInt 360))]); [apply lookup_singleton_eq|].
    intros [d Hd]. discriminate.
  - apply (Htype _ PyNone); [apply lookup_singleton_eq|]. by left.
Defined.

(** ** The progress tracker *)

(** X10. The hook raises [KeyError] exactly when the event has no
    status; an event whose status is neither downloading nor finished is
    ignored: nothing is published and the state is unchanged. *)
Theorem progress_hook_outcome (d : pydict) (progress_state : ProgressState) :
  (d !! lit "status" = None ∧
   progress_hook d progress_state = Raise (Exn KeyError (lit "'status'"))) ∨
  (∃ status updates progress_state',
     d !! lit "status" = Some status ∧
     progress_hook d progress_state = Ok (updates, progress_state') ∧
     (length updates ≤ 1)%nat ∧
     (status ≠ PyStr (lit "downloading") → status ≠ PyStr (lit "finished") →
      updates = [] ∧ progress_state' = progress_state)).
Proof.
  unfold progress_hook, dict_item.
  destruct (d !! lit "status") as [v|]; [right|left; split; reflexivity].
  cbn [mbind result_bind].
  pose proof (eq_str_true v (lit "downloading")) as Hdl.
  pose proof (eq_str_true v (lit "finished")) as Hfin.
  destruct (eq_str v (lit "downloading")).
  - eexists v, _, _. split; [reflexivity|]. split; [reflexivity|].
    split; [simpl; lia|]. intros Hv. destruct Hv. by apply Hdl.
  - destruct (eq_str v (lit "finished")).
    + eexists v, _, _. split; [reflexivity|]. split; [reflexivity|].
      split; [simpl; lia|]. intros _ Hv. destruct Hv. by apply Hfin.
    + eexists v, _, _. split; [reflexivity|]. split; [reflexivity|].
      split; [simpl; lia|]. done.
Qed.

Lemma sanitize_for_display_plain t : ESC ∉ t → sanitize_for_display (PyStr t) = t.
Proof. intros Ht. by apply escape_free_unchanged, no_escape_char_free. Qed.

(** X11. Colour codes around a field of a downloading event do not
    change what the hook does: with the percentage, speed or ETA field
    wrapped in two escape sequences the hook returns what it returns for
    the bare field. *)
Theorem progress_hook_colour_blind (d : pydict) (progress_state : ProgressState)
  (key e1 t e2 : str) :
  key = lit "_percent_str" ∨ key = lit "_speed_str" ∨ key = lit "_eta_str" →
  escape_seq e1 → escape_seq e2 → ESC ∉ t →
  progress_hook (<[key := PyStr (e1 ++ t ++ e2)]> d) progress_state =
  progress_hook (<[key := PyStr t]> d) progress_state.
Proof.
  intros Hkey H1 H2 Ht.
  pose proof (sanitize_for_display_between e1 t e2 H1 H2 Ht) as Hw.
  pose proof (sanitize_for_display_plain t Ht) as Hp.
  unfold progress_hook, dict_item.
  assert (key ≠ lit "status") as Hst.
  { destruct Hkey as [->|[->| ->]]; intros H; vm_compute in H; discriminate. }
  rewrite !(lookup_insert_ne _ key (lit "status")) by done.
  destruct (d !! lit "status") as [v|]; [|reflexivity].
  cbn [mbind result_bind].
  destruct (eq_str v (lit "downloading")); [|reflexivity].
  destruct Hkey as [->|[->| ->]].
  - rewrite !lookup_insert_eq.
    rewrite !(lookup_insert_ne _ (lit "_percent_str") (lit "_speed_str"))
      by (intros H; vm_compute in H; discriminate).
    rewrite !(lookup_insert_ne _ (lit "_percent_str") (lit "_eta_str"))
      by (intros H; vm_compute in H; discriminate).
    cbn [default from_option id]. by rewrite Hw, Hp.
  - rewrite !lookup_insert_eq.
    rewrite !(lookup_insert_ne _ (lit "_speed_str") (lit "_percent_str"))
      by (intros H; vm_compute in H; discriminate).
    rewrite !(lookup_insert_ne _ (lit "_speed_str") (lit "_eta_str"))
      by (intros H; vm_compute in H; discriminate).
    cbn [default from_option id]. by rewrite Hw, Hp.
  - rewrite !lookup_insert_eq.
    rewrite !(lookup_insert_ne _ (lit "_eta_str") (lit "_percent_str"))
      by (intros H; vm_compute in H; discriminate).
    rewrite !(lookup_insert_ne _ (lit "_eta_str") (lit "_speed_str"))
      by (intros H; vm_compute in H; discriminate).
    cbn [default from_option id]. by rewrite Hw, Hp.
Qed.

Lemma sgr_is_escape_seq (ps : str) :
  Forall is_parameter ps → escape_seq ([ESC] ++ lit "[" ++ ps ++ lit "m").
Proof.
  intros Hps. apply (escape_csi ps [] (ch "m")); [exact Hps|constructor|].
  unfold is_final. vm_compute. split; discriminate.
Qed.

Lemma progress_hook_colour_blind_witness :
  (lit "_percent_str" = lit "_percent_str" ∨ lit "_percent_str" = lit "_speed_str" ∨
   lit "_percent_str" = lit "_eta_str") ∧
  escape_seq ([ESC] ++ lit "[" ++ lit "0;94" ++ lit "m") ∧
  escape_seq ([ESC] ++ lit "[" ++ lit "0" ++ lit "m") ∧
  (ESC ∉ lit " 45.0%") ∧
  progress_hook
    (<[lit "_percent_str" :=
         PyStr (([ESC] ++ lit "[" ++ lit "0;94" ++ lit "m") ++ lit " 45.0%"
                  ++ [ESC] ++ lit "[" ++ lit "0" ++ lit "m")]>
       (downloading_event "" "1.2MiB/s" "00:10"))
    {| step := 1; total_steps := 2 |} =
  progress_hook
    (<[lit "_percent_str" := PyStr (lit " 45.0%")]> (downloading_event "" "1.2MiB/s" "00:10"))
    {| step := 1; total_steps := 2 |}.
Proof.
  assert (∀ ps : str, bool_decide (Forall (λ c, 48 ≤ c ≤ 63)%N ps) = true →
                      Forall is_parameter ps) as Hpar.
  { intros ps H. by apply bool_decide_eq_true in H. }
  assert (escape_seq ([ESC] ++ lit "[" ++ lit "0;94" ++ lit "m")) as H1.
  { apply sgr_is_escape_seq, Hpar. vm_compute. reflexivity. }
  assert (escape_seq ([ESC] ++ lit "[" ++ lit "0" ++ lit "m")) as H2.
  { apply sgr_is_escape_seq, Hpar. vm_compute. reflexivity. }
  assert (ESC ∉ lit " 45.0%") as Ht.
  { apply (bool_decide_unpack _). vm_compute. exact I. }
  split; [by left|]. split; [exact H1|]. split; [exact H2|]. split; [exact Ht|].
  exact (progress_hook_colour_blind _ _ _ _ _ _ (or_introl eq_refl) H1 H2 Ht).
Defined.

(** ** The download orchestrator *)

Section HandleDownloadRuns.

Variable temp_dir : str.
Variable os_path_join : str → str → str.
Variable os_path_exists : pyval → result bool.
Variable os_path_basename : pyval → result str.
Variable read_bytes : pyval → result (list N).
Variable ydl_extract_info : YdlOptions → str → list pydict * result pyval.

Variables url title format_type quality_setting : str.

Let p := download_plan format_type quality_setting.
Let opts := ydl_opts temp_dir os_path_join title format_type quality_setting.
Let hooks := run_hooks (ydl_extract_info opts url).1 (plan_progress p).
Let trace :=
  handle_download temp_dir os_path_join os_path_exists os_path_basename read_bytes
    ydl_extract_info url title format_type quality_setting.

Lemma file_missing_found actual_filepath :
  truthy actual_filepath = true → os_path_exists actual_filepath = Ok true →
  file_missing os_path_exists actual_filepath = Ok false.
Proof. unfold file_missing. by intros -> ->. Qed.

Lemma hooks_return :
  Forall has_status (ydl_extract_info opts url).1 → ∃ progress_state, hooks.2 = Ok progress_state.
Proof.
  intros Hst. destruct (run_hooks_steps _ (plan_progress p) Hst) as (ps & Hrun & _).
  by exists ps.
Qed.

Ltac run_download :=
  unfold trace, handle_download, try_finally, try_except; cbn [emit fst snd];
  unfold download_body, extract_info; fold p opts; io_simpl; fold hooks; io_simpl;
  unfold call_prefix; rewrite <- ?app_assoc; reflexivity.

(** X12. A run whose file is found and read: after the updates of the
    hooks the file name is written, the status is set to complete and the
    download button offers the bytes read, under the base name of the
    resolved path, as audio/mpeg in mp3 mode and video/mp4 otherwise;
    then the status box is removed from the session. *)
Theorem handle_download_success_trace info_dict actual_filepath name file_bytes :
  Forall has_status (ydl_extract_info opts url).1 →
  (ydl_extract_info opts url).2 = Ok info_dict →
  resolve_filepath info_dict = Ok actual_filepath →
  truthy actual_filepath = true →
  os_path_exists actual_filepath = Ok true →
  os_path_basename actual_filepath = Ok name →
  read_bytes actual_filepath = Ok file_bytes →
  trace = call_prefix p opts url ++ hooks.1 ++
    [ StWrite ([9989%N] ++ lit " File saved as: " ++ name);
      StatusUpdate (lit "Download complete!") (Some (lit "complete")) (Some false);
      StDownloadButton ([128229%N] ++ lit " Download " ++ name) file_bytes name
        (if bool_decide (format_type = lit "mp3") then lit "audio/mpeg" else lit "video/mp4")
        true;
      SessionDelStatusBox ].
Proof.
  intros Hst Hinfo Hpath Htruthy Hexists Hname Hread.
  destruct (hooks_return Hst) as (ps & Hhooks).
  pose proof (file_missing_found _ Htruthy Hexists) as Hmiss.
  run_download.
Qed.

(** X13. A run in which the library raises: the exception is reported
    once, with its text, through the generic message; the status label
    is not set to Download Failed and nothing is offered. *)
Theorem handle_download_library_error e :
  Forall has_status (ydl_extract_info opts url).1 →
  (ydl_extract_info opts url).2 = Raise e →
  trace = call_prefix p opts url ++ hooks.1 ++
    [ StError (lit "An unexpected error occurred: " ++ exn_msg e); SessionDelStatusBox ].
Proof.
  intros Hst Hinfo. destruct (hooks_return Hst) as (ps & Hhooks).
  run_download.
Qed.

(** X14. A run whose file exists but cannot be read: the status has
    already been set to complete when the failure is reported, and no
    download button is shown. *)
Theorem handle_download_read_error info_dict actual_filepath name e :
  Forall has_status (ydl_extract_info opts url).1 →
  (ydl_extract_info opts url).2 = Ok info_dict →
  resolve_filepath info_dict = Ok actual_filepath →
  truthy actual_filepath = true →
  os_path_exists actual_filepath = Ok true →
  os_path_basename actual_filepath = Ok name →
  read_bytes actual_filepath = Raise e →
  trace = call_prefix p opts url ++ hooks.1 ++
    [ StWrite ([9989%N] ++ lit " File saved as: " ++ name);
      StatusUpdate (lit "Download complete!") (Some (lit "complete")) (Some false);
      StError (lit "An unexpected error occurred: " ++ exn_msg e);
      SessionDelStatusBox ].
Proof.
  intros Hst Hinfo Hpath Htruthy Hexists Hname Hread.
  destruct (hooks_return Hst) as (ps & Hhooks).
  pose proof (file_missing_found _ Htruthy Hexists) as Hmiss.
  run_download.
Qed.

(** X15. A result whose list of requested downloads is empty is not
    reported as Download Failed: line 100 raises [IndexError], and the
    run ends with the generic message carrying its text. *)
Theorem handle_download_no_requested_downloads (d : pydict) :
  Forall has_status (ydl_extract_info opts url).1 →
  (ydl_extract_info opts url).2 = Ok (PyDict d) →
  d !! lit "requested_downloads" = Some (PyList []) →
  trace = call_prefix p opts url ++ hooks.1 ++
    [ StError (lit "An unexpected error occurred: list index out of range");
      SessionDelStatusBox ].
Proof.
  intros Hst Hinfo Hd. destruct (hooks_return Hst) as (ps & Hhooks).
  assert (resolve_filepath (PyDict d)
          = Raise (Exn IndexError (lit "list index out of range"))) as Hpath.
  { unfold resolve_filepath, py_get. by rewrite Hd. }
  run_download.
Qed.

End HandleDownloadRuns.

(** ** The page script *)

Lemma selectbox_elem {A} (options : list A) i q : selectbox options i = Some q → q ∈ options.
Proof.
  destruct options as [|o os]; [discriminate|]. cbn [selectbox]. intros [= <-].
  destruct ((o :: os) !! i) as [x|] eqn:Hx; simpl.
  - by eapply list_elem_of_lookup_2.
  - left.
Qed.

Lemma selectbox_nonempty {A} (options : list A) i :
  options ≠ [] → ∃ q, selectbox options i = Some q ∧ q ∈ options.
Proof.
  intros Hne. destruct options as [|o os]; [done|].
  eexists. split; [reflexivity|]. by apply (selectbox_elem _ i).
Qed.

Lemma format_type_of_cases format_choice :
  format_type_of format_choice = lit "mp3" ∨ format_type_of format_choice = lit "mp4".
Proof. unfold format_type_of. destruct (py_in _ _); [by left|by right]. Qed.

Section MainFacts.

Variable temp_dir : str.
Variable os_path_join : str → str → str.
Variable os_path_exists : pyval → result bool.
Variable os_path_basename : pyval → result str.
Variable read_bytes : pyval → result (list N).
Variable ydl_extract_info : YdlOptions → str → list pydict * result pyval.
Variable ydl_probe : str → probe.
Variable re_type_error : pyval → exn.

Let main' :=
  main temp_dir os_path_join os_path_exists os_path_basename read_bytes ydl_extract_info
    ydl_probe re_type_error.
Let video_section' :=
  video_section temp_dir os_path_join os_path_exists os_path_basename read_bytes
    ydl_extract_info re_type_error.
Let download' :=
  handle_download temp_dir os_path_join os_path_exists os_path_basename read_bytes
    ydl_extract_info.

Lemma note_url_empty s : note_url s [] = s.
Proof. reflexivity. Qed.

Lemma note_url_last s url : url ≠ [] → last_url (note_url s url) = Some url.
Proof.
  intros Hu. unfold note_url. rewrite (bool_decide_eq_false_2 _ Hu).
  case_bool_decide as Hl; [exact Hl|reflexivity].
Qed.

Lemma note_url_same s url : last_url s = Some url → note_url s url = s.
Proof.
  intros Hl. unfold note_url. rewrite (bool_decide_eq_true_2 _ Hl).
  by rewrite andb_false_r.
Qed.

Lemma note_url_new s url :
  url ≠ [] → last_url s ≠ Some url →
  note_url s url = {| video_info := None; available_qualities := []; last_url := Some url |}.
Proof.
  intros Hu Hl. unfold note_url.
  by rewrite (bool_decide_eq_false_2 _ Hu), (bool_decide_eq_false_2 _ Hl).
Qed.

Lemma analyze_last_url s url : last_url (final (analyze ydl_probe s url)) = last_url s.
Proof.
  unfold analyze. case_bool_decide; [reflexivity|].
  destruct (get_video_info ydl_probe url) as [info|e]; [|reflexivity].
  destruct (info_truthy info); [|reflexivity].
  by destruct (extract_available_qualities _).
Qed.

Lemma analyze_no_download s url :
  Forall (λ e, is_download e = false) (shown (analyze ydl_probe s url)).
Proof.
  unfold analyze. case_bool_decide; [by repeat constructor|].
  destruct (get_video_info ydl_probe url) as [info|e]; [|by repeat constructor].
  destruct (info_truthy info); [|by repeat constructor].
  destruct (extract_available_qualities _); by repeat constructor.
Qed.

Lemma main_final s w : final (main' s w) = final (analysis ydl_probe s w).
Proof.
  unfold main', main. by destruct (raised (analysis ydl_probe s w)).
Qed.

Lemma main_shown s w :
  shown (main' s w) =
  page_head ++ shown (analysis ydl_probe s w) ++
  match raised (analysis ydl_probe s w) with
  | Some _ => []
  | None => (video_section' (final (analysis ydl_probe s w)) w).1
  end.
Proof.
  unfold main', main.
  destruct (raised (analysis ydl_probe s w)); cbn [shown]; [by rewrite app_nil_r|reflexivity].
Qed.

Lemma analysis_no_download s w :
  Forall (λ e, is_download e = false) (shown (analysis ydl_probe s w)).
Proof.
  unfold analysis. destruct (analyze_clicked w); [apply analyze_no_download|constructor].
Qed.

Lemma video_section_download s w url t ft q tr :
  MDownload url t ft q tr ∈ (video_section' s w).1 →
  download_clicked w = true ∧ url = url_input w ∧
  info_truthy (video_info s) = true ∧
  default (PyStr (lit "Untitled")) (default ∅ (video_info s) !! lit "title") = PyStr t ∧
  ((ft = lit "mp3" ∧ q ∈ mp3_bitrates) ∨ (ft = lit "mp4" ∧ q ∈ available_qualities s)) ∧
  q ≠ [] ∧ tr = download' url t ft q.
Proof.
  unfold video_section', video_section.
  destruct (info_truthy (video_info s)); [|by intros ?%elem_of_nil].
  set (title := default (PyStr (lit "Untitled")) (default ∅ (video_info s) !! lit "title")).
  set (ft' := format_type_of _).
  assert (∀ l : list main_effect,
            MDownload url t ft q tr ∈
              (if truthy (default PyNone (default ∅ (video_info s) !! lit "thumbnail"))
               then [MImage (default PyNone (default ∅ (video_info s) !! lit "thumbnail"))]
               else []) ++
              [MSubheader title; MRadio (lit "**1. Choose format**") format_choices;
               MWrite (lit "**2. Choose quality**");
               if bool_decide (ft' = lit "mp3")
               then MSelectbox (lit "Audio Bitrate (lower is faster)") mp3_bitrates
               else MSelectbox (lit "Video Resolution (higher is slower)")
                      (available_qualities s);
               MButton (lit "Start Download")] ++ l →
            MDownload url t ft q tr ∈ l) as Hpage.
  { intros l. rewrite elem_of_app. intros [H|H].
    - destruct (truthy _); [|by apply elem_of_nil in H].
      apply list_elem_of_singleton in H. discriminate.
    - repeat (apply elem_of_cons in H as [H|H];
              [by (discriminate H || (destruct (bool_decide _); discriminate H))|]).
      exact H. }
  destruct (download_clicked w); cbn [fst].
  2:{ intros H. rewrite <- (app_nil_r (_ ++ _)), <- app_assoc in H.
      apply Hpage in H. by apply elem_of_nil in H. }
  destruct (quality_choice s w ft') as [[|c q']|] eqn:Hq; cbn [fst].
  1,3: intros H; rewrite <- (app_nil_r (_ ++ _)), <- app_assoc in H;
       apply Hpage in H; by apply elem_of_nil in H.
  rewrite <- app_assoc. intros H%Hpage.
  unfold start_download in H. destruct title as [| | | |t'| |] eqn:Ht;
    cbn [fst] in H; try (by apply elem_of_nil in H).
  apply list_elem_of_singleton in H. injection H as -> -> -> -> ->.
  split; [reflexivity|]. split; [reflexivity|]. split; [reflexivity|].
  split; [reflexivity|]. split; [|split; [done|reflexivity]].
  unfold quality_choice in Hq. case_bool_decide as Hft.
  - left. split; [exact Hft|]. by apply selectbox_elem in Hq.
  - right. split; [|by apply selectbox_elem in Hq].
    by destruct (format_type_of_cases
                   (radio ([127926%N] ++ lit " MP3 (Audio)") [[127916%N] ++ lit " MP4 (Video)"]
                      (format_index w))).
Qed.

(** X16. A download is started only in a run where Start Download was
    clicked and a video is cached: it gets the URL typed in, the cached
    title, the format type mp3 with one of the four bit rates or the
    format type mp4 with a label of the cached quality list, never an
    empty quality. *)
Theorem main_download_guard s w url t ft q tr :
  MDownload url t ft q tr ∈ shown (main' s w) →
  download_clicked w = true ∧ url = url_input w ∧
  info_truthy (video_info (final (main' s w))) = true ∧
  default (PyStr (lit "Untitled"))
    (default ∅ (video_info (final (main' s w))) !! lit "title") = PyStr t ∧
  ((ft = lit "mp3" ∧ q ∈ mp3_bitrates) ∨
   (ft = lit "mp4" ∧ q ∈ available_qualities (final (main' s w)))) ∧
  q ≠ [] ∧ tr = download' url t ft q.
Proof.
  rewrite main_shown, main_final, !elem_of_app. intros [H|[H|H]].
  - unfold page_head in H.
    repeat (apply elem_of_cons in H as [H|H]; [discriminate H|]). by apply elem_of_nil in H.
  - pose proof (analysis_no_download s w) as Hno. rewrite Forall_forall in Hno.
    specialize (Hno _ H). discriminate.
  - destruct (raised (analysis ydl_probe s w)); [by apply elem_of_nil in H|].
    by apply video_section_download.
Qed.

(** X17. Typing a new URL without analyzing it drops the cached video
    and quality list and shows only the head of the page. *)
Theorem main_url_change_clears s w :
  url_input w ≠ [] → last_url s ≠ Some (url_input w) → analyze_clicked w = false →
  main' s w =
  {| final := {| video_info := None; available_qualities := []; last_url := Some (url_input w) |};
     shown := page_head; raised := None |}.
Proof.
  intros Hu Hl Ha. unfold main', main, analysis. rewrite Ha, (note_url_new _ _ Hu Hl).
  cbn [raised final shown]. unfold video_section. cbn [video_info info_truthy].
  cbn [fst snd]. by rewrite !app_nil_r.
Qed.

(** X18. After a run with a URL typed in, that URL is the last URL of
    the session, whatever else happened in the run; a run with the URL
    field empty leaves the session as it was, cached video included. *)
Theorem main_tracks_url s w :
  (url_input w ≠ [] → last_url (final (main' s w)) = Some (url_input w)) ∧
  (url_input w = [] → final (main' s w) = s).
Proof.
  rewrite main_final. unfold analysis. split.
  - intros Hu. destruct (analyze_clicked w).
    + rewrite analyze_last_url. by apply note_url_last.
    + by apply note_url_last.
  - intros ->. rewrite note_url_empty. by destruct (analyze_clicked w).
Qed.

Lemma note_url_video_of_last_url s url :
  video_of_last_url ydl_probe s → video_of_last_url ydl_probe (note_url s url).
Proof. unfold note_url. by destruct (_ && _). Qed.

Lemma main_video_of_last_url s w :
  video_of_last_url ydl_probe s → video_of_last_url ydl_probe (final (main' s w)).
Proof.
  intros Hs. rewrite main_final. unfold analysis.
  destruct (analyze_clicked w); [|by apply note_url_video_of_last_url].
  pose proof (note_url_video_of_last_url s (url_input w) Hs) as Hs1.
  unfold analyze. case_bool_decide as Hu; [exact Hs1|].
  pose proof (note_url_last s _ Hu) as Hl.
  destruct (get_video_info ydl_probe (url_input w)) as [info|e] eqn:Hget; [|exact Hs1].
  destruct (info_truthy info) eqn:Hinfo; [|done].
  destruct (extract_available_qualities _); intros _; exists (url_input w); done.
Qed.

(** X19. In every session reached from a new one, a cached video is the
    one the library returned for the last URL, and that URL is not
    empty. *)
Theorem interact_video_of_last_url (ws : list widgets) :
  info_truthy (video_info (interact temp_dir os_path_join os_path_exists os_path_basename
                             read_bytes ydl_extract_info ydl_probe re_type_error
                             new_session ws)) = true →
  ∃ url,
    last_url (interact temp_dir os_path_join os_path_exists os_path_basename read_bytes
                ydl_extract_info ydl_probe re_type_error new_session ws) = Some url ∧
    url ≠ [] ∧
    get_video_info ydl_probe url
      = Ok (video_info (interact temp_dir os_path_join os_path_exists os_path_basename
                          read_bytes ydl_extract_info ydl_probe re_type_error
                          new_session ws)).
Proof.
  change (video_of_last_url ydl_probe
            (interact temp_dir os_path_join os_path_exists os_path_basename read_bytes
               ydl_extract_info ydl_probe re_type_error new_session ws)).
  unfold interact. fold main'.
  assert (video_of_last_url ydl_probe new_session) as H0 by done.
  revert H0. generalize new_session. induction ws as [|w ws IH]; intros s Hs; [exact Hs|].
  cbn [fold_left]. by apply IH, main_video_of_last_url.
Qed.

End MainFacts.

Lemma quality_label_nonempty i : quality_label i ≠ [].
Proof. unfold quality_label. intros H. apply app_eq_nil in H as [_ H]. discriminate. Qed.

Lemma extract_available_qualities_labels_nonempty info_dict qualities :
  extract_available_qualities info_dict = Ok qualities →
  qualities ≠ [] ∧ Forall (λ q, q ≠ []) qualities.
Proof.
  intros H. split; [by eapply extract_available_qualities_nonempty|]. revert H.
  unfold extract_available_qualities.
  destruct (py_iter _) as [formats|e]; [|discriminate]. cbn [mbind result_bind].
  destruct (for_each collect_quality ∅ formats) as [q|e]; [|discriminate].
  cbn [mbind result_bind].
  destruct (set_is_empty q); [intros [= <-]; by repeat constructor|].
  intros Hl. apply comprehension_returns in Hl as [_ ->].
  apply Forall_fmap, Forall_forall. intros i _. apply quality_label_nonempty.
Qed.

Lemma get_video_info_some ydl_probe url d :
  get_video_info ydl_probe url = Ok (Some d) → ydl_probe url = ProbeReturns (Some d).
Proof. unfold get_video_info. destruct (ydl_probe url); by intros [= ->]. Qed.

Section MainSessions.

Variable temp_dir : str.
Variable os_path_join : str → str → str.
Variable os_path_exists : pyval → result bool.
Variable os_path_basename : pyval → result str.
Variable read_bytes : pyval → result (list N).
Variable ydl_extract_info : YdlOptions → str → list pydict * result pyval.
Variable ydl_probe : str → probe.
Variable re_type_error : pyval → exn.

Let main' :=
  main temp_dir os_path_join os_path_exists os_path_basename read_bytes ydl_extract_info
    ydl_probe re_type_error.
Let interact' :=
  interact temp_dir os_path_join os_path_exists os_path_basename read_bytes ydl_extract_info
    ydl_probe re_type_error.
Let download' :=
  handle_download temp_dir os_path_join os_path_exists os_path_basename read_bytes
    ydl_extract_info.

Lemma note_url_qualities_of_video s url :
  qualities_of_video s → qualities_of_video (note_url s url).
Proof. unfold note_url. by destruct (_ && _). Qed.

Lemma main_qualities_of_video s w :
  well_formed_library ydl_probe →
  qualities_of_video s → qualities_of_video (final (main' s w)).
Proof.
  intros Hwf Hs. unfold main'. rewrite main_final. unfold analysis.
  destruct (analyze_clicked w); [|by apply note_url_qualities_of_video].
  pose proof (note_url_qualities_of_video s (url_input w) Hs) as Hs1.
  unfold analyze. case_bool_decide as Hu; [exact Hs1|].
  destruct (get_video_info ydl_probe (url_input w)) as [[d|]|e] eqn:Hget;
    [|done|exact Hs1].
  destruct (info_truthy (Some d)) eqn:Hd; [|done].
  apply get_video_info_some in Hget. destruct (Hwf _ _ Hget) as (fs & Hfs & Hprint).
  destruct (extract_available_qualities_returns d fs Hfs Hprint) as (qualities & Hres).
  cbn [default from_option id]. rewrite Hres. intros _. by exists d.
Qed.

(** X20. With a library whose metadata is well formed (formats missing
    or a list of dictionaries, accepted heights of at most 4300 decimal
    digits), in every session reached from a new one a cached video comes
    with the quality list extracted from it, and that list is not empty:
    the resolution select box of a displayed video always has an
    option. *)
Theorem interact_qualities_of_video (ws : list widgets) :
  well_formed_library ydl_probe →
  info_truthy (video_info (interact' new_session ws)) = true →
  ∃ d, video_info (interact' new_session ws) = Some d ∧
    extract_available_qualities d = Ok (available_qualities (interact' new_session ws)) ∧
    available_qualities (interact' new_session ws) ≠ [].
Proof.
  intros Hwf.
  assert (qualities_of_video (interact' new_session ws)) as Hq.
  { unfold interact', interact. fold main'.
    assert (qualities_of_video new_session) as H0 by done.
    revert H0. generalize new_session. induction ws as [|w ws IH]; intros s Hs; [exact Hs|].
    cbn [fold_left]. by apply IH, main_qualities_of_video. }
  intros Ht. destruct (Hq Ht) as (d & Hd & Hres). exists d.
  split; [exact Hd|]. split; [exact Hres|].
  by eapply extract_available_qualities_nonempty.
Qed.

(** X21. Analyzing a URL for which the library raises [DownloadError] or
    returns nothing reports that the video was not found, leaves no
    cached video, and shows nothing of the video part of the page. *)
Theorem main_analyze_not_found s w :
  analyze_clicked w = true → url_input w ≠ [] →
  (∃ msg, ydl_probe (url_input w) = ProbeDownloadError msg) ∨
  (∃ info, ydl_probe (url_input w) = ProbeReturns info ∧ info_truthy info = false) →
  main' s w =
  {| final := {| video_info := None;
                 available_qualities := available_qualities (note_url s (url_input w));
                 last_url := Some (url_input w) |};
     shown := page_head ++ [MSpinner (lit "Analyzing..."); MProbe (url_input w);
                            MError (lit "Video not found. Please check the URL.")];
     raised := None |}.
Proof.
  intros Ha Hu Hprobe. unfold main', main, analysis. rewrite Ha.
  assert (∃ info, get_video_info ydl_probe (url_input w) = Ok info ∧ info_truthy info = false)
    as (info & Hget & Hinfo).
  { unfold get_video_info. destruct Hprobe as [[msg ->]|(info & -> & Hinfo)]; eauto. }
  unfold analyze. rewrite (bool_decide_eq_false_2 _ Hu), Hget, Hinfo.
  cbn [raised final shown]. rewrite (note_url_last _ _ Hu).
  unfold video_section. cbn [video_info info_truthy fst snd]. by rewrite app_nil_r.
Qed.

(** X22. When the extraction of the qualities raises, the run ends with
    that exception after the video has been cached: the session keeps the
    new video together with the quality list it had before. *)
Theorem main_analyze_extract_error s w d e :
  analyze_clicked w = true → url_input w ≠ [] →
  ydl_probe (url_input w) = ProbeReturns (Some d) → d ≠ ∅ →
  extract_available_qualities d = Raise e →
  main' s w =
  {| final := {| video_info := Some d;
                 available_qualities := available_qualities (note_url s (url_input w));
                 last_url := Some (url_input w) |};
     shown := page_head ++ [MSpinner (lit "Analyzing..."); MProbe (url_input w)];
     raised := Some e |}.
Proof.
  intros Ha Hu Hprobe Hd Hex. unfold main', main, analysis. rewrite Ha.
  unfold analyze, get_video_info. rewrite (bool_decide_eq_false_2 _ Hu), Hprobe.
  assert (info_truthy (Some d) = true) as ->.
  { cbn [info_truthy truthy]. apply negb_true_iff, bool_decide_eq_false_2.
    by rewrite dom_empty_iff_L. }
  cbn [default from_option id]. rewrite Hex. cbn [raised final shown].
  by rewrite (note_url_last _ _ Hu).
Qed.

(** X23. An exception of the library other than [DownloadError] is not
    caught: it ends the run, with the session as it was after the URL was
    noted. *)
Theorem main_analyze_library_exception s w e :
  analyze_clicked w = true → url_input w ≠ [] →
  ydl_probe (url_input w) = ProbeRaises e →
  main' s w =
  {| final := note_url s (url_input w);
     shown := page_head ++ [MSpinner (lit "Analyzing..."); MProbe (url_input w)];
     raised := Some e |}.
Proof.
  intros Ha Hu Hprobe. unfold main', main, analysis. rewrite Ha.
  unfold analyze, get_video_info. by rewrite (bool_decide_eq_false_2 _ Hu), Hprobe.
Qed.

(** X24. With a cached video whose title is a string and whose quality
    list is the one extracted from it, a click on Start Download starts
    one download, whatever is chosen in the radio and the select boxes:
    in mp3 mode with one of the four bit rates, in mp4 mode with a label
    of the quality list; the session is unchanged. *)
Theorem main_download_starts s w t :
  info_truthy (video_info s) = true → qualities_of_video s →
  default (PyStr (lit "Untitled")) (default ∅ (video_info s) !! lit "title") = PyStr t →
  analyze_clicked w = false → download_clicked w = true →
  url_input w = [] ∨ last_url s = Some (url_input w) →
  ∃ ft q,
    ((ft = lit "mp3" ∧ q ∈ mp3_bitrates) ∨ (ft = lit "mp4" ∧ q ∈ available_qualities s)) ∧
    last (shown (main' s w)) = Some (MDownload (url_input w) t ft q (download' (url_input w) t ft q)) ∧
    raised (main' s w) = None ∧ final (main' s w) = s.
Proof.
  intros Hv Hq Ht Ha Hc Hu.
  assert (note_url s (url_input w) = s) as Hs.
  { destruct Hu as [->|Hl]; [apply note_url_empty|by apply note_url_same]. }
  destruct (Hq Hv) as (d & _ & Hres).
  destruct (extract_available_qualities_labels_nonempty _ _ Hres) as [Hne Hall].
  unfold main', main, analysis. rewrite Ha, Hs. cbn [raised final shown].
  unfold video_section. rewrite Hv, Ht, Hc.
  set (ft := format_type_of _).
  assert (∃ c q, quality_choice s w ft = Some (c :: q) ∧
            ((ft = lit "mp3" ∧ c :: q ∈ mp3_bitrates) ∨
             (ft = lit "mp4" ∧ c :: q ∈ available_qualities s))) as (c & q & Hch & Hcases).
  { unfold quality_choice. case_bool_decide as Hft.
    - destruct (selectbox_nonempty mp3_bitrates (bitrate_index w)) as (q & -> & Hin); [done|].
      assert (Forall (λ q : str, q ≠ []) mp3_bitrates) as Hb by (by repeat constructor).
      rewrite Forall_forall in Hb. specialize (Hb _ Hin).
      destruct q as [|c q]; [done|]. exists c, q. split; [reflexivity|]. by left.
    - destruct (selectbox_nonempty (available_qualities s) (resolution_index w))
        as (q & -> & Hin); [done|].
      rewrite Forall_forall in Hall. specialize (Hall _ Hin).
      destruct q as [|c q]; [done|]. exists c, q. split; [reflexivity|]. right.
      split; [|exact Hin]. subst ft. by destruct (format_type_of_cases
        (radio ([127926%N] ++ lit " MP3 (Audio)") [[127916%N] ++ lit " MP4 (Video)"]
           (format_index w))). }
  rewrite Hch. unfold start_download. cbn [fst snd].
  exists ft, (c :: q). split; [exact Hcases|]. split; [|split; reflexivity].
  rewrite !app_assoc. apply last_snoc.
Qed.

End MainSessions.

(** ** The further properties on concrete runs *)

Lemma finished_events_have_status : Forall has_status [finished_event; finished_event].
Proof. repeat constructor; eexists; apply lookup_singleton_eq. Qed.

Lemma resolve_example_path :
  resolve_filepath (info_with_filepath "/tmp/tmpk3/A video.mp4") = Ok (PyStr example_path).
Proof. vm_compute. reflexivity. Qed.

Lemma handle_download_success_trace_witness :
  handle_download (lit "/tmp/tmpk3") example_join (example_exists [example_path])
    example_basename example_read
    (example_ydl [finished_event; finished_event]
       (Ok (info_with_filepath "/tmp/tmpk3/A video.mp4")))
    example_url (lit "A video") (lit "mp4") (lit "720p")
  = call_prefix (download_plan (lit "mp4") (lit "720p"))
      (ydl_opts (lit "/tmp/tmpk3") example_join (lit "A video") (lit "mp4") (lit "720p"))
      example_url
    ++ (run_hooks [finished_event; finished_event]
          (plan_progress (download_plan (lit "mp4") (lit "720p")))).1
    ++ [ StWrite ([9989%N] ++ lit " File saved as: " ++ lit "A video.mp4");
         StatusUpdate (lit "Download complete!") (Some (lit "complete")) (Some false);
         StDownloadButton ([128229%N] ++ lit " Download " ++ lit "A video.mp4") []
           (lit "A video.mp4") (lit "video/mp4") true;
         SessionDelStatusBox ].
Proof.
  exact (handle_download_success_trace (lit "/tmp/tmpk3") example_join
           (example_exists [example_path]) example_basename example_read
           (example_ydl [finished_event; finished_event]
              (Ok (info_with_filepath "/tmp/tmpk3/A video.mp4")))
           example_url (lit "A video") (lit "mp4") (lit "720p")
           (info_with_filepath "/tmp/tmpk3/A video.mp4") (PyStr example_path)
           (lit "A video.mp4") []
           finished_events_have_status eq_refl resolve_example_path eq_refl eq_refl
           eq_refl eq_refl).
Defined.

Lemma handle_download_library_error_witness :
  handle_download (lit "/tmp/tmpk3") example_join (example_exists []) example_basename
    example_read
    (example_ydl [finished_event; finished_event]
       (Raise (Exn OtherError (lit "ERROR: Video unavailable"))))
    example_url (lit "A video") (lit "mp3") (lit "192")
  = call_prefix (download_plan (lit "mp3") (lit "192"))
      (ydl_opts (lit "/tmp/tmpk3") example_join (lit "A video") (lit "mp3") (lit "192"))
      example_url
    ++ (run_hooks [finished_event; finished_event]
          (plan_progress (download_plan (lit "mp3") (lit "192")))).1
    ++ [ StError (lit "An unexpected error occurred: " ++ lit "ERROR: Video unavailable");
         SessionDelStatusBox ].
Proof.
  exact (handle_download_library_error (lit "/tmp/tmpk3") example_join (example_exists [])
           example_basename example_read
           (example_ydl [finished_event; finished_event]
              (Raise (Exn OtherError (lit "ERROR: Video unavailable"))))
           example_url (lit "A video") (lit "mp3") (lit "192")
           (Exn OtherError (lit "ERROR: Video unavailable"))
           finished_events_have_status eq_refl).
Defined.

Lemma handle_download_read_error_witness :
  handle_download (lit "/tmp/tmpk3") example_join (example_exists [example_path])
    example_basename failing_read
    (example_ydl [finished_event; finished_event]
       (Ok (info_with_filepath "/tmp/tmpk3/A video.mp4")))
    example_url (lit "A video") (lit "mp4") (lit "720p")
  = call_prefix (download_plan (lit "mp4") (lit "720p"))
      (ydl_opts (lit "/tmp/tmpk3") example_join (lit "A video") (lit "mp4") (lit "720p"))
      example_url
    ++ (run_hooks [finished_event; finished_event]
          (plan_progress (download_plan (lit "mp4") (lit "720p")))).1
    ++ [ StWrite ([9989%N] ++ lit " File saved as: " ++ lit "A video.mp4");
         StatusUpdate (lit "Download complete!") (Some (lit "complete")) (Some false);
         StError (lit "An unexpected error occurred: " ++ lit "[Errno 13] Permission denied");
         SessionDelStatusBox ].
Proof.
  exact (handle_download_read_error (lit "/tmp/tmpk3") example_join
           (example_exists [example_path]) example_basename failing_read
           (example_ydl [finished_event; finished_event]
              (Ok (info_with_filepath "/tmp/tmpk3/A video.mp4")))
           example_url (lit "A video") (lit "mp4") (lit "720p")
           (info_with_filepath "/tmp/tmpk3/A video.mp4") (PyStr example_path)
           (lit "A video.mp4") (Exn OtherError (lit "[Errno 13] Permission denied"))
           finished_events_have_status eq_refl resolve_example_path eq_refl eq_refl
           eq_refl eq_refl).
Defined.

Lemma handle_download_no_requested_downloads_witness :
  handle_download (lit "/tmp/tmpk3") example_join (example_exists []) example_basename
    example_read
    (example_ydl [finished_event; finished_event]
       (Ok (PyDict {[ lit "requested_downloads" := PyList [] ]})))
    example_url (lit "A video") (lit "mp3") (lit "192")
  = call_prefix (download_plan (lit "mp3") (lit "192"))
      (ydl_opts (lit "/tmp/tmpk3") example_join (lit "A video") (lit "mp3") (lit "192"))
      example_url
    ++ (run_hooks [finished_event; finished_event]
          (plan_progress (download_plan (lit "mp3") (lit "192")))).1
    ++ [ StError (lit "An unexpected error occurred: list index out of range");
         SessionDelStatusBox ].
Proof.
  exact (handle_download_no_requested_downloads (lit "/tmp/tmpk3") example_join
           (example_exists []) example_basename example_read
           (example_ydl [finished_event; finished_event]
              (Ok (PyDict {[ lit "requested_downloads" := PyList [] ]})))
           example_url (lit "A video") (lit "mp3") (lit "192")
           {[ lit "requested_downloads" := PyList [] ]}
           finished_events_have_status eq_refl (lookup_singleton_eq _ _)).
Defined.

Lemma handle_download_exposes_witness :
  Exists (λ e, is_download_button e = true)
    (handle_download (lit "/tmp/tmpk3") example_join (example_exists [example_path])
       example_basename example_read
       (example_ydl [finished_event; finished_event]
          (Ok (info_with_filepath "/tmp/tmpk3/A video.mp4")))
       example_url (lit "A video") (lit "mp4") (lit "720p")) ∧
  ∃ info_dict actual_filepath,
    Ok (info_with_filepath "/tmp/tmpk3/A video.mp4") = Ok info_dict ∧
    resolve_filepath info_dict = Ok actual_filepath ∧
    truthy actual_filepath = true ∧
    example_exists [example_path] actual_filepath = Ok true.
Proof.
  assert (Exists (λ e, is_download_button e = true)
            (handle_download (lit "/tmp/tmpk3") example_join (example_exists [example_path])
               example_basename example_read
               (example_ydl [finished_event; finished_event]
                  (Ok (info_with_filepath "/tmp/tmpk3/A video.mp4")))
               example_url (lit "A video") (lit "mp4") (lit "720p"))) as Hex.
  { apply (bool_decide_unpack _). vm_compute. exact I. }
  split; [exact Hex|].
  exact (handle_download_exposes _ _ _ _ _ _ _ _ _ _ Hex).
Defined.

Lemma example_probe_well_formed : well_formed_library example_probe.
Proof.
  intros url d. unfold example_probe. case_bool_decide; [|discriminate].
  intros [= <-]. exists example_formats. split; [right; vm_compute; reflexivity|].
  printable_heights.
Qed.

Lemma analyzed_session_qualities : qualities_of_video analyzed_session.
Proof.
  intros _. exists example_metadata. split; [reflexivity|]. vm_compute. reflexivity.
Qed.

Lemma example_url_nonempty : example_url ≠ [].
Proof. discriminate. Qed.

Lemma main_download_guard_witness :
  MDownload example_url (lit "A video") (lit "mp4") (lit "1080p")
    (handle_download (lit "/tmp/tmpk3") example_join (example_exists [example_path])
       example_basename example_read
       (example_ydl [finished_event; finished_event]
          (Ok (info_with_filepath "/tmp/tmpk3/A video.mp4")))
       example_url (lit "A video") (lit "mp4") (lit "1080p"))
    ∈ shown (example_main analyzed_session (mp4_download_click example_url)) ∧
  download_clicked (mp4_download_click example_url) = true ∧
  (lit "mp4" = lit "mp3" ∧ lit "1080p" ∈ mp3_bitrates ∨
   lit "mp4" = lit "mp4" ∧
   lit "1080p" ∈ available_qualities
                   (final (example_main analyzed_session (mp4_download_click example_url)))).
Proof.
  assert (MDownload example_url (lit "A video") (lit "mp4") (lit "1080p")
            (handle_download (lit "/tmp/tmpk3") example_join (example_exists [example_path])
               example_basename example_read
               (example_ydl [finished_event; finished_event]
                  (Ok (info_with_filepath "/tmp/tmpk3/A video.mp4")))
               example_url (lit "A video") (lit "mp4") (lit "1080p"))
          ∈ shown (example_main analyzed_session (mp4_download_click example_url))) as Hin.
  { apply last_Some_elem_of. vm_compute. reflexivity. }
  split; [exact Hin|].
  destruct (main_download_guard _ _ _ _ _ _ _ _ _ _ _ _ _ _ _ Hin)
    as (Hc & _ & _ & _ & Hq & _).
  split; [exact Hc|exact Hq].
Defined.

Lemma main_url_change_clears_witness :
  example_main analyzed_session (type_url (lit "https://youtu.be/w")) =
  {| final := {| video_info := None; available_qualities := [];
                 last_url := Some (lit "https://youtu.be/w") |};
     shown := page_head; raised := None |}.
Proof.
  apply (main_url_change_clears (lit "/tmp/tmpk3") example_join
           (example_exists [example_path]) example_basename example_read
           (example_ydl [finished_event; finished_event]
              (Ok (info_with_filepath "/tmp/tmpk3/A video.mp4")))
           example_probe example_re_type_error analyzed_session
           (type_url (lit "https://youtu.be/w"))).
  - discriminate.
  - intros H. vm_compute in H. discriminate.
  - reflexivity.
Defined.

Lemma main_tracks_url_witness :
  last_url (final (example_main new_session (analyze_click example_url))) = Some example_url ∧
  final (example_main analyzed_session (mp4_download_click [])) = analyzed_session.
Proof.
  split.
  - apply (main_tracks_url (lit "/tmp/tmpk3") example_join (example_exists [example_path])
             example_basename example_read
             (example_ydl [finished_event; finished_event]
                (Ok (info_with_filepath "/tmp/tmpk3/A video.mp4")))
             example_probe example_re_type_error new_session (analyze_click example_url)).
    exact example_url_nonempty.
  - apply (main_tracks_url (lit "/tmp/tmpk3") example_join (example_exists [example_path])
             example_basename example_read
             (example_ydl [finished_event; finished_event]
                (Ok (info_with_filepath "/tmp/tmpk3/A video.mp4")))
             example_probe example_re_type_error analyzed_session (mp4_download_click [])).
    reflexivity.
Defined.

Lemma interact_video_of_last_url_witness :
  info_truthy (video_info (example_interact
                 [type_url (lit "https://youtu.be/w"); analyze_click example_url])) = true ∧
  ∃ url,
    last_url (example_interact
                [type_url (lit "https://youtu.be/w"); analyze_click example_url]) = Some url ∧
    url ≠ [] ∧
    get_video_info example_probe url
      = Ok (video_info (example_interact
                          [type_url (lit "https://youtu.be/w"); analyze_click example_url])).
Proof.
  assert (info_truthy (video_info (example_interact
            [type_url (lit "https://youtu.be/w"); analyze_click example_url])) = true) as Ht.
  { vm_compute. reflexivity. }
  split; [exact Ht|].
  exact (interact_video_of_last_url (lit "/tmp/tmpk3") example_join
           (example_exists [example_path]) example_basename example_read
           (example_ydl [finished_event; finished_event]
              (Ok (info_with_filepath "/tmp/tmpk3/A video.mp4")))
           example_probe example_re_type_error
           [type_url (lit "https://youtu.be/w"); analyze_click example_url] Ht).
Defined.

Lemma interact_qualities_of_video_witness :
  well_formed_library example_probe ∧
  ∃ d,
    video_info (example_interact
                  [type_url (lit "https://youtu.be/w"); analyze_click example_url]) = Some d ∧
    extract_available_qualities d
      = Ok (available_qualities (example_interact
              [type_url (lit "https://youtu.be/w"); analyze_click example_url])) ∧
    available_qualities (example_interact
      [type_url (lit "https://youtu.be/w"); analyze_click example_url]) ≠ [].
Proof.
  split; [exact example_probe_well_formed|].
  apply (interact_qualities_of_video (lit "/tmp/tmpk3") example_join
           (example_exists [example_path]) example_basename example_read
           (example_ydl [finished_event; finished_event]
              (Ok (info_with_filepath "/tmp/tmpk3/A video.mp4")))
           example_probe example_re_type_error
           [type_url (lit "https://youtu.be/w"); analyze_click example_url]
           example_probe_well_formed).
  vm_compute. reflexivity.
Defined.

Lemma main_analyze_not_found_witness :
  example_main analyzed_session (analyze_click (lit "https://youtu.be/w")) =
  {| final := {| video_info := None; available_qualities := [];
                 last_url := Some (lit "https://youtu.be/w") |};
     shown := page_head ++ [MSpinner (lit "Analyzing..."); MProbe (lit "https://youtu.be/w");
                            MError (lit "Video not found. Please check the URL.")];
     raised := None |}.
Proof.
  apply (main_analyze_not_found (lit "/tmp/tmpk3") example_join
           (example_exists [example_path]) example_basename example_read
           (example_ydl [finished_event; finished_event]
              (Ok (info_with_filepath "/tmp/tmpk3/A video.mp4")))
           example_probe example_re_type_error analyzed_session
           (analyze_click (lit "https://youtu.be/w"))).
  - reflexivity.
  - discriminate.
  - left. eexists. reflexivity.
Defined.

Lemma main_analyze_extract_error_witness :
  main (lit "/tmp/tmpk3") example_join (example_exists []) example_basename example_read
    (example_ydl [] (Ok PyNone)) broken_probe example_re_type_error
    new_session (analyze_click example_url) =
  {| final := {| video_info := Some broken_metadata; available_qualities := [];
                 last_url := Some example_url |};
     shown := page_head ++ [MSpinner (lit "Analyzing..."); MProbe example_url];
     raised := Some (Exn TypeError (lit "'NoneType' object is not iterable")) |}.
Proof.
  apply (main_analyze_extract_error (lit "/tmp/tmpk3") example_join (example_exists [])
           example_basename example_read (example_ydl [] (Ok PyNone)) broken_probe
           example_re_type_error new_session (analyze_click example_url) broken_metadata).
  - reflexivity.
  - exact example_url_nonempty.
  - reflexivity.
  - intros H. apply (f_equal (λ m : pydict, m !! lit "id")) in H.
    vm_compute in H. discriminate.
  - vm_compute. reflexivity.
Defined.

Lemma main_analyze_library_exception_witness :
  main (lit "/tmp/tmpk3") example_join (example_exists []) example_basename example_read
    (example_ydl [] (Ok PyNone)) failing_probe example_re_type_error
    analyzed_session (analyze_click example_url) =
  {| final := analyzed_session;
     shown := page_head ++ [MSpinner (lit "Analyzing..."); MProbe example_url];
     raised := Some (Exn OtherError (lit "network unreachable")) |}.
Proof.
  apply (main_analyze_library_exception (lit "/tmp/tmpk3") example_join (example_exists [])
           example_basename example_read (example_ydl [] (Ok PyNone)) failing_probe
           example_re_type_error analyzed_session (analyze_click example_url)).
  - reflexivity.
  - exact example_url_nonempty.
  - reflexivity.
Defined.

Lemma main_download_starts_witness :
  ∃ ft q,
    ((ft = lit "mp3" ∧ q ∈ mp3_bitrates) ∨
     (ft = lit "mp4" ∧ q ∈ available_qualities analyzed_session)) ∧
    last (shown (example_main analyzed_session (mp4_download_click example_url)))
      = Some (MDownload example_url (lit "A video") ft q
                (handle_download (lit "/tmp/tmpk3") example_join
                   (example_exists [example_path]) example_basename example_read
                   (example_ydl [finished_event; finished_event]
                      (Ok (info_with_filepath "/tmp/tmpk3/A video.mp4")))
                   example_url (lit "A video") ft q)) ∧
    raised (example_main analyzed_session (mp4_download_click example_url)) = None ∧
    final (example_main analyzed_session (mp4_download_click example_url)) = analyzed_session.
Proof.
  apply (main_download_starts (lit "/tmp/tmpk3") example_join
           (example_exists [example_path]) example_basename example_read
           (example_ydl [finished_event; finished_event]
              (Ok (info_with_filepath "/tmp/tmpk3/A video.mp4")))
           example_probe example_re_type_error analyzed_session
           (mp4_download_click example_url) (lit "A video")).
  - vm_compute. reflexivity.
  - exact analyzed_session_qualities.
  - vm_compute. reflexivity.
  - reflexivity.
  - reflexivity.
  - right. reflexivity.
Defined.

Lemma sanitize_filename_fixed_iff_witness :
  Forall (λ c, c ∉ forbidden_chars) (lit "Clip 01 (final)") ∧
  sanitize_filename (lit "Clip 01 (final)") = lit "Clip 01 (final)".
Proof.
  assert (Forall (λ c, c ∉ forbidden_chars) (lit "Clip 01 (final)")) as Hall.
  { apply (bool_decide_unpack _). vm_compute. exact I. }
  split; [exact Hall|].
  exact (proj2 (sanitize_filename_fixed_iff (lit "Clip 01 (final)")) Hall).
Defined.
